(** * Apollo theme: the validation scripts and the palette module

    A shallow embedding of the JavaScript/TypeScript helpers of the Apollo
    VS Code theme repository:

    - the WCAG luminance / contrast-ratio helpers of [test-colors.js],
      [test-semantic-validation.js] and the final light-theme test;
    - the hex-colour regular expressions;
    - the palette module ([BLUES_TEALS] ... [APOLLO_PALETTE] and the
      theme-construction helpers);
    - the two [try]/[catch] entry points [analyzeContrast] and
      [validateLightThemeStructure], and [testPathSeparators].

    Modelling conventions.

    - A JavaScript string is a [string]; a character is a code unit below
      256.
    - A JavaScript number is a [number]: either [NaN] or a finite value,
      idealised as a real.  Rounding of IEEE doubles is not modelled; the
      constants of the scripts ([0.03928], [12.92], ...) are the exact
      decimals.  Infinities are outside the model.
    - Exceptions are explicit: a computation that may throw returns a
      [completion]. *)

From Stdlib Require Import Reals Lra Lia ZArith Bool List String Ascii.
From Stdlib Require Import DecimalString.
Import ListNotations.

Set Warnings "-register-all".
Local Open Scope string_scope.

(* ===================================================================== *)
(** ** JavaScript numbers *)
(* ===================================================================== *)

Module JS.

Inductive number : Type :=
| NaN
| Num (x : R).

Definition add (a b : number) : number :=
  match a, b with
  | Num x, Num y => Num (x + y)
  | _, _ => NaN
  end.

Definition mul (a b : number) : number :=
  match a, b with
  | Num x, Num y => Num (x * y)
  | _, _ => NaN
  end.

(** [a / b].  JavaScript yields an infinity (or [NaN] for [0/0]) when a
    finite value is divided by zero; infinities are outside this model, so
    the case is mapped to [NaN].  The contrast ratio never divides by zero:
    its divisor is a luminance plus 0.05. *)
Definition div (a b : number) : number :=
  match a, b with
  | Num x, Num y => if Req_dec_T y 0 then NaN else Num (x / y)
  | _, _ => NaN
  end.

(** [a <= b], [a >= b], [a < b]: every comparison with [NaN] is false. *)
Definition leb (a b : number) : bool :=
  match a, b with
  | Num x, Num y => if Rle_dec x y then true else false
  | _, _ => false
  end.

Definition geb (a b : number) : bool := leb b a.

Definition ltb (a b : number) : bool :=
  match a, b with
  | Num x, Num y => if Rlt_dec x y then true else false
  | _, _ => false
  end.

(** [Math.max(a, b)] and [Math.min(a, b)]: [NaN] when an argument is. *)
Definition Math_max (a b : number) : number :=
  match a, b with
  | Num x, Num y => Num (Rmax x y)
  | _, _ => NaN
  end.

Definition Math_min (a b : number) : number :=
  match a, b with
  | Num x, Num y => Num (Rmin x y)
  | _, _ => NaN
  end.

(** [Math.pow(b, 2.4)], the only use of [Math.pow] in the scripts: [NaN]
    for a [NaN] or negative base, [0] at [0]. *)
Definition Math_pow_2_4 (b : number) : number :=
  match b with
  | NaN => NaN
  | Num x =>
      if Rlt_dec 0 x then Num (Rpower x 2.4)
      else if Req_dec_T x 0 then Num 0
      else NaN
  end.

(** *** Strings *)

(** The one-character string holding a double quote. *)
Definition dquote : string := String (ascii_of_nat 34) EmptyString.

(** [s.slice(from, to)] for non-negative indices: the code units from
    [from] up to, excluding, [to], clamped to the string. *)
Definition slice (from to : nat) (s : string) : string :=
  substring from (to - from) s.

Definition digit_between (lo hi c : ascii) : bool :=
  (nat_of_ascii lo <=? nat_of_ascii c)%nat && (nat_of_ascii c <=? nat_of_ascii hi)%nat.

(** The value of a radix-16 digit. *)
Definition hex_digit (c : ascii) : option Z :=
  if digit_between "0" "9" c then Some (Z.of_nat (nat_of_ascii c) - 48)%Z
  else if digit_between "a" "f" c then Some (Z.of_nat (nat_of_ascii c) - 87)%Z
  else if digit_between "A" "F" c then Some (Z.of_nat (nat_of_ascii c) - 55)%Z
  else None.

(** White space and line terminators skipped by [parseInt] (those below
    256: TAB, LF, VT, FF, CR, SP, NBSP). *)
Definition is_white_space (c : ascii) : bool :=
  match nat_of_ascii c with
  | 9 | 10 | 11 | 12 | 13 | 32 | 160 => true
  | _ => false
  end%nat.

Fixpoint trim_start (s : string) : string :=
  match s with
  | String c s' => if is_white_space c then trim_start s' else s
  | EmptyString => s
  end.

(** The longest prefix of radix-16 digits, read as an integer; [None] when
    the prefix is empty.  [acc] is the value read so far, [seen] whether a
    digit was read. *)
Fixpoint hex_prefix (acc : Z) (seen : bool) (s : string) : option Z :=
  match s with
  | String c s' =>
      match hex_digit c with
      | Some d => hex_prefix (16 * acc + d) true s'
      | None => if seen then Some acc else None
      end
  | EmptyString => if seen then Some acc else None
  end.

Definition strip_0x (s : string) : string :=
  match s with
  | String "0" (String "x" s') => s'
  | String "0" (String "X" s') => s'
  | _ => s
  end.

(** The integer [parseInt(s, 16)] reads: leading white space, an optional
    sign, an optional [0x] prefix, then the longest run of hex digits;
    [None] without one. *)
Definition parseInt16_Z (s : string) : option Z :=
  let s1 := trim_start s in
  let '(sign, s2) :=
    match s1 with
    | String "-" t => ((-1)%Z, t)
    | String "+" t => (1%Z, t)
    | _ => (1%Z, s1)
    end in
  match hex_prefix 0 false (strip_0x s2) with
  | Some n => Some (sign * n)%Z
  | None => None
  end.

(** [parseInt(s, 16)] *)
Definition parseInt16 (s : string) : number :=
  match parseInt16_Z s with
  | Some n => Num (IZR n)
  | None => NaN
  end.

End JS.

(* ===================================================================== *)
(** ** Regular expressions *)
(* ===================================================================== *)

(** The fragment of JavaScript regular expressions the scripts use: literal
    characters, character classes given by ranges, concatenation, a counted
    repetition [r{n}] and an optional group [(r)?].  Both patterns are
    anchored with [^] and [$] and carry no flag, so [test] succeeds exactly
    when the whole string is in the language; matching is by derivatives. *)
Module Regex.

Inductive regex : Type :=
| Empty                                   (* matches nothing *)
| Eps                                     (* matches the empty string *)
| Chr (c : ascii)                         (* a literal character *)
| Class (ranges : list (ascii * ascii))   (* [a-bc-d...] *)
| Cat (r1 r2 : regex)
| Alt (r1 r2 : regex).

(** [r{n}] *)
Fixpoint Rep (n : nat) (r : regex) : regex :=
  match n with
  | O => Eps
  | S n' => Cat r (Rep n' r)
  end.

(** [(r)?] *)
Definition Opt (r : regex) : regex := Alt r Eps.

Definition in_class (ranges : list (ascii * ascii)) (c : ascii) : bool :=
  existsb (fun '(lo, hi) => JS.digit_between lo hi c) ranges.

Fixpoint nullable (r : regex) : bool :=
  match r with
  | Empty => false
  | Eps => true
  | Chr _ => false
  | Class _ => false
  | Cat r1 r2 => nullable r1 && nullable r2
  | Alt r1 r2 => nullable r1 || nullable r2
  end.

Fixpoint deriv (c : ascii) (r : regex) : regex :=
  match r with
  | Empty => Empty
  | Eps => Empty
  | Chr c' => if Ascii.eqb c c' then Eps else Empty
  | Class ranges => if in_class ranges c then Eps else Empty
  | Cat r1 r2 =>
      if nullable r1
      then Alt (Cat (deriv c r1) r2) (deriv c r2)
      else Cat (deriv c r1) r2
  | Alt r1 r2 => Alt (deriv c r1) (deriv c r2)
  end.

(** [/^r$/.test(s)] *)
Fixpoint test (r : regex) (s : string) : bool :=
  match s with
  | EmptyString => nullable r
  | String c s' => test (deriv c r) s'
  end.

(** The language of a regular expression, for the correctness of [test]. *)
Inductive lang : regex -> string -> Prop :=
| lang_eps : lang Eps ""
| lang_chr c : lang (Chr c) (String c "")
| lang_class ranges c :
    in_class ranges c = true -> lang (Class ranges) (String c "")
| lang_cat r1 r2 s1 s2 :
    lang r1 s1 -> lang r2 s2 -> lang (Cat r1 r2) (s1 ++ s2)
| lang_alt_l r1 r2 s : lang r1 s -> lang (Alt r1 r2) s
| lang_alt_r r1 r2 s : lang r2 s -> lang (Alt r1 r2) s.

End Regex.

(* ===================================================================== *)
(** ** Hex-colour syntax *)
(* ===================================================================== *)

Module HexColor.
Import Regex.

(** [[0-9A-Fa-f]] *)
Definition hex_class : regex :=
  Class [("0", "9"); ("A", "F"); ("a", "f")]%char.

(** colors.ts and test-light-validation.js:
    [/^#[0-9A-Fa-f]{6}$/.test(color)] *)
Definition isValidHexColor (color : string) : bool :=
  test (Cat (Chr "#") (Rep 6 hex_class)) color.

(** test-semantic-validation.js, "hex colors with or without alpha":
    [/^#[0-9A-Fa-f]{6}([0-9A-Fa-f]{2})?$/.test(color)] *)
Definition isValidColor (color : string) : bool :=
  test (Cat (Chr "#") (Cat (Rep 6 hex_class) (Opt (Rep 2 hex_class)))) color.

(** The claim's words: a hexadecimal digit is one of 0-9, a-f, A-F. *)
Definition is_hex_char (c : ascii) : Prop :=
  In c (list_ascii_of_string "0123456789abcdefABCDEF").

(** Membership among the 22 hexadecimal digits, as a test. *)
Definition is_hex_charb (c : ascii) : bool :=
  existsb (Ascii.eqb c) (list_ascii_of_string "0123456789abcdefABCDEF").

(** The claim's words: ['#'] followed by exactly six hexadecimal digits. *)
Definition HashSixHex (s : string) : Prop :=
  exists d1 d2 d3 d4 d5 d6 : ascii,
    s = String "#" (String d1 (String d2 (String d3
          (String d4 (String d5 (String d6 ""))))))
    /\ Forall is_hex_char [d1; d2; d3; d4; d5; d6].

(** The 8-bit channel written by two hex digits. *)
Definition channel8 (hi lo : ascii) : Z :=
  match JS.hex_digit hi, JS.hex_digit lo with
  | Some h, Some l => 16 * h + l
  | _, _ => 0
  end%Z.

End HexColor.

(* ===================================================================== *)
(** ** Values, exceptions, the host *)
(* ===================================================================== *)

Module Dyn.

(** A JavaScript value as [JSON.parse] builds it, and [undefined] for a
    property that is absent. *)
Inductive value : Type :=
| VUndefined
| VNull
| VBool (b : bool)
| VNumber (n : JS.number)
| VString (s : string)
| VArray (elems : list value)
| VObject (props : list (string * value)).

(** A thrown [Error]: its constructor name and its [message]. *)
Record exn : Type := Error { name : string; message : string }.

Definition TypeError (msg : string) : exn := Error "TypeError" msg.

Inductive completion (A : Type) : Type :=
| Normal (a : A)
| Throw (e : exn).

Arguments Normal {A} a.
Arguments Throw {A} e.

Definition bind {A B : Type} (c : completion A) (k : A -> completion B)
  : completion B :=
  match c with
  | Normal a => k a
  | Throw e => Throw e
  end.

Definition throws {A : Type} (c : completion A) : Prop :=
  exists e, c = Throw e.

(** [try { body } catch (error) { handler }] *)
Definition try_catch {A : Type} (body : completion A)
  (handler : exn -> completion A) : completion A :=
  match body with
  | Normal a => Normal a
  | Throw error => handler error
  end.

(** ToBoolean *)
Definition truthy (v : value) : bool :=
  match v with
  | VUndefined | VNull => false
  | VBool b => b
  | VNumber JS.NaN => false
  | VNumber (JS.Num x) => if Req_dec_T x 0 then false else true
  | VString s => negb (String.eqb s "")
  | VArray _ | VObject _ => true
  end.

Definition typeof (v : value) : string :=
  match v with
  | VUndefined => "undefined"
  | VNull | VArray _ | VObject _ => "object"
  | VBool _ => "boolean"
  | VNumber _ => "number"
  | VString _ => "string"
  end.

Definition isArray (v : value) : bool :=
  match v with VArray _ => true | _ => false end.

Fixpoint lookup (key : string) (props : list (string * value)) : option value :=
  match props with
  | [] => None
  | (k, v) :: rest => if String.eqb k key then Some v else lookup key rest
  end.

Definition nullish_name (v : value) : string :=
  match v with VNull => "null" | _ => "undefined" end.

(** [v.key] and [v[key]] for the property names the scripts read, none of
    which is inherited from a prototype: the own property of an object,
    [undefined] on any other value, a [TypeError] on [undefined] and
    [null]. *)
Definition get (v : value) (key : string) : completion value :=
  match v with
  | VUndefined | VNull =>
      Throw (TypeError ("Cannot read properties of " ++ nullish_name v
                        ++ " (reading '" ++ key ++ "')"))
  | VObject props =>
      Normal (match lookup key props with Some x => x | None => VUndefined end)
  | _ => Normal VUndefined
  end.

(** [o.hasOwnProperty(key)] on a truthy value of type "object": an own
    data property named [hasOwnProperty] shadows the method and the call
    throws. *)
Definition hasOwnProperty (o : value) (key : string) : completion bool :=
  match o with
  | VObject props =>
      match lookup "hasOwnProperty" props with
      | Some _ => Throw (TypeError "theme.semanticTokenColors.hasOwnProperty is not a function")
      | None => Normal (match lookup key props with Some _ => true | None => false end)
      end
  | _ => Normal false
  end.

(** SameValueZero on values: primitives by value; two objects or arrays
    met in one parsed document are never the same object. *)
Definition same_value_zero (a b : value) : bool :=
  match a, b with
  | VUndefined, VUndefined => true
  | VNull, VNull => true
  | VBool x, VBool y => Bool.eqb x y
  | VNumber JS.NaN, VNumber JS.NaN => true
  | VNumber (JS.Num x), VNumber (JS.Num y) => if Req_dec_T x y then true else false
  | VString x, VString y => String.eqb x y
  | _, _ => false
  end.

(** [haystack.includes(needle)] on strings *)
Fixpoint string_includes (needle haystack : string) : bool :=
  if String.prefix needle haystack then true
  else match haystack with
       | EmptyString => false
       | String _ rest => string_includes needle rest
       end.

(** What lies outside the repository: the directory of the scripts, Node's
    [path] and [fs] modules, [JSON.parse], and ToString on a value that is
    not a string. *)
Record host : Type := Host {
  dirname : string;                              (* __dirname *)
  path_join : list string -> string;             (* path.join(...) *)
  path_resolve : string -> string -> string;     (* path.resolve(a, b) *)
  existsSync : string -> bool;                   (* fs.existsSync(p) *)
  readFileSync : string -> completion string;    (* fs.readFileSync(p, 'utf8') *)
  JSON_parse : string -> completion value;       (* JSON.parse(text) *)
  ToString : value -> completion string
}.

Module Notations.
  Notation "x <- c ;; k" := (bind c (fun x => k))
    (at level 61, c at next level, right associativity).
  Notation "' pat <- c ;; k" := (bind c (fun x => let 'pat := x in k))
    (at level 61, pat pattern, c at next level, right associativity).
End Notations.
Import Notations.

(** [arr.forEach(f)]: the variables the callback updates are threaded
    through as a state, which survives a throw; a throw in the callback
    ends the loop. *)
Fixpoint forEach {S : Type} (elems : list value)
  (f : value -> S -> S * completion unit) (st : S) : S * completion unit :=
  match elems with
  | [] => (st, Normal tt)
  | x :: rest =>
      match f x st with
      | (st', Normal _) => forEach rest f st'
      | (st', Throw e) => (st', Throw e)
      end
  end.

(** [v.forEach(f)] on a value [v] that [expr] denotes. *)
Definition call_forEach {S : Type} (expr : string) (v : value)
  (f : value -> S -> S * completion unit) (st : S) : S * completion unit :=
  match v with
  | VArray elems => forEach elems f st
  | VUndefined | VNull =>
      (st, Throw (TypeError ("Cannot read properties of " ++ nullish_name v
                             ++ " (reading 'forEach')")))
  | _ => (st, Throw (TypeError (expr ++ ".forEach is not a function")))
  end.

(** [defined.includes(needle)] for a string [needle]: strings and arrays
    have the method. *)
Definition call_includes (expr : string) (v : value) (needle : string)
  : completion bool :=
  match v with
  | VString s => Normal (string_includes needle s)
  | VArray elems => Normal (existsb (same_value_zero (VString needle)) elems)
  | VUndefined | VNull =>
      Throw (TypeError ("Cannot read properties of " ++ nullish_name v
                        ++ " (reading 'includes')"))
  | _ => Throw (TypeError (expr ++ ".includes is not a function"))
  end.

(** [arr.some(p)] and [arr.filter(p)] for a predicate that may throw. *)
Fixpoint some {A : Type} (arr : list A) (p : A -> completion bool)
  : completion bool :=
  match arr with
  | [] => Normal false
  | x :: rest => b <- p x ;; if b then Normal true else some rest p
  end.

Fixpoint filter {A : Type} (arr : list A) (p : A -> completion bool)
  : completion (list A) :=
  match arr with
  | [] => Normal []
  | x :: rest =>
      b <- p x ;; kept <- filter rest p ;;
      Normal (if b then x :: kept else kept)
  end.

(** [hexColor.slice(from, to)] on a value: strings and arrays have the
    method. *)
Definition call_slice (from to : nat) (hexColor : value) : completion value :=
  match hexColor with
  | VString s => Normal (VString (JS.slice from to s))
  | VArray elems => Normal (VArray (firstn (to - from) (skipn from elems)))
  | VUndefined | VNull =>
      Throw (TypeError ("Cannot read properties of " ++ nullish_name hexColor
                        ++ " (reading 'slice')"))
  | _ => Throw (TypeError "hexColor.slice is not a function")
  end.

(** [parseInt(v, 16)]: the argument is first converted to a string. *)
Definition parseInt (h : host) (v : value) : completion JS.number :=
  match v with
  | VString s => Normal (JS.parseInt16 s)
  | _ => s <- ToString h v ;; Normal (JS.parseInt16 s)
  end.

End Dyn.

(* ===================================================================== *)
(** ** Luminance, contrast ratio, WCAG level *)
(* ===================================================================== *)

Module Contrast.
Import JS Dyn Dyn.Notations.

Local Open Scope R_scope.

Section WithHost.
Variable h : host.

(** test-colors.js (and, verbatim, the final light-theme test):
    [calculateLuminance(hexColor)] *)
Definition calculateLuminance (hexColor : value) : completion number :=
  s13 <- call_slice 1 3 hexColor ;; n13 <- parseInt h s13 ;;
  let r := div n13 (Num 255) in
  s35 <- call_slice 3 5 hexColor ;; n35 <- parseInt h s35 ;;
  let g := div n35 (Num 255) in
  s57 <- call_slice 5 7 hexColor ;; n57 <- parseInt h s57 ;;
  let b := div n57 (Num 255) in
  let rLinear :=
    if leb r (Num 0.03928) then div r (Num 12.92)
    else Math_pow_2_4 (div (add r (Num 0.055)) (Num 1.055)) in
  let gLinear :=
    if leb g (Num 0.03928) then div g (Num 12.92)
    else Math_pow_2_4 (div (add g (Num 0.055)) (Num 1.055)) in
  let bLinear :=
    if leb b (Num 0.03928) then div b (Num 12.92)
    else Math_pow_2_4 (div (add b (Num 0.055)) (Num 1.055)) in
  Normal (add (add (mul (Num 0.2126) rLinear) (mul (Num 0.7152) gLinear))
              (mul (Num 0.0722) bLinear)).

(** test-semantic-validation.js: [this.calculateLuminance(hexColor)], which
    first drops an alpha channel with [hexColor.slice(0, 7)]. *)
Definition calculateLuminance_alpha (hexColor : value) : completion number :=
  hex <- call_slice 0 7 hexColor ;;
  s13 <- call_slice 1 3 hex ;; n13 <- parseInt h s13 ;;
  let r := div n13 (Num 255) in
  s35 <- call_slice 3 5 hex ;; n35 <- parseInt h s35 ;;
  let g := div n35 (Num 255) in
  s57 <- call_slice 5 7 hex ;; n57 <- parseInt h s57 ;;
  let b := div n57 (Num 255) in
  let rLinear :=
    if leb r (Num 0.03928) then div r (Num 12.92)
    else Math_pow_2_4 (div (add r (Num 0.055)) (Num 1.055)) in
  let gLinear :=
    if leb g (Num 0.03928) then div g (Num 12.92)
    else Math_pow_2_4 (div (add g (Num 0.055)) (Num 1.055)) in
  let bLinear :=
    if leb b (Num 0.03928) then div b (Num 12.92)
    else Math_pow_2_4 (div (add b (Num 0.055)) (Num 1.055)) in
  Normal (add (add (mul (Num 0.2126) rLinear) (mul (Num 0.7152) gLinear))
              (mul (Num 0.0722) bLinear)).

(** test-semantic-validation.js:
    [this.calculateContrastRatio(color1, color2)] *)
Definition calculateContrastRatio (color1 color2 : value) : completion number :=
  luminance1 <- calculateLuminance_alpha color1 ;;
  luminance2 <- calculateLuminance_alpha color2 ;;
  let lighter := Math_max luminance1 luminance2 in
  let darker := Math_min luminance1 luminance2 in
  Normal (div (add lighter (Num 0.05)) (add darker (Num 0.05))).

End WithHost.

(** The expression written inline in [analyzeContrast] and in the final
    light-theme test, on two luminances already computed:
    [(Math.max(a, b) + 0.05) / (Math.min(a, b) + 0.05)] *)
Definition inlineContrast (bgLuminance colorLuminance : number) : number :=
  div (add (Math_max bgLuminance colorLuminance) (Num 0.05))
      (add (Math_min bgLuminance colorLuminance) (Num 0.05)).

Inductive level : Type := AAA | AA | AA_Large | Fail.

(** test-colors.js and the final light-theme test: [getContrastLevel(ratio)] *)
Definition getContrastLevel (ratio : number) : level :=
  if geb ratio (Num 7) then AAA
  else if geb ratio (Num 4.5) then AA
  else if geb ratio (Num 3) then AA_Large
  else Fail.

Inductive verdict : Type := LogPass | LogWarning | LogFail.

(** test-semantic-validation.js, [testContrastRatios]: the branch taken for
    the main editor contrast. *)
Definition mainContrastVerdict (mainContrast : number) : verdict :=
  if geb mainContrast (Num 4.5) then LogPass
  else if geb mainContrast (Num 3) then LogWarning
  else LogFail.

(** *** The formulas as the specification writes them *)

(** "Convert an 8-bit sRGB channel c to linear light": [c' = c/255], then
    [c'/12.92] when [c' <= 0.03928] and [((c' + 0.055)/1.055)^2.4]
    otherwise. *)
Definition spec_linear (c : R) : R :=
  let c' := c / 255 in
  if Rle_dec c' 0.03928 then c' / 12.92
  else Rpower ((c' + 0.055) / 1.055) 2.4.

(** "Relative luminance L = 0.2126*R_linear + 0.7152*G_linear +
    0.0722*B_linear". *)
Definition spec_luminance (r g b : Z) : R :=
  0.2126 * spec_linear (IZR r) + 0.7152 * spec_linear (IZR g)
  + 0.0722 * spec_linear (IZR b).

(** "Contrast ratio = (max(L1,L2) + 0.05) / (min(L1,L2) + 0.05)". *)
Definition spec_contrast (L1 L2 : R) : R :=
  (Rmax L1 L2 + 0.05) / (Rmin L1 L2 + 0.05).

End Contrast.

(* ===================================================================== *)
(** ** The palette module (colors.ts) *)
(* ===================================================================== *)

Module Palette.

(** An object with string values: its own properties in insertion order. *)
Definition object : Type := list (string * string).

Fixpoint set_prop (k v : string) (o : object) : object :=
  match o with
  | [] => [(k, v)]
  | (k', v') :: rest =>
      if String.eqb k' k then (k', v) :: rest
      else (k', v') :: set_prop k v rest
  end.

(** [{ ...target, ...source }]: the properties of [source] are set in
    order; a key already present keeps its place and takes the new value. *)
Definition spread (target source : object) : object :=
  fold_left (fun o '(k, v) => set_prop k v o) source target.

Definition Object_keys (o : object) : list string := map fst o.
Definition Object_values (o : object) : list string := map snd o.

(** [arr.includes(x)] on an array of strings *)
Definition includes (arr : list string) (x : string) : bool :=
  existsb (String.eqb x) arr.

Module BLUES_TEALS.
Definition DARKEST_BLUE := "#172038".
Definition DARK_BLUE := "#253a5e".
Definition MEDIUM_BLUE := "#3c5e8b".
Definition LIGHT_BLUE := "#4f8fba".
Definition BRIGHT_TEAL := "#73bed3".
Definition LIGHTEST_TEAL := "#a4dddb".
Definition entries : object :=
    [("DARKEST_BLUE", DARKEST_BLUE); ("DARK_BLUE", DARK_BLUE);
     ("MEDIUM_BLUE", MEDIUM_BLUE); ("LIGHT_BLUE", LIGHT_BLUE);
     ("BRIGHT_TEAL", BRIGHT_TEAL); ("LIGHTEST_TEAL", LIGHTEST_TEAL)].
End BLUES_TEALS.

Module GREENS.
Definition DARKEST_GREEN := "#19332d".
Definition DARK_GREEN := "#25562e".
Definition MEDIUM_GREEN := "#468232".
Definition BRIGHT_GREEN := "#75a743".
Definition LIGHT_GREEN := "#a8ca58".
Definition LIGHTEST_GREEN := "#d0da91".
Definition entries : object :=
    [("DARKEST_GREEN", DARKEST_GREEN); ("DARK_GREEN", DARK_GREEN);
     ("MEDIUM_GREEN", MEDIUM_GREEN); ("BRIGHT_GREEN", BRIGHT_GREEN);
     ("LIGHT_GREEN", LIGHT_GREEN); ("LIGHTEST_GREEN", LIGHTEST_GREEN)].
End GREENS.

Module BROWNS_ORANGES.
Definition DARKEST_BROWN := "#4d2b32".
Definition DARK_BROWN := "#7a4841".
Definition MEDIUM_BROWN := "#ad7757".
Definition LIGHT_BROWN := "#c09473".
Definition LIGHTEST_BROWN := "#d7b594".
Definition CREAM := "#e7d5b3".
Definition entries : object :=
    [("DARKEST_BROWN", DARKEST_BROWN); ("DARK_BROWN", DARK_BROWN);
     ("MEDIUM_BROWN", MEDIUM_BROWN); ("LIGHT_BROWN", LIGHT_BROWN);
     ("LIGHTEST_BROWN", LIGHTEST_BROWN); ("CREAM", CREAM)].
End BROWNS_ORANGES.

Module WARM_TONES.
Definition DARKEST_WARM := "#341c27".
Definition DARK_WARM := "#602c2c".
Definition MEDIUM_WARM := "#884b2b".
Definition BRIGHT_WARM := "#be772b".
Definition LIGHT_WARM := "#de9e41".
Definition LIGHTEST_WARM := "#e8c170".
Definition entries : object :=
    [("DARKEST_WARM", DARKEST_WARM); ("DARK_WARM", DARK_WARM);
     ("MEDIUM_WARM", MEDIUM_WARM); ("BRIGHT_WARM", BRIGHT_WARM);
     ("LIGHT_WARM", LIGHT_WARM); ("LIGHTEST_WARM", LIGHTEST_WARM)].
End WARM_TONES.

Module PURPLES_MAGENTAS.
Definition DARKEST_PURPLE := "#241527".
Definition DARK_PURPLE := "#411d31".
Definition MEDIUM_PURPLE := "#752438".
Definition BRIGHT_PURPLE := "#a53030".
Definition LIGHT_PURPLE := "#cf573c".
Definition LIGHTEST_PURPLE := "#da863e".
Definition entries : object :=
    [("DARKEST_PURPLE", DARKEST_PURPLE); ("DARK_PURPLE", DARK_PURPLE);
     ("MEDIUM_PURPLE", MEDIUM_PURPLE); ("BRIGHT_PURPLE", BRIGHT_PURPLE);
     ("LIGHT_PURPLE", LIGHT_PURPLE); ("LIGHTEST_PURPLE", LIGHTEST_PURPLE)].
End PURPLES_MAGENTAS.

Module DEEP_PURPLES.
Definition DARKEST_DEEP := "#1e1d39".
Definition DARK_DEEP := "#402751".
Definition MEDIUM_DEEP := "#7a367b".
Definition BRIGHT_DEEP := "#a23e8c".
Definition LIGHT_DEEP := "#c65197".
Definition LIGHTEST_DEEP := "#df84a5".
Definition entries : object :=
    [("DARKEST_DEEP", DARKEST_DEEP); ("DARK_DEEP", DARK_DEEP);
     ("MEDIUM_DEEP", MEDIUM_DEEP); ("BRIGHT_DEEP", BRIGHT_DEEP);
     ("LIGHT_DEEP", LIGHT_DEEP); ("LIGHTEST_DEEP", LIGHTEST_DEEP)].
End DEEP_PURPLES.

Module GRAYSCALE.
Definition BLACK := "#090a14".
Definition DARKEST_GRAY := "#10141f".
Definition DARKER_GRAY := "#151d28".
Definition DARK_GRAY := "#202e37".
Definition MEDIUM_DARK_GRAY := "#394a50".
Definition MEDIUM_GRAY := "#577277".
Definition LIGHT_MEDIUM_GRAY := "#819796".
Definition LIGHT_GRAY := "#a8b5b2".
Definition LIGHTER_GRAY := "#c7cfcc".
Definition WHITE := "#ebede9".
Definition entries : object :=
    [("BLACK", BLACK); ("DARKEST_GRAY", DARKEST_GRAY);
     ("DARKER_GRAY", DARKER_GRAY); ("DARK_GRAY", DARK_GRAY);
     ("MEDIUM_DARK_GRAY", MEDIUM_DARK_GRAY); ("MEDIUM_GRAY", MEDIUM_GRAY);
     ("LIGHT_MEDIUM_GRAY", LIGHT_MEDIUM_GRAY); ("LIGHT_GRAY", LIGHT_GRAY);
     ("LIGHTER_GRAY", LIGHTER_GRAY); ("WHITE", WHITE)].
End GRAYSCALE.

(** [{ ...BLUES_TEALS, ...GREENS, ..., ...GRAYSCALE }] *)
Definition APOLLO_PALETTE : object :=
  spread (spread (spread (spread (spread (spread (spread []
    BLUES_TEALS.entries) GREENS.entries) BROWNS_ORANGES.entries)
    WARM_TONES.entries) PURPLES_MAGENTAS.entries) DEEP_PURPLES.entries)
    GRAYSCALE.entries.

(** [interface ThemeColors], its three groups flattened. *)
Record ThemeColors : Type := {
  background_primary : string;
  background_secondary : string;
  background_tertiary : string;
  text_primary : string;
  text_secondary : string;
  text_muted : string;
  accents_primary : string;
  accents_secondary : string;
  accents_warning : string;
  accents_error : string;
  accents_info : string;
  accents_success : string
}.

Definition DARK_THEME_COLORS : ThemeColors := {|
  background_primary := GRAYSCALE.BLACK;
  background_secondary := GRAYSCALE.DARKEST_GRAY;
  background_tertiary := GRAYSCALE.DARKER_GRAY;
  text_primary := GRAYSCALE.WHITE;
  text_secondary := GRAYSCALE.LIGHTER_GRAY;
  text_muted := GRAYSCALE.LIGHT_MEDIUM_GRAY;
  accents_primary := BLUES_TEALS.BRIGHT_TEAL;
  accents_secondary := GREENS.LIGHT_GREEN;
  accents_warning := WARM_TONES.LIGHT_WARM;
  accents_error := PURPLES_MAGENTAS.LIGHT_PURPLE;
  accents_info := BLUES_TEALS.LIGHT_BLUE;
  accents_success := GREENS.BRIGHT_GREEN
|}.

Definition LIGHT_THEME_COLORS : ThemeColors := {|
  background_primary := GRAYSCALE.WHITE;
  background_secondary := GRAYSCALE.LIGHTER_GRAY;
  background_tertiary := GRAYSCALE.LIGHT_GRAY;
  text_primary := GRAYSCALE.BLACK;
  text_secondary := GRAYSCALE.DARKER_GRAY;
  text_muted := GRAYSCALE.MEDIUM_DARK_GRAY;
  accents_primary := BLUES_TEALS.BRIGHT_TEAL;
  accents_secondary := GREENS.LIGHT_GREEN;
  accents_warning := WARM_TONES.LIGHT_WARM;
  accents_error := PURPLES_MAGENTAS.LIGHT_PURPLE;
  accents_info := BLUES_TEALS.LIGHT_BLUE;
  accents_success := GREENS.BRIGHT_GREEN
|}.

Definition getThemeColors (isDark : bool) : ThemeColors :=
  if isDark then DARK_THEME_COLORS else LIGHT_THEME_COLORS.

Definition getSyntaxColors (isDark : bool) : object :=
  let theme := getThemeColors isDark in
  [("keyword", if isDark then BLUES_TEALS.LIGHT_BLUE else BLUES_TEALS.MEDIUM_BLUE);
   ("string", if isDark then GREENS.LIGHT_GREEN else GREENS.MEDIUM_GREEN);
   ("comment", if isDark then GRAYSCALE.MEDIUM_GRAY else GRAYSCALE.MEDIUM_DARK_GRAY);
   ("variable", if isDark then BLUES_TEALS.LIGHTEST_TEAL else BLUES_TEALS.DARK_BLUE);
   ("function", if isDark then WARM_TONES.LIGHTEST_WARM else WARM_TONES.MEDIUM_WARM);
   ("class", if isDark then PURPLES_MAGENTAS.LIGHTEST_PURPLE else PURPLES_MAGENTAS.MEDIUM_PURPLE);
   ("operator", if isDark then GRAYSCALE.LIGHT_GRAY else GRAYSCALE.DARK_GRAY);
   ("number", if isDark then DEEP_PURPLES.LIGHT_DEEP else DEEP_PURPLES.MEDIUM_DEEP);
   ("boolean", if isDark then DEEP_PURPLES.LIGHTEST_DEEP else DEEP_PURPLES.BRIGHT_DEEP);
   ("type", if isDark then BROWNS_ORANGES.LIGHTEST_BROWN else BROWNS_ORANGES.MEDIUM_BROWN);
   ("constant", if isDark then WARM_TONES.LIGHT_WARM else WARM_TONES.BRIGHT_WARM)].

Definition getWorkbenchColors (isDark : bool) : object :=
  let theme := getThemeColors isDark in
  [("editor.background", background_primary theme);
   ("editor.foreground", text_primary theme);
   ("editor.selectionBackground",
      if isDark then BLUES_TEALS.DARK_BLUE else BLUES_TEALS.LIGHTEST_TEAL);
   ("editor.lineHighlightBackground", background_secondary theme);
   ("editor.findMatchBackground", accents_warning theme);
   ("editor.findMatchHighlightBackground",
      if isDark then WARM_TONES.DARK_WARM else WARM_TONES.LIGHTEST_WARM);
   ("sideBar.background", background_secondary theme);
   ("sideBar.foreground", text_secondary theme);
   ("sideBar.border", background_tertiary theme);
   ("activityBar.background", background_tertiary theme);
   ("activityBar.foreground", text_primary theme);
   ("activityBar.activeBorder", accents_primary theme);
   ("statusBar.background", background_tertiary theme);
   ("statusBar.foreground", text_primary theme);
   ("statusBar.noFolderBackground", background_secondary theme);
   ("tab.activeBackground", background_primary theme);
   ("tab.inactiveBackground", background_secondary theme);
   ("tab.activeForeground", text_primary theme);
   ("tab.inactiveForeground", text_muted theme);
   ("tab.border", background_tertiary theme);
   ("panel.background", background_secondary theme);
   ("panel.border", background_tertiary theme);
   ("panelTitle.activeForeground", text_primary theme);
   ("panelTitle.inactiveForeground", text_muted theme);
   ("terminal.background", background_primary theme);
   ("terminal.foreground", text_primary theme);
   ("terminal.ansiBlack", GRAYSCALE.BLACK);
   ("terminal.ansiRed", accents_error theme);
   ("terminal.ansiGreen", accents_success theme);
   ("terminal.ansiYellow", accents_warning theme);
   ("terminal.ansiBlue", accents_info theme);
   ("terminal.ansiMagenta",
      if isDark then DEEP_PURPLES.LIGHT_DEEP else DEEP_PURPLES.MEDIUM_DEEP);
   ("terminal.ansiCyan", accents_primary theme);
   ("terminal.ansiWhite", GRAYSCALE.WHITE)].

Definition getColorsFromGroup (group : object) : list string :=
  Object_values group.

Definition getAllApolloColors : list string :=
  Object_values APOLLO_PALETTE.

Definition isApolloColor (color : string) : bool :=
  includes getAllApolloColors color.

(** The colour strings a [ThemeColors] object holds. *)
Definition themeColorValues (t : ThemeColors) : list string :=
  [background_primary t; background_secondary t; background_tertiary t;
   text_primary t; text_secondary t; text_muted t;
   accents_primary t; accents_secondary t; accents_warning t;
   accents_error t; accents_info t; accents_success t].

End Palette.

(* ===================================================================== *)
(** ** The validation entry points *)
(* ===================================================================== *)

(** Standard output is not modelled: the [console.log] lines of the
    scripts are left out, and rendering a value inside them is taken not
    to throw.  What [console.error] writes is kept, as the list [stderr]
    of an [outcome]. *)
Module Scripts.
Import JS Dyn Dyn.Notations.

Local Open Scope R_scope.

(** What running an entry point leaves behind: the lines written with
    [console.error] and the completion of the call. *)
Record outcome (A : Type) : Type := Outcome {
  stderr : list string;
  returned : completion A
}.
Arguments Outcome {A} stderr returned.
Arguments stderr {A} o.
Arguments returned {A} o.

(** [{ color, name, scope, luminance, contrast, level }] *)
Record analysis : Type := Analysis {
  color : value;
  name : value;
  scope : value;
  luminance : number;
  contrast : number;
  level : Contrast.level
}.

(** [Object.entries(o)] for a value of type "object". *)
Definition Object_entries (o : value) : list (string * value) :=
  match o with
  | VObject props => props
  | VArray elems =>
      combine (map (fun i => NilEmpty.string_of_uint (Nat.to_uint i))
                     (seq 0 (List.length elems)))
              elems
  | _ => []
  end.

(** [scope.split('.')[0]] *)
Fixpoint first_segment (scope : string) : string :=
  match scope with
  | EmptyString => EmptyString
  | String c rest =>
      if Ascii.eqb c "." then EmptyString else String c (first_segment rest)
  end.

(** [definedScopes.add(v)] on a [Set], kept in insertion order. *)
Definition Set_add (set : list value) (v : value) : list value :=
  if existsb (same_value_zero v) set then set else (set ++ [v])%list.

Section WithHost.
Variable h : host.

(** *** test-colors.js: [analyzeContrast] *)

(** The callback of [tokenColors.forEach]; the state is the pair of
    arrays [colorAnalysis] and [lowContrastColors]. *)
Definition analyzeRule (bgLuminance : number) (rule : value)
  (st : list analysis * list analysis)
  : (list analysis * list analysis) * completion unit :=
  let '(colorAnalysis, lowContrastColors) := st in
  match
    (settings <- get rule "settings" ;;
     if truthy settings then
       foreground <- get settings "foreground" ;;
       if truthy foreground then
         let color := foreground in
         colorLuminance <- Contrast.calculateLuminance h color ;;
         let contrastRatio :=
           div (add (Math_max bgLuminance colorLuminance) (Num 0.05))
               (add (Math_min bgLuminance colorLuminance) (Num 0.05)) in
         name <- get rule "name" ;;
         scope <- get rule "scope" ;;
         let analysis :=
           Analysis color name scope colorLuminance contrastRatio
                    (Contrast.getContrastLevel contrastRatio) in
         Normal ((colorAnalysis ++ [analysis])%list,
                 if ltb contrastRatio (Num 3)
                 then (lowContrastColors ++ [analysis])%list
                 else lowContrastColors)
       else Normal st
     else Normal st)
  with
  | Normal st' => (st', Normal tt)
  | Throw e => (st, Throw e)
  end.

(** The [try] block: the value it returns, or what it throws. *)
Definition analyzeContrast_try : completion (list analysis) :=
  let themePath :=
    path_join h [dirname h; "themes"; "apollo-light-color-theme.json"] in
  themeContent <- readFileSync h themePath ;;
  theme <- JSON_parse h themeContent ;;
  colors <- get theme "colors" ;;
  backgroundColor <- get colors "editor.background" ;;
  bgLuminance <- Contrast.calculateLuminance h backgroundColor ;;
  tokenColors <- get theme "tokenColors" ;;
  match call_forEach "tokenColors" tokenColors (analyzeRule bgLuminance) ([], []) with
  | (_, Throw e) => Throw e
  | ((colorAnalysis, lowContrastColors), Normal _) =>
      (* sorting [colorAnalysis] and the report only print *)
      Normal lowContrastColors
  end.

Definition analyzeContrast : outcome (list analysis) :=
  match analyzeContrast_try with
  | Normal result => Outcome [] (Normal result)
  | Throw error =>
      Outcome ["Error analyzing contrast: " ++ message error] (Normal [])
  end.

(** *** test-light-validation.js *)

Definition isLightColor (hexColor : value) : completion bool :=
  s13 <- call_slice 1 3 hexColor ;; r <- parseInt h s13 ;;
  s35 <- call_slice 3 5 hexColor ;; g <- parseInt h s35 ;;
  s57 <- call_slice 5 7 hexColor ;; b <- parseInt h s57 ;;
  let luminance :=
    div (add (add (mul (Num 0.299) r) (mul (Num 0.587) g)) (mul (Num 0.114) b))
        (Num 255) in
  Normal (ltb (Num 0.5) luminance).

Definition isDarkColor (hexColor : value) : completion bool :=
  light <- isLightColor hexColor ;; Normal (negb light).

Definition essentialTokens : list string :=
  ["namespace"; "class"; "interface"; "function"; "method";
   "variable"; "property"; "parameter"; "type"; "enum"]%string.

Definition essentialScopes : list string :=
  ["comment"; "keyword"; "string"; "constant.numeric"; "variable";
   "entity.name.function"; "entity.name.class"; "entity.name.tag"]%string.

(** The entries [`${token}: ${color}`] pushed to [invalidColors]. *)
Definition invalidColors (semanticTokenColors : value) : list string :=
  flat_map
    (fun '(token, color) =>
       match color with
       | VString c =>
           if negb (HexColor.isValidHexColor c)
           then [(token ++ ": " ++ c)%string] else []
       | _ => []
       end)
    (Object_entries semanticTokenColors).

(** The callback of [theme.tokenColors.forEach]; the state is the set
    [definedScopes]. *)
Definition collectScopes (rule : value) (definedScopes : list value)
  : list value * completion unit :=
  match get rule "scope" with
  | Throw e => (definedScopes, Throw e)
  | Normal scope =>
      if truthy scope then
        match scope with
        | VArray elems => (fold_left Set_add elems definedScopes, Normal tt)
        | _ => (Set_add definedScopes scope, Normal tt)
        end
      else (definedScopes, Normal tt)
  end.

(** The [try] block: the value it returns, or what it throws. *)
Definition validateLightThemeStructure_try : completion bool :=
  let themePath :=
    path_join h [dirname h; "themes"; "apollo-light-color-theme.json"] in
  themeContent <- readFileSync h themePath ;;
  theme <- JSON_parse h themeContent ;;
  _ <- get theme "name" ;;
  _ <- get theme "type" ;;
  semanticHighlighting <- get theme "semanticHighlighting" ;;
  match semanticHighlighting with
  | VBool true =>
    semanticTokenColors <- get theme "semanticTokenColors" ;;
    if truthy semanticTokenColors
       && String.eqb (typeof semanticTokenColors) "object"
    then
      missingTokens <-
        filter essentialTokens
          (fun token =>
             own <- hasOwnProperty semanticTokenColors token ;;
             Normal (negb own)) ;;
      let invalid := invalidColors semanticTokenColors in
      tokenColors <- get theme "tokenColors" ;;
      if truthy tokenColors && isArray tokenColors then
        match call_forEach "theme.tokenColors" tokenColors collectScopes [] with
        | (_, Throw e) => Throw e
        | (definedScopes, Normal _) =>
          missingScopes <-
            filter essentialScopes
              (fun scope =>
                 found <- some definedScopes
                            (fun defined =>
                               call_includes "defined" defined (first_segment scope)) ;;
                 Normal (negb found)) ;;
          colors <- get theme "colors" ;;
          if truthy colors && String.eqb (typeof colors) "object" then
            editorBg <- get colors "editor.background" ;;
            _ <- (if truthy editorBg then isLightColor editorBg else Normal false) ;;
            editorFg <- get colors "editor.foreground" ;;
            _ <- (if truthy editorFg then isDarkColor editorFg else Normal false) ;;
            Normal true
          else Normal false
        end
      else Normal false
    else Normal false
  | _ => Normal false
  end.

Definition validateLightThemeStructure : outcome bool :=
  match validateLightThemeStructure_try with
  | Normal result => Outcome [] (Normal result)
  | Throw error =>
      Outcome ["✗ Light theme validation failed: " ++ message error]
              (Normal false)
  end.

(** *** The cross-platform suite: [testPathSeparators] *)

(** [{ passed, issues }] *)
Record result : Type := Result {
  passed : bool;
  issues : list string
}.

Definition fail_with (issue : string) (st : result) : result :=
  Result false (issues st ++ [issue])%list.

(** [passed] and [issues] move together: no issue while [passed] holds,
    at least one once it is false. *)
Definition consistent (st : result) : Prop :=
  (passed st = true /\ issues st = []) \/ (passed st = false /\ issues st <> []).

(** [this.themeFiles] *)
Definition themeFiles : list string :=
  ["themes/apollo-dark-color-theme.json";
   "themes/apollo-light-color-theme.json"]%string.

(** The two checks made on a theme path that is a string.  The literal
    the script passes to [includes] denotes the string of two backslash
    characters. *)
Definition checkThemePath (path : string) (st : result) : result :=
  let st1 :=
    if string_includes "\\" path
    then fail_with ("Windows-style path separators found: " ++ path) st
    else st in
  let resolvedPath := path_resolve h (dirname h) path in
  if negb (existsSync h resolvedPath)
  then fail_with ("Theme file not found at resolved path: " ++ resolvedPath) st1
  else st1.

(** The callback of [packageData.contributes.themes.forEach]; the state
    is the pair of variables [passed] and [issues].  A truthy path that is
    not a string makes [theme.path.includes] or [path.resolve] throw. *)
Definition checkThemeEntry (theme : value) (st : result)
  : result * completion unit :=
  match get theme "path" with
  | Throw e => (st, Throw e)
  | Normal path =>
      if truthy path then
        match path with
        | VString p => (checkThemePath p st, Normal tt)
        | VArray elems =>
            let invalid_arg :=
              TypeError ("The " ++ dquote ++ "paths[1]" ++ dquote
                         ++ " argument must be of type string."
                         ++ " Received an instance of Array") in
            if existsb (same_value_zero (VString "\\")) elems then
              match ToString h path with
              | Normal p =>
                  (fail_with ("Windows-style path separators found: " ++ p) st,
                   Throw invalid_arg)
              | Throw e => (st, Throw e)
              end
            else (st, Throw invalid_arg)
        | _ => (st, Throw (TypeError "theme.path.includes is not a function"))
        end
      else (st, Normal tt)
  end.

(** The callback of [this.themeFiles.forEach]. *)
Definition checkThemeFile (themeFile : string) (st : result) : result :=
  let fullPath := path_join h [dirname h; themeFile] in
  if negb (existsSync h fullPath)
  then fail_with ("Theme file not accessible: " ++ themeFile) st
  else st.

(** The part of the [try] block that reads package.json. *)
Definition checkPackage (st : result) : result * completion unit :=
  let packagePath := path_join h [dirname h; "package.json"] in
  if existsSync h packagePath then
    match (text <- readFileSync h packagePath ;; JSON_parse h text) with
    | Throw e => (st, Throw e)
    | Normal packageData =>
        match get packageData "contributes" with
        | Throw e => (st, Throw e)
        | Normal contributes =>
            if truthy contributes then
              match get contributes "themes" with
              | Throw e => (st, Throw e)
              | Normal themes =>
                  if truthy themes
                  then call_forEach "packageData.contributes.themes" themes
                                    checkThemeEntry st
                  else (st, Normal tt)
              end
            else (st, Normal tt)
        end
    end
  else (st, Normal tt).

Definition testPathSeparators : result :=
  let st0 := Result true [] in
  match checkPackage st0 with
  | (st1, Normal _) => fold_left (fun st f => checkThemeFile f st) themeFiles st1
  | (st1, Throw error) =>
      fail_with ("Path separator test failed: " ++ message error) st1
  end.

(** *** The vocabulary of the claim about [testPathSeparators] *)

(** The entries of [contributes.themes], when package.json exists, parses
    and holds them in an array. *)
Definition packageThemes : list value :=
  let packagePath := path_join h [dirname h; "package.json"] in
  if existsSync h packagePath then
    match (text <- readFileSync h packagePath ;;
           packageData <- JSON_parse h text ;;
           contributes <- get packageData "contributes" ;;
           if truthy contributes then get contributes "themes"
           else Normal VUndefined)
    with
    | Normal (VArray entries) => entries
    | _ => []
    end
  else [].

(** "A theme path listed in package.json": the non-empty string [path] of
    an entry. *)
Definition entryPaths (theme : value) : list string :=
  match get theme "path" with
  | Normal (VString p) => if truthy (VString p) then [p] else []
  | _ => []
  end.

Definition listedThemePaths : list string :=
  flat_map entryPaths packageThemes.

(** "contains Windows-style backslash separators" *)
Definition has_backslash (p : string) : bool := string_includes "\" p.

(** "resolves to an existing file" *)
Definition resolves (p : string) : bool :=
  existsSync h (path_resolve h (dirname h) p).

(** An expected theme file is "accessible". *)
Definition accessible (themeFile : string) : bool :=
  existsSync h (path_join h [dirname h; themeFile]).

(** The value of [passed] as the claim states it: false exactly when a
    listed path has a backslash or does not resolve, or an expected theme
    file is not accessible. *)
Definition claimed_passed : bool :=
  forallb (fun p => negb (has_backslash p) && resolves p) listedThemePaths
  && forallb accessible themeFiles.

End WithHost.
End Scripts.

(* ===================================================================== *)
(** ** Example hosts *)
(* ===================================================================== *)

Module Examples.
Import Dyn.

Fixpoint assoc {A : Type} (key : string) (l : list (string * A)) : option A :=
  match l with
  | [] => None
  | (k, v) :: rest => if String.eqb k key then Some v else assoc key rest
  end.

(** A host whose scripts live in [dir], over the files [(path, text)] and
    the documents [(text, value)] that parse; paths are joined with [sep].
    The examples never convert a value that is not a string. *)
Definition example_host (dir sep : string) (files : list (string * string))
  (documents : list (string * value)) : host :=
  {| dirname := dir;
     path_join := String.concat sep;
     path_resolve := fun a b => a ++ sep ++ b;
     existsSync := fun p =>
       match assoc p files with Some _ => true | None => false end;
     readFileSync := fun p =>
       match assoc p files with
       | Some text => Normal text
       | None => Throw (Error "Error"
                   ("ENOENT: no such file or directory, open '" ++ p ++ "'"))
       end;
     JSON_parse := fun text =>
       match assoc text documents with
       | Some v => Normal v
       | None => Throw (Error "SyntaxError" "Unexpected end of JSON input")
       end;
     ToString := fun v =>
       match v with
       | VString s => Normal s
       | _ => Throw (TypeError "Cannot convert object to primitive value")
       end |}.

(** No file at all. *)
Definition empty_host : host := example_host "/ext" "/" [] [].

(** The two theme files are in place and package.json is cut short. *)
Definition truncated_package_host : host :=
  example_host "/ext" "/"
    [("/ext/package.json", "{");
     ("/ext/themes/apollo-dark-color-theme.json", "{}");
     ("/ext/themes/apollo-light-color-theme.json", "{}")]
    [("{}", VObject [])].

(** A Windows checkout: both theme files are in place, and package.json
    lists the dark theme with one backslash as separator. *)
Definition quoted (s : string) : string := JS.dquote ++ s ++ JS.dquote.

Definition backslash_package_text : string :=
  "{" ++ quoted "contributes" ++ ":{" ++ quoted "themes" ++ ":[{"
      ++ quoted "path" ++ ":" ++ quoted "themes\\apollo-dark-color-theme.json"
      ++ "}]}}".

Definition backslash_host : host :=
  {| dirname := "C:\ext";
     path_join := fun parts =>
       match parts with
       | [_; "package.json"] => "C:\ext\package.json"
       | [_; "themes/apollo-dark-color-theme.json"] =>
           "C:\ext\themes\apollo-dark-color-theme.json"
       | [_; "themes/apollo-light-color-theme.json"] =>
           "C:\ext\themes\apollo-light-color-theme.json"
       | _ => String.concat "\" parts
       end;
     path_resolve := fun a b => a ++ "\" ++ b;
     existsSync := fun p =>
       existsb (String.eqb p)
         ["C:\ext\package.json";
          "C:\ext\themes\apollo-dark-color-theme.json";
          "C:\ext\themes\apollo-light-color-theme.json"];
     readFileSync := fun p =>
       if String.eqb p "C:\ext\package.json" then Normal backslash_package_text
       else Normal "{}";
     JSON_parse := fun text =>
       if String.eqb text backslash_package_text then
         Normal (VObject [("contributes",
                   VObject [("themes",
                     VArray [VObject [("path",
                       VString "themes\apollo-dark-color-theme.json")]])])])
       else Normal (VObject []);
     ToString := fun v =>
       match v with
       | VString s => Normal s
       | _ => Throw (TypeError "Cannot convert object to primitive value")
       end |}.

End Examples.

(* ===================================================================== *)
(** ** The cross-platform suite: colour formats *)
(* ===================================================================== *)

Module ColorFormat.
Import JS Dyn Dyn.Notations Regex.

(** [[A-Fa-f0-9]] *)
Definition hex_class : regex :=
  Class [("A", "F"); ("a", "f"); ("0", "9")]%char.

(** [/^#([A-Fa-f0-9]{6}|[A-Fa-f0-9]{8})$/] *)
Definition hexColorPattern : regex :=
  Cat (Chr "#") (Alt (Rep 6 hex_class) (Rep 8 hex_class)).

(** [c.toLowerCase()] on a code unit below 256: the letters A-Z and the
    Latin-1 capitals (192 to 222, the multiplication sign apart) move up
    by 32. *)
Definition lower_char (c : ascii) : ascii :=
  let n := nat_of_ascii c in
  if ((65 <=? n) && (n <=? 90))%nat then ascii_of_nat (n + 32)
  else if ((192 <=? n) && (n <=? 222) && negb (n =? 215))%nat
       then ascii_of_nat (n + 32)
  else c.

Fixpoint toLowerCase (s : string) : string :=
  match s with
  | EmptyString => EmptyString
  | String c rest => String (lower_char c) (toLowerCase rest)
  end.

(** [s.startsWith(p)] *)
Definition startsWith (s p : string) : bool := String.prefix p s.

(** [s.endsWith(p)] *)
Definition endsWith (s p : string) : bool :=
  let n := String.length s in
  let k := String.length p in
  (k <=? n)%nat && String.eqb (substring (n - k) k s) p.

(** [Object.entries(o)]: the own properties of an object, the indexed
    elements of an array, the indexed characters of a string, nothing for
    another primitive. *)
Definition index_key (i : nat) : string :=
  NilEmpty.string_of_uint (Nat.to_uint i).

Definition Object_entries (o : value) : list (string * value) :=
  match o with
  | VObject props => props
  | VArray elems =>
      combine (map index_key (seq 0 (List.length elems))) elems
  | VString s =>
      combine (map index_key (seq 0 (String.length s)))
              (map (fun c => VString (String c EmptyString))
                   (list_ascii_of_string s))
  | _ => []
  end.

(** [issues.push(x)] *)
Definition push (issues : list string) (x : string) : list string :=
  (issues ++ [x])%list.

(** The callback of [Object.entries(obj).forEach] in
    [checkColorsInObject]; the state is the array [issues]. *)
Definition checkEntry (context : string) (entry : string * value)
  (issues : list string) : list string :=
  let '(key, value) := entry in
  match value with
  | VString v =>
      if startsWith v "#" then
        let issues1 :=
          if negb (test hexColorPattern v)
          then push issues ("Invalid hex color format in " ++ context ++ "."
                            ++ key ++ ": " ++ v)
          else issues in
        let issues2 :=
          if negb (String.eqb v (toLowerCase v))
          then push issues1 ("Color should be lowercase in " ++ context ++ "."
                             ++ key ++ ": " ++ v)
          else issues1 in
        if (String.length v =? 9)%nat && endsWith (toLowerCase v) "ff"
        then push issues2 ("Unnecessary alpha channel in " ++ context ++ "."
                           ++ key ++ ": " ++ v
                           ++ " (use 6-digit hex instead)")
        else issues2
      else issues
  | _ => issues
  end.

(** [checkColorsInObject(obj, context, issues)]: the array [issues] after
    the call. *)
Definition checkColorsInObject (obj : value) (context : string)
  (issues : list string) : list string :=
  if negb (truthy obj) then issues
  else fold_left (fun iss entry => checkEntry context entry iss)
                 (Object_entries obj) issues.

(** The callback of [Object.entries(semanticColors).forEach] in
    [checkSemanticTokenColors]. *)
Definition checkSemanticEntry (context : string) (entry : string * value)
  (issues : list string) : list string :=
  let '(key, value) := entry in
  match value with
  | VString v =>
      if startsWith v "#"
      then checkColorsInObject (VObject [(key, value)]) context issues
      else issues
  | VObject _ | VArray _ =>
      checkColorsInObject value (context ++ "." ++ key) issues
  | _ => issues
  end.

(** [checkSemanticTokenColors(semanticColors, context, issues)]:
    [Object.entries] throws on [undefined] and [null]. *)
Definition checkSemanticTokenColors (semanticColors : value) (context : string)
  (issues : list string) : completion (list string) :=
  match semanticColors with
  | VUndefined | VNull =>
      Throw (TypeError "Cannot convert undefined or null to object")
  | _ =>
      Normal (fold_left (fun iss entry => checkSemanticEntry context entry iss)
                        (Object_entries semanticColors) issues)
  end.

(** [arr.forEach((x, index) => ...)] over the array [issues] as state,
    which survives a throw. *)
Fixpoint forEachIndexed (elems : list value) (index : nat)
  (f : value -> nat -> list string -> list string * completion unit)
  (issues : list string) : list string * completion unit :=
  match elems with
  | [] => (issues, Normal tt)
  | x :: rest =>
      match f x index issues with
      | (issues', Normal _) => forEachIndexed rest (S index) f issues'
      | (issues', Throw e) => (issues', Throw e)
      end
  end.

Section WithHost.
Variable h : host.

(** The callback of [themeData.tokenColors.forEach] in
    [testHexColorFormat]. *)
Definition checkToken (themeFile : string) (token : value) (index : nat)
  (issues : list string) : list string * completion unit :=
  match get token "settings" with
  | Throw e => (issues, Throw e)
  | Normal settings =>
      if truthy settings
      then (checkColorsInObject settings
              (themeFile ++ ":tokenColors[" ++ index_key index ++ "].settings")
              issues,
            Normal tt)
      else (issues, Normal tt)
  end.

(** The callback of [this.themeFiles.forEach] in [testHexColorFormat]. *)
Definition checkThemeFileColors (themeFile : string) (issues : list string)
  : list string * completion unit :=
  let themePath := path_join h [dirname h; themeFile] in
  match (text <- readFileSync h themePath ;;
         themeData <- JSON_parse h text ;;
         colors <- get themeData "colors" ;;
         Normal (themeData, colors)) with
  | Throw e => (issues, Throw e)
  | Normal (themeData, colors) =>
      let issues1 := checkColorsInObject colors (themeFile ++ ":colors") issues in
      match get themeData "tokenColors" with
      | Throw e => (issues1, Throw e)
      | Normal tokenColors =>
          let after_tokens :=
            if truthy tokenColors then
              match tokenColors with
              | VArray elems =>
                  forEachIndexed elems 0 (checkToken themeFile) issues1
              | _ => (issues1,
                      Throw (TypeError
                               "themeData.tokenColors.forEach is not a function"))
              end
            else (issues1, Normal tt) in
          match after_tokens with
          | (issues2, Throw e) => (issues2, Throw e)
          | (issues2, Normal _) =>
              match get themeData "semanticTokenColors" with
              | Throw e => (issues2, Throw e)
              | Normal semanticTokenColors =>
                  if truthy semanticTokenColors then
                    match checkSemanticTokenColors semanticTokenColors
                            (themeFile ++ ":semanticTokenColors") issues2 with
                    | Normal issues3 => (issues3, Normal tt)
                    | Throw e => (issues2, Throw e)
                    end
                  else (issues2, Normal tt)
              end
          end
      end
  end.

(** [this.themeFiles.forEach(...)] with a callback that may throw. *)
Fixpoint forEachFile (files : list string)
  (f : string -> list string -> list string * completion unit)
  (issues : list string) : list string * completion unit :=
  match files with
  | [] => (issues, Normal tt)
  | x :: rest =>
      match f x issues with
      | (issues', Normal _) => forEachFile rest f issues'
      | (issues', Throw e) => (issues', Throw e)
      end
  end.

(** [testHexColorFormat()] *)
Definition testHexColorFormat : Scripts.result :=
  match forEachFile Scripts.themeFiles checkThemeFileColors [] with
  | (issues, Normal _) =>
      Scripts.Result (if (0 <? List.length issues)%nat then false else true) issues
  | (issues, Throw error) =>
      Scripts.Result false
        (push issues ("Hex color format test failed: " ++ message error))
  end.

End WithHost.

(** "'#' followed by exactly eight hexadecimal digits". *)
Definition HashEightHex (s : string) : Prop :=
  exists d1 d2 d3 d4 d5 d6 d7 d8 : ascii,
    s = String "#" (String d1 (String d2 (String d3 (String d4
          (String d5 (String d6 (String d7 (String d8 ""))))))))
    /\ Forall HexColor.is_hex_char [d1; d2; d3; d4; d5; d6; d7; d8].

(** An entry on which [checkColorsInObject] finds nothing: a value that is
    not a string starting with ['#'], or one that matches the pattern, is
    in lower case and is not a 9-character colour ending in [ff]. *)
Definition clean_entry (entry : string * value) : bool :=
  match snd entry with
  | VString v =>
      if startsWith v "#" then
        test hexColorPattern v
        && String.eqb v (toLowerCase v)
        && negb ((String.length v =? 9)%nat && endsWith (toLowerCase v) "ff")
      else true
  | _ => true
  end.

End ColorFormat.

(* ===================================================================== *)
(** ** The comprehensive test suite: the result log *)
(* ===================================================================== *)

Module TestSuite.
Import JS.

Local Open Scope R_scope.

Inductive test_type : Type := pass | fail | warning | error.

(** [{ type, message }] *)
Record test : Type := Test { type : test_type; message : string }.

(** [this.results] *)
Record results : Type := Results {
  passed : nat;
  failed : nat;
  warnings : nat;
  tests : list test
}.

(** [constructor()] *)
Definition initial : results := Results 0 0 0 [].

Definition logPass (message : string) (r : results) : results :=
  Results (S (passed r)) (failed r) (warnings r)
          (tests r ++ [Test pass message]).

Definition logFail (message : string) (r : results) : results :=
  Results (passed r) (S (failed r)) (warnings r)
          (tests r ++ [Test fail message]).

Definition logWarning (message : string) (r : results) : results :=
  Results (passed r) (failed r) (S (warnings r))
          (tests r ++ [Test warning message]).

Definition logError (context message : string) (r : results) : results :=
  Results (passed r) (S (failed r)) (warnings r)
          (tests r ++ [Test error (context ++ ": " ++ message)%string]).

(** A call of one of the four logging methods. *)
Inductive call : Type :=
| LogPass (message : string)
| LogFail (message : string)
| LogWarning (message : string)
| LogError (context message : string).

Definition apply_call (r : results) (c : call) : results :=
  match c with
  | LogPass m => logPass m r
  | LogFail m => logFail m r
  | LogWarning m => logWarning m r
  | LogError ctx m => logError ctx m r
  end.

(** The log after a sequence of calls on a fresh suite. *)
Definition after (calls : list call) : results :=
  fold_left apply_call calls initial.

Definition count_type (t : test_type) (l : list test) : nat :=
  List.length (List.filter (fun x =>
    match type x, t with
    | pass, pass | fail, fail | warning, warning | error, error => true
    | _, _ => false
    end) l).


(** [runAllTests]: the value returned when no test throws,
    [this.results.failed === 0]. *)
Definition verdict (r : results) : bool := (failed r =? 0)%nat.

End TestSuite.

(* ===================================================================== *)
(** ** The dark-theme validator and the final light-theme test *)
(* ===================================================================== *)

(** Standard output is left out here as well. *)
Module MoreScripts.
Import JS Dyn Dyn.Notations Scripts.

Local Open Scope R_scope.

(** [Object.keys(o)], of which the scripts only print the length: a
    [TypeError] on [undefined] and [null]. *)
Definition Object_keys_length (o : value) : completion nat :=
  match o with
  | VUndefined | VNull =>
      Throw (TypeError "Cannot convert undefined or null to object")
  | _ => Normal (List.length (ColorFormat.Object_entries o))
  end.

(** [Object.values(o)] *)
Definition Object_values (o : value) : completion (list value) :=
  match o with
  | VUndefined | VNull =>
      Throw (TypeError "Cannot convert undefined or null to object")
  | _ => Normal (map snd (ColorFormat.Object_entries o))
  end.

(** [v.length], read for printing: a [TypeError] on [undefined] and
    [null]. *)
Definition read_length (v : value) : completion unit :=
  match v with
  | VUndefined | VNull =>
      Throw (TypeError ("Cannot read properties of " ++ nullish_name v
                        ++ " (reading 'length')"))
  | _ => Normal tt
  end.

Section WithHost.
Variable h : host.

(** *** validate-semantic-tokens: [validateThemeStructure] *)



(** *** The final light-theme test: [runFinalTest] *)

(** The callback of [theme.tokenColors.forEach]; the state is the set
    [syntaxColors]. *)
Definition collectForeground (rule : value) (syntaxColors : list value)
  : list value * completion unit :=
  match (settings <- get rule "settings" ;;
         if truthy settings then
           foreground <- get settings "foreground" ;;
           if truthy foreground
           then Normal (Set_add syntaxColors foreground)
           else Normal syntaxColors
         else Normal syntaxColors) with
  | Normal syntaxColors' => (syntaxColors', Normal tt)
  | Throw e => (syntaxColors, Throw e)
  end.

(** The callback of [Object.values(theme.semanticTokenColors).forEach]. *)
Definition collectSemantic (syntaxColors : list value) (color : value)
  : list value :=
  match color with
  | VString _ => Set_add syntaxColors color
  | _ => syntaxColors
  end.

(** The callback of [[...syntaxColors].forEach]; the state is the counter
    [adequateContrastCount]. *)
Definition countAdequate (bgLuminance : number) (color : value)
  (adequateContrastCount : nat) : nat * completion unit :=
  match Contrast.calculateLuminance h color with
  | Throw e => (adequateContrastCount, Throw e)
  | Normal colorLuminance =>
      let contrast :=
        div (add (Math_max bgLuminance colorLuminance) (Num 0.05))
            (add (Math_min bgLuminance colorLuminance) (Num 0.05)) in
      (if geb contrast (Num 3)
       then S adequateContrastCount else adequateContrastCount,
       Normal tt)
  end.

(** [rule.scope.some(s => s.includes(scope))] and
    [rule.scope.includes(scope)], as the callback of
    [theme.tokenColors.some] combines them. *)
Definition ruleSupports (scope : string) (rule : value) : completion bool :=
  ruleScope <- get rule "scope" ;;
  match ruleScope with
  | VArray elems => some elems (fun s => call_includes "s" s scope)
  | VString s => Normal (string_includes scope s)
  | _ => Normal false
  end.

(** [theme.tokenColors.some(p)] on a value. *)
Definition call_some (v : value) (p : value -> completion bool)
  : completion bool :=
  match v with
  | VArray elems => some elems p
  | VUndefined | VNull =>
      Throw (TypeError ("Cannot read properties of " ++ nullish_name v
                        ++ " (reading 'some')"))
  | _ => Throw (TypeError "theme.tokenColors.some is not a function")
  end.

Definition languageSupport : list (string * list string) :=
  [("JavaScript", ["keyword"; "entity.name.function"; "variable"; "string"]);
   ("TypeScript", ["entity.name.type.ts"; "storage.type.interface.ts"]);
   ("HTML", ["entity.name.tag"; "entity.other.attribute-name"]);
   ("CSS", ["entity.name.tag.css"; "support.type.property-name.css"]);
   ("JSON", ["support.type.property-name.json"]);
   ("Markdown", ["markup.heading"; "markup.bold"; "markup.italic"])]%string.

(** What the test computes before it returns [true]. *)
Record finalReport : Type := FinalReport {
  syntaxColors : list value;
  mainContrast : number;
  mainLevel : Contrast.level;
  adequateContrastCount : nat;
  supportedScopes : list (string * list string)
}.

(** [runFinalTest()] up to the [return true]: the numbers it prints, or
    what it throws.  There is no [try] in this script. *)
Definition runFinalTest_report : completion finalReport :=
  let themePath :=
    path_join h [dirname h; "themes"; "apollo-light-color-theme.json"] in
  text <- readFileSync h themePath ;;
  theme <- JSON_parse h text ;;
  tokenColors <- get theme "tokenColors" ;;
  _ <- read_length tokenColors ;;
  semanticTokenColors <- get theme "semanticTokenColors" ;;
  _ <- Object_keys_length semanticTokenColors ;;
  colors <- get theme "colors" ;;
  _ <- Object_keys_length colors ;;
  _ <- get theme "semanticHighlighting" ;;
  match call_forEach "theme.tokenColors" tokenColors collectForeground [] with
  | (_, Throw e) => Throw e
  | (collected, Normal _) =>
      semanticValues <- Object_values semanticTokenColors ;;
      let syntaxColors := fold_left collectSemantic semanticValues collected in
      backgroundColor <- get colors "editor.background" ;;
      foregroundColor <- get colors "editor.foreground" ;;
      bgLuminance <- Contrast.calculateLuminance h backgroundColor ;;
      fgLuminance <- Contrast.calculateLuminance h foregroundColor ;;
      let mainContrast :=
        div (add (Math_max bgLuminance fgLuminance) (Num 0.05))
            (add (Math_min bgLuminance fgLuminance) (Num 0.05)) in
      match forEach syntaxColors (countAdequate bgLuminance) 0%nat with
      | (_, Throw e) => Throw e
      | (adequateContrastCount, Normal _) =>
          supported <-
            (fix each (langs : list (string * list string)) :=
               match langs with
               | [] => Normal []
               | (language, scopes) :: rest =>
                   supportedScopes <-
                     filter scopes
                       (fun scope => call_some tokenColors (ruleSupports scope)) ;;
                   others <- each rest ;;
                   Normal ((language, supportedScopes) :: others)
               end) languageSupport ;;
          Normal (FinalReport syntaxColors mainContrast
                    (Contrast.getContrastLevel mainContrast)
                    adequateContrastCount supported)
      end
  end.

Definition runFinalTest : completion bool :=
  _ <- runFinalTest_report ;; Normal true.

End WithHost.

(** The structure [validateThemeStructure] asks of a parsed theme:
    [semanticHighlighting] is [true], [semanticTokenColors] is an object or
    array that does not shadow [hasOwnProperty], [tokenColors] is an
    array, [colors] is an object or array. *)
Definition property (theme : value) (key : string) : value :=
  match theme with
  | VObject props =>
      match lookup key props with Some x => x | None => VUndefined end
  | _ => VUndefined
  end.

Definition shadows_hasOwnProperty (o : value) : bool :=
  match o with
  | VObject props =>
      match lookup "hasOwnProperty" props with Some _ => true | None => false end
  | _ => false
  end.

Definition structure_ok (theme : value) : bool :=
  match theme with
  | VUndefined | VNull => false
  | _ =>
      match property theme "semanticHighlighting" with
      | VBool true => true
      | _ => false
      end
      && truthy (property theme "semanticTokenColors")
      && String.eqb (typeof (property theme "semanticTokenColors")) "object"
      && negb (shadows_hasOwnProperty (property theme "semanticTokenColors"))
      && isArray (property theme "tokenColors")
      && truthy (property theme "colors")
      && String.eqb (typeof (property theme "colors")) "object"
  end.

End MoreScripts.

(* ===================================================================== *)
(** ** The comprehensive suite: contrast ratios; long paths *)
(* ===================================================================== *)

Module SuiteContrast.
Import JS Dyn Dyn.Notations TestSuite.

Local Open Scope R_scope.

Section WithHost.
Variable h : host.
(** [x.toFixed(digits)], which the embedding of numbers cannot compute. *)
Variable toFixed : number -> nat -> string.

(** The callback of [theme.tokenColors.forEach] in [testContrastRatios];
    the state is the pair of counters [lowContrastCount] and
    [totalColors]. *)
Definition countLowContrast (backgroundColor rule : value) (st : nat * nat)
  : (nat * nat) * completion unit :=
  let '(lowContrastCount, totalColors) := st in
  match (settings <- get rule "settings" ;;
         if truthy settings then get settings "foreground"
         else Normal VUndefined) with
  | Throw e => (st, Throw e)
  | Normal foreground =>
      if truthy foreground then
        match Contrast.calculateContrastRatio h backgroundColor foreground with
        | Throw e => ((lowContrastCount, S totalColors), Throw e)
        | Normal contrast =>
            ((if ltb contrast (Num 3)
              then S lowContrastCount else lowContrastCount,
              S totalColors),
             Normal tt)
        end
      else (st, Normal tt)
  end.

(** [(totalColors - lowContrastCount) / totalColors * 100] *)
Definition contrastPercentage (lowContrastCount totalColors : nat) : number :=
  mul (div (Num (INR (totalColors - lowContrastCount)))
           (Num (INR totalColors)))
      (Num 100).

(** The body of the loop of [testContrastRatios] for one theme, with its
    [try] and [catch]; the state is [this.results]. *)
Definition testContrastRatios_theme (themeFile themeName : string)
  (r : results) : results :=
  let failed (e : exn) (r' : results) :=
    logFail (themeFile ++ ": Contrast validation failed - "
             ++ Dyn.message e) r' in
  let themePath := path_join h [dirname h; "themes"; themeFile] in
  match (text <- readFileSync h themePath ;;
         theme <- JSON_parse h text ;;
         colors <- get theme "colors" ;;
         backgroundColor <- get colors "editor.background" ;;
         colors' <- get theme "colors" ;;
         foregroundColor <- get colors' "editor.foreground" ;;
         mainContrast <-
           Contrast.calculateContrastRatio h backgroundColor foregroundColor ;;
         Normal (theme, backgroundColor, mainContrast)) with
  | Throw e => failed e r
  | Normal (theme, backgroundColor, mainContrast) =>
      let r1 :=
        if geb mainContrast (Num 4.5) then
          logPass (themeName ++ ": Main editor contrast "
                   ++ toFixed mainContrast 2 ++ ":1 (AA compliant)") r
        else if geb mainContrast (Num 3) then
          logWarning (themeName ++ ": Main editor contrast "
                      ++ toFixed mainContrast 2 ++ ":1 (AA Large only)") r
        else
          logFail (themeName ++ ": Main editor contrast "
                   ++ toFixed mainContrast 2 ++ ":1 (Below AA standards)") r in
      match get theme "tokenColors" with
      | Throw e => failed e r1
      | Normal tokenColors =>
          match call_forEach "theme.tokenColors" tokenColors
                  (countLowContrast backgroundColor) (0%nat, 0%nat) with
          | (_, Throw e) => failed e r1
          | ((lowContrastCount, totalColors), Normal _) =>
              let percentage :=
                toFixed (contrastPercentage lowContrastCount totalColors) 1 in
              if (lowContrastCount =? 0)%nat then
                logPass (themeName ++ ": All syntax colors meet minimum contrast ("
                         ++ percentage ++ "%)") r1
              else
                logWarning (themeName ++ ": "
                            ++ ColorFormat.index_key lowContrastCount ++ "/"
                            ++ ColorFormat.index_key totalColors
                            ++ " syntax colors below 3:1 contrast ("
                            ++ percentage ++ "% compliant)") r1
          end
      end
  end.

(** [testContrastRatios()]: the two themes in turn. *)
Definition testContrastRatios (r : results) : results :=
  testContrastRatios_theme "apollo-light-color-theme.json" "Apollo Light"
    (testContrastRatios_theme "apollo-dark-color-theme.json" "Apollo Dark" r).

End WithHost.
End SuiteContrast.

Module LongPaths.
Import Dyn.

Section WithHost.
Variable h : host.
(** [process.platform] *)
Variable platform : string.

(** The callback of [this.themeFiles.forEach] in [testLongPathSupport];
    the state is the array [issues]. *)
Definition checkLength (themeFile : string) (issues : list string)
  : list string :=
  let fullPath := path_resolve h (dirname h) themeFile in
  let len := ColorFormat.index_key (String.length fullPath) in
  let issues1 :=
    if String.eqb platform "win32" && (250 <? String.length fullPath)%nat
    then ColorFormat.push issues
           ("Path may be too long for Windows: " ++ fullPath
            ++ " (" ++ len ++ " chars)")
    else issues in
  if (200 <? String.length fullPath)%nat
  then ColorFormat.push issues1
         ("Long path detected: " ++ fullPath ++ " (" ++ len ++ " chars)")
  else issues1.

(** [testLongPathSupport()]: nothing in its [try] block throws, so the
    [catch] is never entered. *)
Definition testLongPathSupport : Scripts.result :=
  Scripts.Result true
    (fold_left (fun issues f => checkLength f issues) Scripts.themeFiles []).

End WithHost.
End LongPaths.

(* ===================================================================== *)
(** ** Cross-platform suite: permissions, colour keys, alpha channel *)
(* ===================================================================== *)

Module CrossPlatform.
Import Dyn.

(** [this.themeFiles.forEach(callback)]: the variables the callback
    updates are the state, which survives a throw. *)
Fixpoint forEachFile {S : Type} (files : list string)
  (f : string -> S -> S * completion unit) (st : S) : S * completion unit :=
  match files with
  | [] => (st, Normal tt)
  | x :: rest =>
      match f x st with
      | (st', Normal _) => forEachFile rest f st'
      | (st', Throw e) => (st', Throw e)
      end
  end.

End CrossPlatform.

Module FilePermissions.
Import Dyn.

(** The digit [d] of an octal numeral. *)
Definition octal_digit (d : Z) : ascii := ascii_of_nat (48 + Z.to_nat d).

Fixpoint toString8_from (fuel : nat) (n : Z) (acc : string) : string :=
  match fuel with
  | O => acc
  | S fuel' =>
      let acc' := String (octal_digit (n mod 8)) acc in
      if (n / 8 =? 0)%Z then acc' else toString8_from fuel' (n / 8)%Z acc'
  end.

(** [n.toString(8)] for an integer [n >= 0]. *)
Definition toString8 (n : Z) : string :=
  toString8_from (S (Z.to_nat (Z.log2 n))) n "".

(** [(mode & parseInt('777', 8)).toString(8)]: [parseInt('777', 8)] is
    511; [&] works on the low 32 bits of [mode], of which the mask keeps
    the low nine. *)
Definition permissions (mode : Z) : string := toString8 (Z.land mode 511).

(** [!permissions.includes('4')] *)
Definition insufficient (mode : Z) : bool :=
  negb (string_includes "4" (permissions mode)).

Section WithHost.
Variable h : host.
(** [process.platform] *)
Variable platform : string.
(** [fs.statSync(p).mode] *)
Variable statSync : string -> completion Z.
(** [fs.accessSync(p, fs.constants.R_OK)] *)
Variable accessSync : string -> completion unit.

(** The callback of [this.themeFiles.forEach] in [testFilePermissions];
    the state is [passed] and [issues]. *)
Definition checkPermissions (themeFile : string) (st : Scripts.result)
  : Scripts.result * completion unit :=
  let fullPath := path_join h [dirname h; themeFile] in
  if existsSync h fullPath then
    match statSync fullPath with
    | Throw e => (st, Throw e)
    | Normal mode =>
        let st1 :=
          match accessSync fullPath with
          | Normal _ => st
          | Throw _ =>
              Scripts.fail_with ("File not readable: " ++ themeFile) st
          end in
        if negb (String.eqb platform "win32") then
          if insufficient mode
          then (Scripts.Result (Scripts.passed st1)
                  (ColorFormat.push (Scripts.issues st1)
                     ("Insufficient read permissions for " ++ themeFile
                      ++ ": " ++ permissions mode)),
                Normal tt)
          else (st1, Normal tt)
        else (st1, Normal tt)
    end
  else (st, Normal tt).

(** [testFilePermissions()] *)
Definition testFilePermissions : Scripts.result :=
  match CrossPlatform.forEachFile Scripts.themeFiles checkPermissions
          (Scripts.Result true []) with
  | (st, Normal _) => st
  | (st, Throw error) =>
      Scripts.fail_with ("File permissions test failed: " ++ message error) st
  end.

End WithHost.
End FilePermissions.

Module ColorConsistency.

(** [darkKeys.filter(key => !lightKeys.includes(key))] *)
Definition missingInLight (darkKeys lightKeys : list string) : list string :=
  List.filter (fun key => negb (Palette.includes lightKeys key)) darkKeys.

(** [lightKeys.filter(key => !darkKeys.includes(key))] *)
Definition missingInDark (darkKeys lightKeys : list string) : list string :=
  List.filter (fun key => negb (Palette.includes darkKeys key)) lightKeys.

(** [arr.join(', ')] *)
Definition join (arr : list string) : string := String.concat ", " arr.

(** The comparison of the colour keys in [testColorConsistency]: the array
    [issues] after the two checks. *)
Definition compareKeys (darkKeys lightKeys : list string)
  (issues : list string) : list string :=
  let issues1 :=
    if (0 <? List.length (missingInLight darkKeys lightKeys))%nat
    then ColorFormat.push issues
           ("Colors missing in light theme: "
            ++ join (missingInLight darkKeys lightKeys))
    else issues in
  if (0 <? List.length (missingInDark darkKeys lightKeys))%nat
  then ColorFormat.push issues1
         ("Colors missing in dark theme: "
          ++ join (missingInDark darkKeys lightKeys))
  else issues1.

End ColorConsistency.

Module AlphaChannel.
Import JS Dyn Dyn.Notations Regex.

(** The object [testAlphaChannelSupport] returns. *)
Record alpha_result : Type := AlphaResult {
  passed : bool;
  issues : list string;
  alphaColorsFound : nat
}.

(** [/^[A-Fa-f0-9]{2}$/] *)
Definition alphaPattern : regex := Rep 2 ColorFormat.hex_class.

(** The callback of [Object.entries(themeData.colors).forEach] in
    [testAlphaChannelSupport]; [value.substring(7, 9)] is the two
    characters from index 7. *)
Definition countAlpha (themeFile : string) (entry : string * value)
  (st : alpha_result) : alpha_result :=
  let '(key, value) := entry in
  match value with
  | VString v =>
      if (String.length v =? 9)%nat && ColorFormat.startsWith v "#" then
        let alpha := substring 7 2 v in
        if negb (test alphaPattern alpha)
        then AlphaResult false
               (ColorFormat.push (issues st)
                  ("Invalid alpha channel in " ++ themeFile ++ ":" ++ key
                   ++ ": " ++ v))
               (S (alphaColorsFound st))
        else AlphaResult (passed st) (issues st) (S (alphaColorsFound st))
      else st
  | _ => st
  end.

Section WithHost.
Variable h : host.

(** The callback of [this.themeFiles.forEach] in
    [testAlphaChannelSupport]. *)
Definition countThemeAlpha (themeFile : string) (st : alpha_result)
  : alpha_result * completion unit :=
  let themePath := path_join h [dirname h; themeFile] in
  match (text <- readFileSync h themePath ;;
         themeData <- JSON_parse h text ;;
         get themeData "colors") with
  | Throw e => (st, Throw e)
  | Normal colors =>
      if truthy colors
      then (fold_left (fun st' entry => countAlpha themeFile entry st')
                      (ColorFormat.Object_entries colors) st,
            Normal tt)
      else (st, Normal tt)
  end.

(** [testAlphaChannelSupport()] *)
Definition testAlphaChannelSupport : alpha_result :=
  match CrossPlatform.forEachFile Scripts.themeFiles countThemeAlpha
          (AlphaResult true [] 0) with
  | (st, Normal _) => st
  | (st, Throw error) =>
      AlphaResult false
        (ColorFormat.push (issues st)
           ("Alpha channel test failed: " ++ message error))
        (alphaColorsFound st)
  end.

End WithHost.
End AlphaChannel.

(* ===================================================================== *)
(** ** More example hosts *)
(* ===================================================================== *)

Module MoreExamples.
Import Dyn.

(** The smallest document both validators accept. *)
Definition minimal_theme : value :=
  VObject [("semanticHighlighting", VBool true);
           ("semanticTokenColors", VObject []);
           ("tokenColors", VArray []);
           ("colors", VObject [])].

(** Both theme files hold the text [{}], which stands for
    [minimal_theme]. *)
Definition minimal_host : host :=
  Examples.example_host "/ext" "/"
    [("/ext/themes/apollo-dark-color-theme.json", "{}");
     ("/ext/themes/apollo-light-color-theme.json", "{}")]
    [("{}", minimal_theme)].

(** The dark theme has an editor background and foreground and no token
    colour at all. *)
Definition no_tokens_theme : list (string * value) :=
  [("colors", VObject [("editor.background", VString "#090a14");
                       ("editor.foreground", VString "#ebede9")]);
   ("tokenColors", VArray [])].

Definition no_tokens_host : host :=
  Examples.example_host "/ext" "/"
    [("/ext/themes/apollo-dark-color-theme.json", "{}")]
    [("{}", VObject no_tokens_theme)].

(** A stand-in for [toFixed]: it renders [NaN] as JavaScript does and
    leaves the digits of a number out. *)
Definition render (x : JS.number) (digits : nat) : string :=
  match x with
  | JS.NaN => "NaN"
  | JS.Num _ => "#"
  end.

End MoreExamples.

(* ===================================================================== *)
(** ** Vocabulary of the further properties *)
(* ===================================================================== *)

Module Vocabulary.
Import JS Dyn Scripts.

Local Open Scope R_scope.

(** An analysis that [analyzeContrast] reports: a finite contrast below 3,
    classified 'Fail'. *)
Definition low_contrast (a : analysis) : Prop :=
  exists r, contrast a = Num r /\ r < 3 /\ level a = Contrast.Fail.

End Vocabulary.

(* ===================================================================== *)
(** * Part II: properties *)
(* ===================================================================== *)

(** ** The matcher decides the language *)

Module RegexFacts.
Import Regex.

Lemma append_empty_inv (s1 s2 : string) :
  s1 ++ s2 = "" -> s1 = "" /\ s2 = "".
Proof. destruct s1; simpl; [tauto | discriminate]. Qed.

Lemma append_cons_inv (c : ascii) (s s1 s2 : string) :
  s1 ++ s2 = String c s ->
  (s1 = "" /\ s2 = String c s) \/ (exists t, s1 = String c t /\ s = t ++ s2).
Proof.
  destruct s1 as [| c1 t]; simpl; intros H.
  - left; auto.
  - right. injection H as -> <-. eauto.
Qed.

Lemma lang_cat_inv (r1 r2 : regex) (s : string) :
  lang (Cat r1 r2) s ->
  exists s1 s2, s = s1 ++ s2 /\ lang r1 s1 /\ lang r2 s2.
Proof. intros H. inversion H; subst. eauto. Qed.

Lemma lang_alt_inv (r1 r2 : regex) (s : string) :
  lang (Alt r1 r2) s -> lang r1 s \/ lang r2 s.
Proof. intros H. inversion H; subst; auto. Qed.

Lemma lang_chr_inv (c : ascii) (s : string) :
  lang (Chr c) s -> s = String c "".
Proof. intros H. inversion H; subst. reflexivity. Qed.

Lemma lang_class_inv (ranges : list (ascii * ascii)) (s : string) :
  lang (Class ranges) s ->
  exists c, s = String c "" /\ in_class ranges c = true.
Proof. intros H. inversion H; subst. eauto. Qed.

Lemma lang_cat_cons (c : ascii) (r1 r2 : regex) (s1 s2 : string) :
  lang r1 (String c s1) -> lang r2 s2 -> lang (Cat r1 r2) (String c (s1 ++ s2)).
Proof.
  intros H1 H2. change (String c (s1 ++ s2)) with (String c s1 ++ s2).
  constructor; assumption.
Qed.

Lemma nullable_lang (r : regex) : nullable r = true <-> lang r "".
Proof.
  induction r; simpl.
  - split; intros H; [discriminate | inversion H].
  - split; intros H; [constructor | reflexivity].
  - split; intros H; [discriminate | inversion H].
  - split; intros H; [discriminate | inversion H].
  - rewrite andb_true_iff, IHr1, IHr2. split.
    + intros [H1 H2]. change "" with ("" ++ ""). constructor; assumption.
    + intros H. apply lang_cat_inv in H as (s1 & s2 & E & L1 & L2).
      symmetry in E. apply append_empty_inv in E as [-> ->]. auto.
  - rewrite orb_true_iff, IHr1, IHr2. split.
    + intros [H | H]; [apply lang_alt_l | apply lang_alt_r]; assumption.
    + apply lang_alt_inv.
Qed.

Lemma deriv_lang (c : ascii) (r : regex) :
  forall s, lang (deriv c r) s <-> lang r (String c s).
Proof.
  induction r; intros s; simpl.
  - split; intros H; inversion H.
  - split; intros H; inversion H.
  - destruct (Ascii.eqb_spec c c0) as [-> | Hne]; split; intros H.
    + inversion H; subst. constructor.
    + apply lang_chr_inv in H. injection H as ->. constructor.
    + inversion H.
    + apply lang_chr_inv in H. injection H as -> _. contradiction.
  - destruct (in_class ranges c) eqn:Hc; split; intros H.
    + inversion H; subst. constructor. assumption.
    + apply lang_class_inv in H as (c' & E & _). injection E as _ ->. constructor.
    + inversion H.
    + apply lang_class_inv in H as (c' & E & Hc'). injection E as <- _. congruence.
  - assert (Hcat : lang (Cat (deriv c r1) r2) s -> lang (Cat r1 r2) (String c s)).
    { intros Hc. apply lang_cat_inv in Hc as (s1 & s2 & -> & L1 & L2).
      apply lang_cat_cons; [apply IHr1 |]; assumption. }
    split.
    + intros H. destruct (nullable r1) eqn:Hn; [| auto].
      apply lang_alt_inv in H as [H | H]; [auto |].
      change (String c s) with ("" ++ String c s).
      constructor; [apply nullable_lang | apply IHr2]; assumption.
    + intros H. apply lang_cat_inv in H as (s1 & s2 & E & L1 & L2).
      symmetry in E. apply append_cons_inv in E as [[-> ->] | [t [-> ->]]].
      * apply nullable_lang in L1. rewrite L1.
        apply lang_alt_r, IHr2. assumption.
      * assert (Hd : lang (Cat (deriv c r1) r2) (t ++ s2))
          by (constructor; [apply IHr1 |]; assumption).
        destruct (nullable r1); [apply lang_alt_l |]; assumption.
  - split; intros H; apply lang_alt_inv in H as [H | H];
      solve [apply lang_alt_l, IHr1; assumption
            | apply lang_alt_r, IHr2; assumption].
Qed.

Lemma test_lang (r : regex) (s : string) : test r s = true <-> lang r s.
Proof.
  revert r. induction s as [| c s IH]; intros r; simpl.
  - apply nullable_lang.
  - rewrite IH. apply deriv_lang.
Qed.

(** The languages of [c r] and of [[class] r]. *)
Lemma lang_chr_cat (c : ascii) (r : regex) (s : string) :
  lang (Cat (Chr c) r) s <-> exists t, s = String c t /\ lang r t.
Proof.
  split.
  - intros H. apply lang_cat_inv in H as (s1 & s2 & -> & L1 & L2).
    apply lang_chr_inv in L1 as ->. simpl. eauto.
  - intros [t [-> Ht]]. change (String c t) with (String c "" ++ t).
    constructor; [constructor | assumption].
Qed.

Lemma lang_class_cat (ranges : list (ascii * ascii)) (r : regex) (s : string) :
  lang (Cat (Class ranges) r) s <->
  exists c t, s = String c t /\ in_class ranges c = true /\ lang r t.
Proof.
  split.
  - intros H. apply lang_cat_inv in H as (s1 & s2 & -> & L1 & L2).
    apply lang_class_inv in L1 as (c & -> & Hc). simpl. eauto.
  - intros [c [t [-> [Hc Ht]]]]. change (String c t) with (String c "" ++ t).
    constructor; [constructor |]; assumption.
Qed.

Lemma lang_eps (s : string) : lang Eps s <-> s = "".
Proof. split; intros H; [inversion H | subst; constructor]; reflexivity. Qed.

End RegexFacts.

(** ** Hex-colour syntax *)

Module HexColorFacts.
Import Regex RegexFacts HexColor.

(** The class [[0-9A-Fa-f]] holds exactly the 22 hexadecimal digits. *)
Lemma in_hex_class_charb (c : ascii) :
  in_class [("0", "9"); ("A", "F"); ("a", "f")]%char c = is_hex_charb c.
Proof.
  destruct c as [[] [] [] [] [] [] [] []]; vm_compute; reflexivity.
Qed.

Lemma is_hex_charb_spec (c : ascii) : is_hex_charb c = true <-> is_hex_char c.
Proof.
  unfold is_hex_charb, is_hex_char. rewrite existsb_exists. split.
  - intros [x [Hin Heq]]. apply Ascii.eqb_eq in Heq. now subst.
  - intros Hin. exists c. split; [assumption | apply Ascii.eqb_refl].
Qed.

Lemma in_hex_class (c : ascii) :
  in_class [("0", "9"); ("A", "F"); ("a", "f")]%char c = true <-> is_hex_char c.
Proof. rewrite in_hex_class_charb. apply is_hex_charb_spec. Qed.

Lemma isValidHexColor_shape (s : string) :
  isValidHexColor s = true <-> HashSixHex s.
Proof.
  unfold isValidHexColor, HashSixHex, hex_class. split.
  - intros H. apply test_lang in H.
    apply lang_chr_cat in H as (t0 & -> & H). cbn [Rep] in H.
    apply lang_class_cat in H as (d1 & t1 & -> & H1 & H).
    apply lang_class_cat in H as (d2 & t2 & -> & H2 & H).
    apply lang_class_cat in H as (d3 & t3 & -> & H3 & H).
    apply lang_class_cat in H as (d4 & t4 & -> & H4 & H).
    apply lang_class_cat in H as (d5 & t5 & -> & H5 & H).
    apply lang_class_cat in H as (d6 & t6 & -> & H6 & H).
    apply lang_eps in H as ->.
    exists d1, d2, d3, d4, d5, d6. split; [reflexivity |].
    apply in_hex_class in H1, H2, H3, H4, H5, H6.
    repeat (apply Forall_cons; [assumption |]). apply Forall_nil.
  - intros (d1 & d2 & d3 & d4 & d5 & d6 & -> & Hd).
    repeat match goal with
           | H : Forall _ (_ :: _) |- _ => inversion H; clear H; subst
           end.
    apply test_lang. apply lang_chr_cat. eexists. split; [reflexivity |].
    cbn [Rep].
    do 6 (apply lang_class_cat; do 2 eexists;
          split; [reflexivity | split; [apply in_hex_class; assumption |]]).
    apply lang_eps. reflexivity.
Qed.

Lemma HashSixHex_length (s : string) : HashSixHex s -> String.length s = 7%nat.
Proof. intros (d1 & d2 & d3 & d4 & d5 & d6 & -> & _). reflexivity. Qed.

Lemma isValidHexColor_length (s : string) :
  String.length s <> 7%nat -> isValidHexColor s = false.
Proof.
  intros Hlen. destruct (isValidHexColor s) eqn:E; [| reflexivity].
  apply isValidHexColor_shape, HashSixHex_length in E. contradiction.
Qed.

(** C4.  [isValidHexColor] accepts exactly the strings made of ['#'] and
    six hexadecimal digits; in particular every 3-digit and every 8-digit
    form is rejected. *)
Theorem isValidHexColor_iff_hash_six_hex :
  (forall s, isValidHexColor s = true <-> HashSixHex s)
  /\ (forall s, ~ HashSixHex s -> isValidHexColor s = false)
  /\ (forall a b c : ascii,
        isValidHexColor (String "#" (String a (String b (String c "")))) = false)
  /\ (forall a b c d e f g i : ascii,
        isValidHexColor
          (String "#" (String a (String b (String c (String d
             (String e (String f (String g (String i ""))))))))) = false).
Proof.
  repeat apply conj.
  - apply isValidHexColor_shape.
  - intros s Hs. destruct (isValidHexColor s) eqn:E; [| reflexivity].
    apply isValidHexColor_shape in E. contradiction.
  - intros. apply isValidHexColor_length. discriminate.
  - intros. apply isValidHexColor_length. discriminate.
Qed.

(** The validator of test-semantic-validation.js is a different function:
    it also accepts the 8-digit form with an alpha channel. *)
Example isValidColor_accepts_alpha :
  isValidColor "#ebede9ff" = true /\ isValidHexColor "#ebede9ff" = false
  /\ isValidColor "#ebede9" = true /\ isValidColor "#fff" = false.
Proof. repeat split; reflexivity. Qed.

End HexColorFacts.

Module JSFacts.
Import JS HexColor.

Ltac hex_cases H :=
  unfold is_hex_char in H; simpl in H;
  repeat (destruct H as [H | H]; [subst | ]); try contradiction.

(** On two hex digits [parseInt] reads both: no white space, sign or
    prefix is skipped, and the value is the 8-bit channel. *)
Lemma parseInt16_Z_two_hex (a b : ascii) :
  is_hex_char a -> is_hex_char b ->
  parseInt16_Z (String a (String b "")) = Some (channel8 a b).
Proof.
  intros Ha Hb. hex_cases Ha; hex_cases Hb; vm_compute; reflexivity.
Qed.

Lemma channel8_range (a b : ascii) :
  is_hex_char a -> is_hex_char b -> (0 <= channel8 a b <= 255)%Z.
Proof.
  intros Ha Hb. hex_cases Ha; hex_cases Hb; vm_compute; split; discriminate.
Qed.

Local Open Scope R_scope.

Lemma div_const (x y : R) : y <> 0 -> div (Num x) (Num y) = Num (x / y).
Proof.
  intros Hy. unfold div.
  destruct (Req_dec_T y 0); [contradiction | reflexivity].
Qed.

Lemma Math_max_comm (a b : number) : Math_max a b = Math_max b a.
Proof. destruct a, b; simpl; try reflexivity. now rewrite Rmax_comm. Qed.

Lemma Math_min_comm (a b : number) : Math_min a b = Math_min b a.
Proof. destruct a, b; simpl; try reflexivity. now rewrite Rmin_comm. Qed.

Lemma geb_Num (x y : R) : geb (Num x) (Num y) = true <-> x >= y.
Proof.
  unfold geb, leb. destruct (Rle_dec y x); split; intros H;
    try reflexivity; try discriminate; lra.
Qed.

Lemma geb_Num_false (x y : R) : geb (Num x) (Num y) = false <-> x < y.
Proof.
  unfold geb, leb. destruct (Rle_dec y x); split; intros H;
    try reflexivity; try discriminate; lra.
Qed.

End JSFacts.

Module ContrastFacts.
Import JS Dyn HexColor Contrast JSFacts HexColorFacts.

Local Open Scope R_scope.

(** The gamma expression of the scripts on a finite channel: the second
    branch is only taken above the threshold, where the base of the power
    is positive. *)
Lemma linearize_Num (x : R) :
  (if leb (Num x) (Num 0.03928) then div (Num x) (Num 12.92)
   else Math_pow_2_4 (div (add (Num x) (Num 0.055)) (Num 1.055)))
  = Num (if Rle_dec x 0.03928 then x / 12.92
         else Rpower ((x + 0.055) / 1.055) 2.4).
Proof.
  unfold leb. destruct (Rle_dec x 0.03928) as [Hle | Hgt].
  - apply div_const. lra.
  - simpl add. rewrite div_const by lra. unfold Math_pow_2_4.
    destruct (Rlt_dec 0 ((x + 0.055) / 1.055)) as [Hpos | Hneg]; [reflexivity | ].
    exfalso. apply Hneg. apply Rdiv_lt_0_compat; lra.
Qed.

Lemma luminance_of_channels (r g b : Z) :
  let cr := div (Num (IZR r)) (Num 255) in
  let cg := div (Num (IZR g)) (Num 255) in
  let cb := div (Num (IZR b)) (Num 255) in
  add (add (mul (Num 0.2126)
              (if leb cr (Num 0.03928) then div cr (Num 12.92)
               else Math_pow_2_4 (div (add cr (Num 0.055)) (Num 1.055))))
           (mul (Num 0.7152)
              (if leb cg (Num 0.03928) then div cg (Num 12.92)
               else Math_pow_2_4 (div (add cg (Num 0.055)) (Num 1.055)))))
      (mul (Num 0.0722)
         (if leb cb (Num 0.03928) then div cb (Num 12.92)
          else Math_pow_2_4 (div (add cb (Num 0.055)) (Num 1.055))))
  = Num (spec_luminance r g b).
Proof.
  intros cr cg cb. subst cr cg cb.
  rewrite (div_const (IZR r) 255), (div_const (IZR g) 255),
    (div_const (IZR b) 255) by lra.
  rewrite !linearize_Num. reflexivity.
Qed.

(** Both copies of [calculateLuminance] on a string ['#' d1 ... d6]. *)
Lemma luminance_hex (h : host) (d1 d2 d3 d4 d5 d6 : ascii) :
  Forall is_hex_char [d1; d2; d3; d4; d5; d6] ->
  let s := String "#" (String d1 (String d2 (String d3
             (String d4 (String d5 (String d6 "")))))) in
  let L := spec_luminance (channel8 d1 d2) (channel8 d3 d4) (channel8 d5 d6) in
  calculateLuminance h (VString s) = Normal (Num L)
  /\ calculateLuminance_alpha h (VString s) = Normal (Num L).
Proof.
  intros Hd s L.
  repeat match goal with
         | H : Forall _ (_ :: _) |- _ => inversion H; clear H; subst
         end.
  subst s L. unfold calculateLuminance, calculateLuminance_alpha.
  cbn [call_slice bind parseInt JS.slice substring Nat.sub].
  unfold parseInt16. rewrite !parseInt16_Z_two_hex by assumption.
  cbv zeta. rewrite luminance_of_channels. split; reflexivity.
Qed.

(** *** Bounds *)

Lemma spec_linear_bounds (c : R) : 0 <= c <= 255 -> 0 <= spec_linear c <= 1.
Proof.
  intros Hc. unfold spec_linear. cbv zeta.
  assert (H01 : 0 <= c / 255 <= 1) by (split; lra).
  destruct (Rle_dec (c / 255) 0.03928) as [Hle | Hgt].
  - lra.
  - assert (Hbase : 0 < (c / 255 + 0.055) / 1.055 <= 1) by (split; lra).
    split.
    + unfold Rpower. left. apply exp_pos.
    + replace 1 with (Rpower 1 2.4).
      * apply Rle_Rpower_l; [lra | exact Hbase].
      * unfold Rpower. rewrite ln_1, Rmult_0_r. apply exp_0.
Qed.

Lemma spec_luminance_bounds (r g b : Z) :
  (0 <= r <= 255)%Z -> (0 <= g <= 255)%Z -> (0 <= b <= 255)%Z ->
  0 <= spec_luminance r g b <= 1.
Proof.
  intros Hr Hg Hb. unfold spec_luminance.
  assert (Hc : forall z, (0 <= z <= 255)%Z -> 0 <= IZR z <= 255).
  { intros z [H0 H1]. split; [apply (IZR_le 0) | apply (IZR_le z 255)]; assumption. }
  pose proof (spec_linear_bounds _ (Hc _ Hr)).
  pose proof (spec_linear_bounds _ (Hc _ Hg)).
  pose proof (spec_linear_bounds _ (Hc _ Hb)).
  lra.
Qed.

Lemma spec_contrast_bounds (L1 L2 : R) :
  0 <= L1 <= 1 -> 0 <= L2 <= 1 ->
  0 < Rmin L1 L2 + 0.05 /\ 1 <= spec_contrast L1 L2 <= 21.
Proof.
  intros H1 H2. unfold spec_contrast.
  assert (Hmin : 0 <= Rmin L1 L2 <= Rmax L1 L2).
  { unfold Rmin, Rmax. destruct (Rle_dec L1 L2); lra. }
  assert (Hmax : Rmax L1 L2 <= 1).
  { unfold Rmax. destruct (Rle_dec L1 L2); lra. }
  assert (Hd : 0 < Rmin L1 L2 + 0.05) by lra.
  split; [exact Hd |]. split.
  - apply Rmult_le_reg_r with (Rmin L1 L2 + 0.05); [exact Hd |].
    unfold Rdiv. rewrite Rmult_assoc, Rinv_l by lra. lra.
  - apply Rmult_le_reg_r with (Rmin L1 L2 + 0.05); [exact Hd |].
    unfold Rdiv. rewrite Rmult_assoc, Rinv_l by lra. lra.
Qed.

Lemma inlineContrast_Num (L1 L2 : R) :
  0 < Rmin L1 L2 + 0.05 ->
  inlineContrast (Num L1) (Num L2) = Num (spec_contrast L1 L2).
Proof.
  intros Hd. unfold inlineContrast. simpl Math_max. simpl Math_min. simpl add.
  apply div_const. lra.
Qed.

Lemma HashSixHex_luminance (h : host) (s : string) :
  HashSixHex s ->
  exists L : R,
    0 <= L <= 1
    /\ calculateLuminance h (VString s) = Normal (Num L)
    /\ calculateLuminance_alpha h (VString s) = Normal (Num L).
Proof.
  intros (d1 & d2 & d3 & d4 & d5 & d6 & -> & Hd).
  destruct (luminance_hex h _ _ _ _ _ _ Hd) as [E1 E2].
  eexists. split; [| split; [exact E1 | exact E2]].
  repeat match goal with
         | H : Forall _ (_ :: _) |- _ => inversion H; clear H; subst
         end.
  apply spec_luminance_bounds; apply channel8_range; assumption.
Qed.

Lemma calculateContrastRatio_inline (h : host) (c1 c2 : value) (l1 l2 : number) :
  calculateLuminance_alpha h c1 = Normal l1 ->
  calculateLuminance_alpha h c2 = Normal l2 ->
  calculateContrastRatio h c1 c2 = Normal (inlineContrast l1 l2).
Proof. intros E1 E2. unfold calculateContrastRatio. rewrite E1, E2. reflexivity. Qed.

(** On a string nothing throws: slicing and [parseInt] are total. *)
Lemma calculateLuminance_alpha_string (h : host) (s : string) :
  exists l, calculateLuminance_alpha h (VString s) = Normal l.
Proof. unfold calculateLuminance_alpha. cbn [call_slice bind parseInt]. eauto. Qed.

(** C1.  On every string ['#' d1 d2 d3 d4 d5 d6] of hexadecimal digits,
    both copies of [calculateLuminance] return the W3C relative luminance
    of the three 8-bit channels the digit pairs write: each channel [c] is
    scaled to [c/255], linearised as [c'/12.92] up to 0.03928 and as
    [((c' + 0.055)/1.055)^2.4] above, and the results are weighted by
    0.2126, 0.7152 and 0.0722. *)
Theorem calculateLuminance_W3C (h : host) (d1 d2 d3 d4 d5 d6 : ascii) :
  Forall is_hex_char [d1; d2; d3; d4; d5; d6] ->
  let s := String "#" (String d1 (String d2 (String d3
             (String d4 (String d5 (String d6 "")))))) in
  let r := channel8 d1 d2 in
  let g := channel8 d3 d4 in
  let b := channel8 d5 d6 in
  ((0 <= r <= 255)%Z /\ (0 <= g <= 255)%Z /\ (0 <= b <= 255)%Z)
  /\ calculateLuminance h (VString s) = Normal (Num (spec_luminance r g b))
  /\ calculateLuminance_alpha h (VString s) = Normal (Num (spec_luminance r g b)).
Proof.
  intros Hd s r g b. split.
  - repeat match goal with
           | H : Forall _ (_ :: _) |- _ => inversion H; clear H; subst
           end.
    subst r g b. repeat apply conj; apply channel8_range; assumption.
  - apply luminance_hex. assumption.
Qed.

Lemma calculateLuminance_W3C_witness :
  ((0 <= channel8 "1" "7" <= 255)%Z /\ (0 <= channel8 "2" "0" <= 255)%Z
   /\ (0 <= channel8 "3" "8" <= 255)%Z)
  /\ calculateLuminance Examples.empty_host (VString "#172038")
     = Normal (Num (spec_luminance (channel8 "1" "7") (channel8 "2" "0")
                                   (channel8 "3" "8")))
  /\ calculateLuminance_alpha Examples.empty_host (VString "#172038")
     = Normal (Num (spec_luminance (channel8 "1" "7") (channel8 "2" "0")
                                   (channel8 "3" "8"))).
Proof.
  apply (calculateLuminance_W3C Examples.empty_host "1" "7" "2" "0" "3" "8").
  repeat (apply Forall_cons; [apply is_hex_charb_spec; reflexivity |]).
  apply Forall_nil.
Defined.

(** C2.  For two hex colours with luminances [L1] and [L2], the ratio
    [calculateContrastRatio] returns, and the expression written inline in
    [analyzeContrast] and the final test, is
    [(max(L1,L2) + 0.05) / (min(L1,L2) + 0.05)]. *)
Theorem contrast_ratio_formula (h : host) (c1 c2 : string) :
  isValidHexColor c1 = true -> isValidHexColor c2 = true ->
  exists L1 L2 : R,
    calculateLuminance h (VString c1) = Normal (Num L1)
    /\ calculateLuminance_alpha h (VString c1) = Normal (Num L1)
    /\ calculateLuminance h (VString c2) = Normal (Num L2)
    /\ calculateLuminance_alpha h (VString c2) = Normal (Num L2)
    /\ calculateContrastRatio h (VString c1) (VString c2)
       = Normal (Num (spec_contrast L1 L2))
    /\ inlineContrast (Num L1) (Num L2) = Num (spec_contrast L1 L2).
Proof.
  intros H1 H2.
  apply isValidHexColor_shape in H1, H2.
  destruct (HashSixHex_luminance h c1 H1) as (L1 & B1 & E1 & A1).
  destruct (HashSixHex_luminance h c2 H2) as (L2 & B2 & E2 & A2).
  exists L1, L2.
  destruct (spec_contrast_bounds L1 L2 B1 B2) as [Hd _].
  do 4 (split; [assumption |]). split.
  - rewrite (calculateContrastRatio_inline h _ _ _ _ A1 A2).
    now rewrite inlineContrast_Num.
  - now apply inlineContrast_Num.
Qed.

Lemma contrast_ratio_formula_witness :
  exists L1 L2 : R,
    calculateLuminance Examples.empty_host (VString "#ebede9") = Normal (Num L1)
    /\ calculateLuminance_alpha Examples.empty_host (VString "#ebede9")
       = Normal (Num L1)
    /\ calculateLuminance Examples.empty_host (VString "#090a14") = Normal (Num L2)
    /\ calculateLuminance_alpha Examples.empty_host (VString "#090a14")
       = Normal (Num L2)
    /\ calculateContrastRatio Examples.empty_host (VString "#ebede9")
         (VString "#090a14")
       = Normal (Num (spec_contrast L1 L2))
    /\ inlineContrast (Num L1) (Num L2) = Num (spec_contrast L1 L2).
Proof.
  apply (contrast_ratio_formula Examples.empty_host "#ebede9" "#090a14");
    reflexivity.
Defined.

(** C3.  [getContrastLevel] classifies a ratio [r] against the WCAG
    thresholds: 'AAA' iff [r >= 7], 'AA' iff [4.5 <= r < 7], 'AA Large'
    iff [3 <= r < 4.5], 'Fail' iff [r < 3]. *)
Theorem getContrastLevel_thresholds (r : R) :
  (getContrastLevel (Num r) = AAA <-> r >= 7)
  /\ (getContrastLevel (Num r) = AA <-> 4.5 <= r < 7)
  /\ (getContrastLevel (Num r) = AA_Large <-> 3 <= r < 4.5)
  /\ (getContrastLevel (Num r) = Fail <-> r < 3).
Proof.
  unfold getContrastLevel, geb, leb.
  destruct (Rle_dec 7 r), (Rle_dec 4.5 r), (Rle_dec 3 r);
    repeat apply conj; intros H; try discriminate H; try reflexivity; lra.
Qed.

(** The branches of [testContrastRatios] use the same two lower
    thresholds; a [NaN], which no comparison accepts, ends in the last
    branch of both. *)
Lemma mainContrastVerdict_thresholds (r : R) :
  (mainContrastVerdict (Num r) = LogPass <-> r >= 4.5)
  /\ (mainContrastVerdict (Num r) = LogWarning <-> 3 <= r < 4.5)
  /\ (mainContrastVerdict (Num r) = LogFail <-> r < 3).
Proof.
  unfold mainContrastVerdict, geb, leb.
  destruct (Rle_dec 4.5 r), (Rle_dec 3 r);
    repeat apply conj; intros H; try discriminate H; try reflexivity; lra.
Qed.

Lemma getContrastLevel_NaN :
  getContrastLevel NaN = Fail /\ mainContrastVerdict NaN = LogFail.
Proof. split; reflexivity. Qed.

(** C7.  The contrast ratio does not depend on the order of its two
    colours. *)
Theorem calculateContrastRatio_symmetric (h : host) (c1 c2 : string) :
  calculateContrastRatio h (VString c1) (VString c2)
  = calculateContrastRatio h (VString c2) (VString c1).
Proof.
  destruct (calculateLuminance_alpha_string h c1) as [l1 E1].
  destruct (calculateLuminance_alpha_string h c2) as [l2 E2].
  rewrite (calculateContrastRatio_inline h _ _ _ _ E1 E2),
    (calculateContrastRatio_inline h _ _ _ _ E2 E1).
  unfold inlineContrast. now rewrite Math_max_comm, Math_min_comm.
Qed.

(** C8.  For two valid 6-digit hex colours the luminances lie in [0, 1],
    the divisor of the ratio is positive, and the ratio lies in [1, 21]. *)
Theorem luminance_and_ratio_bounds (h : host) (c1 c2 : string) :
  isValidHexColor c1 = true -> isValidHexColor c2 = true ->
  exists L1 L2 ratio : R,
    calculateLuminance h (VString c1) = Normal (Num L1)
    /\ calculateLuminance_alpha h (VString c1) = Normal (Num L1)
    /\ calculateLuminance h (VString c2) = Normal (Num L2)
    /\ calculateLuminance_alpha h (VString c2) = Normal (Num L2)
    /\ 0 <= L1 <= 1 /\ 0 <= L2 <= 1
    /\ 0 < Rmin L1 L2 + 0.05
    /\ calculateContrastRatio h (VString c1) (VString c2) = Normal (Num ratio)
    /\ 1 <= ratio <= 21.
Proof.
  intros H1 H2.
  apply isValidHexColor_shape in H1, H2.
  destruct (HashSixHex_luminance h c1 H1) as (L1 & B1 & E1 & A1).
  destruct (HashSixHex_luminance h c2 H2) as (L2 & B2 & E2 & A2).
  destruct (spec_contrast_bounds L1 L2 B1 B2) as [Hd Hr].
  exists L1, L2, (spec_contrast L1 L2).
  do 7 (split; [assumption |]).
  split; [| exact Hr].
  rewrite (calculateContrastRatio_inline h _ _ _ _ A1 A2).
  now rewrite inlineContrast_Num.
Qed.

Lemma luminance_and_ratio_bounds_witness :
  exists L1 L2 ratio : R,
    calculateLuminance Examples.empty_host (VString "#ebede9") = Normal (Num L1)
    /\ calculateLuminance_alpha Examples.empty_host (VString "#ebede9")
       = Normal (Num L1)
    /\ calculateLuminance Examples.empty_host (VString "#090a14") = Normal (Num L2)
    /\ calculateLuminance_alpha Examples.empty_host (VString "#090a14")
       = Normal (Num L2)
    /\ 0 <= L1 <= 1 /\ 0 <= L2 <= 1
    /\ 0 < Rmin L1 L2 + 0.05
    /\ calculateContrastRatio Examples.empty_host (VString "#ebede9")
         (VString "#090a14") = Normal (Num ratio)
    /\ 1 <= ratio <= 21.
Proof.
  apply (luminance_and_ratio_bounds Examples.empty_host "#ebede9" "#090a14");
    reflexivity.
Defined.

End ContrastFacts.

(** ** The palette *)

Module PaletteFacts.
Import Palette.

Lemma includes_In (arr : list string) (x : string) :
  includes arr x = true <-> In x arr.
Proof.
  unfold includes. rewrite existsb_exists. split.
  - intros [y [Hin Heq]]. apply String.eqb_eq in Heq. now subst.
  - intros Hin. exists x. split; [assumption | apply String.eqb_refl].
Qed.

(** C9.  The seven groups contribute 6+6+6+6+6+6+10 keys, all distinct, so
    the merged palette and [getAllApolloColors] hold 46 colours, not the 48
    of the module's comments; [isApolloColor] is membership in that list. *)
Theorem getAllApolloColors_46 :
  map (@List.length _)
      [BLUES_TEALS.entries; GREENS.entries; BROWNS_ORANGES.entries;
       WARM_TONES.entries; PURPLES_MAGENTAS.entries; DEEP_PURPLES.entries;
       GRAYSCALE.entries]
  = [6; 6; 6; 6; 6; 6; 10]%nat
  /\ Object_keys APOLLO_PALETTE
     = (Object_keys BLUES_TEALS.entries ++ Object_keys GREENS.entries
        ++ Object_keys BROWNS_ORANGES.entries ++ Object_keys WARM_TONES.entries
        ++ Object_keys PURPLES_MAGENTAS.entries
        ++ Object_keys DEEP_PURPLES.entries
        ++ Object_keys GRAYSCALE.entries)%list
  /\ NoDup (Object_keys APOLLO_PALETTE)
  /\ List.length getAllApolloColors = 46%nat
  /\ List.length getAllApolloColors <> 48%nat
  /\ (forall c, isApolloColor c = true <-> In c getAllApolloColors).
Proof.
  repeat apply conj.
  - reflexivity.
  - reflexivity.
  - assert (E : nodup string_dec (Object_keys APOLLO_PALETTE)
                = Object_keys APOLLO_PALETTE) by (vm_compute; reflexivity).
    rewrite <- E. apply NoDup_nodup.
  - reflexivity.
  - discriminate.
  - intros c. apply includes_In.
Qed.

(** C10.  For both values of [isDark], every colour of [getThemeColors],
    [getSyntaxColors] and [getWorkbenchColors] is a palette colour. *)
Theorem theme_helpers_use_palette (isDark : bool) :
  Forall (fun c => isApolloColor c = true)
         (themeColorValues (getThemeColors isDark))
  /\ Forall (fun c => isApolloColor c = true)
            (Object_values (getSyntaxColors isDark))
  /\ Forall (fun c => isApolloColor c = true)
            (Object_values (getWorkbenchColors isDark)).
Proof.
  repeat apply conj; apply Forall_forall; intros c Hin;
    destruct isDark; simpl in Hin;
    repeat (destruct Hin as [<- | Hin]; [reflexivity |]); contradiction.
Qed.

End PaletteFacts.

Module ScriptsFacts.
Import JS Dyn Scripts.

(** *** [testPathSeparators] *)

Lemma fail_with_failed (issue : string) (st : result) :
  passed (fail_with issue st) = false /\ issues (fail_with issue st) <> [].
Proof.
  split; [reflexivity |]. unfold fail_with; simpl.
  destruct (issues st); discriminate.
Qed.

Lemma consistent_failed (st : result) :
  consistent st -> passed st = false -> issues st <> [].
Proof. intros [[Hp _] | [_ Hi]] Hf; [congruence | exact Hi]. Qed.

Lemma fail_with_consistent (issue : string) (st : result) :
  consistent (fail_with issue st).
Proof. right. apply fail_with_failed. Qed.

#[local] Hint Resolve fail_with_consistent : core.

(** A string that holds two backslashes in a row holds one. *)
Lemma prefix_app (a b s : string) :
  String.prefix (a ++ b) s = true -> String.prefix a s = true.
Proof.
  revert s. induction a as [| c a IH]; intros s.
  - destruct s; reflexivity.
  - destruct s as [| c' s]; simpl; [discriminate |].
    destruct (Ascii.ascii_dec c c'); [apply IH | discriminate].
Qed.

Lemma string_includes_unfold (needle haystack : string) :
  string_includes needle haystack =
  if String.prefix needle haystack then true
  else match haystack with
       | EmptyString => false
       | String _ rest => string_includes needle rest
       end.
Proof. destruct haystack; reflexivity. Qed.

Lemma string_includes_app (a b s : string) :
  string_includes (a ++ b) s = true -> string_includes a s = true.
Proof.
  induction s as [| c s IH];
    rewrite (string_includes_unfold (a ++ b)), (string_includes_unfold a);
    intros H.
  - destruct (String.prefix (a ++ b) "") eqn:E; [| discriminate H].
    apply prefix_app in E. now rewrite E.
  - destruct (String.prefix (a ++ b) (String c s)) eqn:E.
    + apply prefix_app in E. now rewrite E.
    + rewrite (IH H). now destruct (String.prefix a (String c s)).
Qed.

Lemma no_backslash_no_pair (p : string) :
  string_includes "\" p = false -> string_includes "\\" p = false.
Proof.
  intros H. destruct (string_includes "\\" p) eqn:E; [| reflexivity].
  apply (string_includes_app "\" "\") in E. congruence.
Qed.

Section WithHost.
Variable h : host.

Lemma checkThemePath_consistent (p : string) (st : result) :
  consistent st -> consistent (checkThemePath h p st).
Proof.
  intros Hst. unfold checkThemePath.
  destruct (string_includes "\\" p), (negb (existsSync h _)); auto.
Qed.

Lemma checkThemePath_failed (p : string) (st : result) :
  passed st = false -> passed (checkThemePath h p st) = false.
Proof.
  intros Hst. unfold checkThemePath.
  destruct (string_includes "\\" p), (negb (existsSync h _)); auto.
Qed.

Lemma checkThemePath_unresolved (p : string) (st : result) :
  resolves h p = false -> passed (checkThemePath h p st) = false.
Proof.
  unfold resolves, checkThemePath. intros ->. reflexivity.
Qed.

Lemma checkThemePath_clean (p : string) (st : result) :
  has_backslash p = false -> resolves h p = true -> checkThemePath h p st = st.
Proof.
  unfold has_backslash, resolves, checkThemePath. intros Hb ->.
  rewrite (no_backslash_no_pair _ Hb). reflexivity.
Qed.

Lemma checkThemeEntry_consistent (theme : value) (st st' : result) c :
  checkThemeEntry h theme st = (st', c) ->
  (consistent st -> consistent st')
  /\ (passed st = false -> passed st' = false).
Proof.
  unfold checkThemeEntry. intros H.
  destruct (get theme "path") as [path | e]; [| injection H as <- _; auto].
  destruct (truthy path); [| injection H as <- _; auto].
  destruct path; try (injection H as <- _; auto; fail).
  - injection H as <- _.
    split; [apply checkThemePath_consistent | apply checkThemePath_failed].
  - destruct (existsb _ elems); [| injection H as <- _; auto].
    destruct (ToString h (VArray elems)); injection H as <- _; auto.
Qed.

Lemma checkThemeEntry_unresolved (theme : value) (st st' : result) c (p : string) :
  checkThemeEntry h theme st = (st', c) ->
  In p (entryPaths theme) -> resolves h p = false ->
  passed st' = false.
Proof.
  unfold checkThemeEntry, entryPaths. intros H Hin Hres.
  destruct (get theme "path") as [path | e]; [| contradiction].
  destruct path; try contradiction.
  destruct (truthy (VString s)); [| contradiction].
  destruct Hin as [-> | []]. injection H as <- _.
  now apply checkThemePath_unresolved.
Qed.

Lemma checkThemeEntry_clean (theme : value) (st st' : result) :
  checkThemeEntry h theme st = (st', Normal tt) ->
  (forall p, In p (entryPaths theme) ->
             has_backslash p = false /\ resolves h p = true) ->
  st' = st.
Proof.
  unfold checkThemeEntry, entryPaths. intros H Hok.
  destruct (get theme "path") as [path | e]; [| discriminate].
  destruct (truthy path) eqn:Ht; [| now injection H as <-].
  destruct path; try discriminate.
  - rewrite Ht in Hok. destruct (Hok s (or_introl eq_refl)) as [Hb Hr].
    injection H as <-. now apply checkThemePath_clean.
  - destruct (existsb _ elems); [| discriminate].
    destruct (ToString h (VArray elems)); discriminate.
Qed.

Lemma forEach_consistent (entries : list value) :
  forall (st st' : result) c,
    forEach entries (checkThemeEntry h) st = (st', c) ->
    (consistent st -> consistent st')
    /\ (passed st = false -> passed st' = false).
Proof.
  induction entries as [| theme rest IH]; intros st st' c H; simpl in H.
  - injection H as <- _. auto.
  - destruct (checkThemeEntry h theme st) as [st1 [[] | e]] eqn:E.
    + destruct (checkThemeEntry_consistent _ _ _ _ E) as [H1 H2].
      destruct (IH _ _ _ H) as [H3 H4]. auto.
    + injection H as <- _. apply (checkThemeEntry_consistent _ _ _ _ E).
Qed.

Lemma forEach_unresolved (entries : list value) (p : string) :
  forall (st st' : result) c,
    forEach entries (checkThemeEntry h) st = (st', c) ->
    In p (flat_map Scripts.entryPaths entries) -> resolves h p = false ->
    c = Normal tt -> passed st' = false.
Proof.
  induction entries as [| theme rest IH]; intros st st' c H Hin Hres Hc;
    simpl in H, Hin.
  - contradiction.
  - destruct (checkThemeEntry h theme st) as [st1 [[] | e]] eqn:E.
    + apply in_app_or in Hin as [Hin | Hin].
      * pose proof (checkThemeEntry_unresolved _ _ _ _ _ E Hin Hres) as Hf.
        apply (forEach_consistent _ _ _ _ H). exact Hf.
      * eapply IH; eassumption.
    + injection H as _ <-. discriminate.
Qed.

Lemma forEach_clean (entries : list value) :
  forall (st st' : result),
    forEach entries (checkThemeEntry h) st = (st', Normal tt) ->
    (forall p, In p (flat_map Scripts.entryPaths entries) ->
               has_backslash p = false /\ resolves h p = true) ->
    st' = st.
Proof.
  induction entries as [| theme rest IH]; intros st st' H Hok; simpl in H, Hok.
  - now injection H as <-.
  - destruct (checkThemeEntry h theme st) as [st1 [[] | e]] eqn:E; [| discriminate].
    assert (st1 = st) as ->.
    { eapply checkThemeEntry_clean; [exact E |].
      intros p Hp. apply Hok, in_or_app. now left. }
    apply IH; [exact H |]. intros p Hp. apply Hok, in_or_app. now right.
Qed.

(** [checkPackage] either walks [packageThemes], or there is no list to
    walk and the state is left as it was. *)
Lemma checkPackage_cases (st : result) :
  checkPackage h st = forEach (packageThemes h) (checkThemeEntry h) st
  \/ (packageThemes h = [] /\ exists c, checkPackage h st = (st, c)).
Proof.
  unfold checkPackage, packageThemes.
  destruct (existsSync h _); [| right; eauto].
  destruct (readFileSync h _) as [text | e]; simpl; [| right; eauto].
  destruct (JSON_parse h text) as [packageData | e]; simpl; [| right; eauto].
  destruct (get packageData "contributes") as [contributes | e]; simpl;
    [| right; eauto].
  destruct (truthy contributes); [| right; eauto].
  destruct (get contributes "themes") as [themes | e]; [| right; eauto].
  destruct themes as [| | b | n | s | elems | props]; simpl;
    try (left; reflexivity);
    try (destruct b); try (destruct n as [| x]; [| destruct (Req_dec_T x 0)]);
    try (destruct (negb (s =? ""))); right; eauto.
Qed.

Lemma checkPackage_consistent (st st' : result) c :
  checkPackage h st = (st', c) ->
  (consistent st -> consistent st')
  /\ (passed st = false -> passed st' = false).
Proof.
  intros H. destruct (checkPackage_cases st) as [E | [_ [c' E]]];
    rewrite E in H.
  - eapply forEach_consistent; eassumption.
  - injection H as <- _. auto.
Qed.

Lemma checkThemeFile_consistent (f : string) (st : result) :
  (consistent st -> consistent (checkThemeFile h f st))
  /\ (passed st = false -> passed (checkThemeFile h f st) = false).
Proof.
  unfold checkThemeFile. destruct (negb (existsSync h _)); auto.
Qed.

Lemma initial_consistent : consistent (Result true []).
Proof. left. auto. Qed.

Lemma testPathSeparators_consistent : consistent (testPathSeparators h).
Proof.
  unfold testPathSeparators.
  destruct (checkPackage h _) as [st1 [[] | e]] eqn:E; [| auto].
  pose proof (proj1 (checkPackage_consistent _ _ _ E) initial_consistent) as H1.
  simpl. apply checkThemeFile_consistent, checkThemeFile_consistent, H1.
Qed.

Lemma listedThemePaths_entries :
  listedThemePaths h = flat_map entryPaths (packageThemes h).
Proof. reflexivity. Qed.

Lemma testPathSeparators_throw (st : result) (e : exn) :
  checkPackage h (Result true []) = (st, Throw e) ->
  testPathSeparators h
  = fail_with ("Path separator test failed: " ++ message e) st.
Proof. unfold testPathSeparators. now intros ->. Qed.

Lemma testPathSeparators_unresolved (p : string) :
  In p (listedThemePaths h) -> resolves h p = false ->
  passed (testPathSeparators h) = false.
Proof.
  intros Hin Hres. unfold testPathSeparators.
  destruct (checkPackage h _) as [st1 [[] | e]] eqn:E; [| reflexivity].
  assert (Hf : passed st1 = false).
  { destruct (checkPackage_cases (Result true [])) as [Ew | [Hnil _]].
    - rewrite Ew in E. rewrite listedThemePaths_entries in Hin.
      eapply forEach_unresolved; eauto.
    - rewrite listedThemePaths_entries, Hnil in Hin. contradiction. }
  simpl. now apply checkThemeFile_consistent, checkThemeFile_consistent.
Qed.

Lemma testPathSeparators_inaccessible (f : string) :
  In f themeFiles -> accessible h f = false ->
  passed (testPathSeparators h) = false.
Proof.
  intros Hin Hacc. unfold testPathSeparators.
  destruct (checkPackage h _) as [st1 [[] | e]]; [| reflexivity].
  unfold accessible in Hacc. simpl.
  destruct Hin as [<- | [<- | []]].
  - apply checkThemeFile_consistent.
    unfold checkThemeFile at 1. now rewrite Hacc.
  - unfold checkThemeFile at 1. now rewrite Hacc.
Qed.

Lemma testPathSeparators_clean (st : result) :
  checkPackage h (Result true []) = (st, Normal tt) ->
  (forall p, In p (listedThemePaths h) ->
             has_backslash p = false /\ resolves h p = true) ->
  (forall f, In f themeFiles -> accessible h f = true) ->
  testPathSeparators h = Result true [].
Proof.
  intros E Hok Hacc. unfold testPathSeparators. rewrite E.
  assert (st = Result true []) as ->.
  { destruct (checkPackage_cases (Result true [])) as [Ew | [_ [c Ec]]].
    - rewrite Ew in E. eapply forEach_clean; eauto.
    - rewrite Ec in E. now injection E as <-. }
  simpl. unfold checkThemeFile.
  pose proof (Hacc _ (or_introl eq_refl)) as H1.
  pose proof (Hacc _ (or_intror (or_introl eq_refl))) as H2.
  unfold accessible in H1, H2. now rewrite H1, H2.
Qed.

Lemma package_unreadable_throws (e : exn) :
  let packagePath := path_join h [dirname h; "package.json"] in
  existsSync h packagePath = true ->
  readFileSync h packagePath = Throw e
  \/ (exists text, readFileSync h packagePath = Normal text
                   /\ JSON_parse h text = Throw e) ->
  checkPackage h (Result true []) = (Result true [], Throw e).
Proof.
  intros packagePath Hex Hfail. unfold checkPackage. fold packagePath.
  rewrite Hex. destruct Hfail as [-> | [text [-> Hp]]]; simpl.
  - reflexivity.
  - now rewrite Hp.
Qed.

(** *** The two [try]/[catch] entry points *)

Lemma analyzeContrast_caught (e : exn) :
  analyzeContrast_try h = Throw e ->
  analyzeContrast h
  = Outcome ["Error analyzing contrast: " ++ message e] (Normal []).
Proof. unfold analyzeContrast. now intros ->. Qed.

Lemma validateLightThemeStructure_caught (e : exn) :
  validateLightThemeStructure_try h = Throw e ->
  validateLightThemeStructure h
  = Outcome ["✗ Light theme validation failed: " ++ message e] (Normal false).
Proof. unfold validateLightThemeStructure. now intros ->. Qed.

Lemma theme_unreadable_throws (e : exn) :
  let themePath :=
    path_join h [dirname h; "themes"; "apollo-light-color-theme.json"] in
  readFileSync h themePath = Throw e
  \/ (exists text, readFileSync h themePath = Normal text
                   /\ JSON_parse h text = Throw e) ->
  analyzeContrast_try h = Throw e
  /\ validateLightThemeStructure_try h = Throw e.
Proof.
  intros themePath Hfail.
  unfold analyzeContrast_try, validateLightThemeStructure_try.
  fold themePath.
  destruct Hfail as [-> | [text [-> Hp]]]; simpl.
  - split; reflexivity.
  - rewrite Hp. split; reflexivity.
Qed.

Lemma analyzeContrast_returns :
  exists v, returned (analyzeContrast h) = Normal v.
Proof. unfold analyzeContrast. destruct (analyzeContrast_try h); simpl; eauto. Qed.

Lemma validateLightThemeStructure_returns :
  exists b, returned (validateLightThemeStructure h) = Normal b.
Proof.
  unfold validateLightThemeStructure.
  destruct (validateLightThemeStructure_try h); simpl; eauto.
Qed.

End WithHost.

(** C5.  A failure while reading or parsing the theme file, and any other
    error thrown inside the [try] block, is caught: [analyzeContrast]
    writes its message and returns the empty array,
    [validateLightThemeStructure] writes its message and returns [false];
    neither ever completes by throwing. *)
Theorem entry_points_catch_every_error (h : host) :
  let themePath :=
    path_join h [dirname h; "themes"; "apollo-light-color-theme.json"] in
  (forall e,
      readFileSync h themePath = Throw e
      \/ (exists text, readFileSync h themePath = Normal text
                       /\ JSON_parse h text = Throw e) ->
      analyzeContrast h
      = Outcome ["Error analyzing contrast: " ++ message e] (Normal [])
      /\ validateLightThemeStructure h
         = Outcome ["✗ Light theme validation failed: " ++ message e]
                   (Normal false))
  /\ (forall e, analyzeContrast_try h = Throw e ->
        analyzeContrast h
        = Outcome ["Error analyzing contrast: " ++ message e] (Normal []))
  /\ (forall e, validateLightThemeStructure_try h = Throw e ->
        validateLightThemeStructure h
        = Outcome ["✗ Light theme validation failed: " ++ message e]
                  (Normal false))
  /\ (exists v, returned (analyzeContrast h) = Normal v)
  /\ (exists b, returned (validateLightThemeStructure h) = Normal b).
Proof.
  intros themePath. repeat split.
  - apply analyzeContrast_caught. now apply theme_unreadable_throws.
  - apply validateLightThemeStructure_caught. now apply theme_unreadable_throws.
  - apply analyzeContrast_caught.
  - apply validateLightThemeStructure_caught.
  - apply analyzeContrast_returns.
  - apply validateLightThemeStructure_returns.
Qed.

(** The theme file is missing: both entry points report and return. *)
Example entry_points_missing_theme :
  analyzeContrast Examples.empty_host
  = Outcome ["Error analyzing contrast: ENOENT: no such file or directory, open '/ext/themes/apollo-light-color-theme.json'"]
            (Normal [])
  /\ returned (validateLightThemeStructure Examples.empty_host) = Normal false.
Proof. split; reflexivity. Qed.

(** C6, as stated, fails: package.json is cut short, no theme path is
    listed, both expected theme files are accessible, and [passed] is
    false. *)
Lemma testPathSeparators_truncated_package :
  listedThemePaths Examples.truncated_package_host = []
  /\ claimed_passed Examples.truncated_package_host = true
  /\ testPathSeparators Examples.truncated_package_host
     = Result false
         ["Path separator test failed: Unexpected end of JSON input"].
Proof. repeat split; reflexivity. Qed.

(** C6, amended.  [passed] is false, with an issue recorded, whenever
    reading package.json or walking its theme list throws, whenever a
    listed theme path does not resolve to an existing file, and whenever an
    expected theme file is not accessible; when nothing throws, every
    listed path is free of backslashes and resolves, and both theme files
    are accessible, the result is [passed = true] with no issue. *)
Theorem testPathSeparators_verdict (h : host) :
  let r := testPathSeparators h in
  let packagePath := path_join h [dirname h; "package.json"] in
  (passed r = false -> issues r <> [])
  /\ (forall st e,
        checkPackage h (Result true []) = (st, Throw e) ->
        passed r = false
        /\ issues r
           = (issues st
              ++ [("Path separator test failed: " ++ message e)%string])%list)
  /\ (forall e,
        existsSync h packagePath = true ->
        readFileSync h packagePath = Throw e
        \/ (exists text, readFileSync h packagePath = Normal text
                         /\ JSON_parse h text = Throw e) ->
        r = Result false ["Path separator test failed: " ++ message e])
  /\ (forall p, In p (listedThemePaths h) -> resolves h p = false ->
        passed r = false)
  /\ (forall f, In f themeFiles -> accessible h f = false ->
        passed r = false)
  /\ (forall st,
        checkPackage h (Result true []) = (st, Normal tt) ->
        (forall p, In p (listedThemePaths h) ->
                   has_backslash p = false /\ resolves h p = true) ->
        (forall f, In f themeFiles -> accessible h f = true) ->
        r = Result true []).
Proof.
  intros r packagePath. subst r. repeat apply conj.
  - apply consistent_failed, testPathSeparators_consistent.
  - intros st e E. rewrite (testPathSeparators_throw _ _ _ E). auto.
  - intros e Hex Hfail.
    rewrite (testPathSeparators_throw _ _ _
               (package_unreadable_throws h e Hex Hfail)).
    reflexivity.
  - apply testPathSeparators_unresolved.
  - apply testPathSeparators_inaccessible.
  - apply testPathSeparators_clean.
Qed.

(** The check for backslashes looks for two in a row: on a Windows
    checkout whose package.json lists a theme with a single backslash as
    separator, the path is not reported and the test passes. *)
Lemma testPathSeparators_single_backslash :
  listedThemePaths Examples.backslash_host
  = ["themes\apollo-dark-color-theme.json"]
  /\ has_backslash "themes\apollo-dark-color-theme.json" = true
  /\ testPathSeparators Examples.backslash_host = Result true [].
Proof. repeat split; reflexivity. Qed.

End ScriptsFacts.

(** ** Further properties of the luminance helpers *)

Module LuminanceFacts.
Import JS Dyn HexColor Contrast Scripts Vocabulary JSFacts HexColorFacts
  ContrastFacts.

(** *** Slicing *)

Lemma substring_prefix (m : nat) :
  forall (s : string) (i n : nat),
    (i + n <= m)%nat -> substring i n (substring 0 m s) = substring i n s.
Proof.
  induction m as [| m IH]; intros s i n Hle.
  - assert (i = 0%nat) by lia. assert (n = 0%nat) by lia. subst.
    destruct s; reflexivity.
  - destruct s as [| c s]; [reflexivity |].
    destruct i as [| i].
    + destruct n as [| n]; [reflexivity |].
      simpl. f_equal. apply (IH s 0%nat n). lia.
    + simpl. apply IH. lia.
Qed.

Lemma slice_of_slice_0_7 (s : string) (from to : nat) :
  (from <= to <= 7)%nat -> slice from to (slice 0 7 s) = slice from to s.
Proof.
  intros H. unfold slice. simpl (7 - 0)%nat. apply substring_prefix. lia.
Qed.

Lemma luminance_alpha_string (h : host) (s : string) :
  calculateLuminance_alpha h (VString s) = calculateLuminance h (VString s).
Proof.
  unfold calculateLuminance, calculateLuminance_alpha.
  cbn [call_slice bind parseInt].
  rewrite !slice_of_slice_0_7 by lia. reflexivity.
Qed.

(** X1.  The two copies of [calculateLuminance] agree on every string:
    dropping the alpha channel with [slice(0, 7)] changes nothing, since
    only the characters 1 to 6 are read; a 9-character colour has the
    luminance of its first seven characters. *)
Theorem calculateLuminance_copies_agree (h : host) (s : string) :
  calculateLuminance_alpha h (VString s) = calculateLuminance h (VString s)
  /\ calculateLuminance h (VString (slice 0 7 s))
     = calculateLuminance h (VString s).
Proof.
  split; [apply luminance_alpha_string |].
  rewrite <- (luminance_alpha_string h s).
  unfold calculateLuminance, calculateLuminance_alpha.
  cbn [call_slice bind parseInt]. reflexivity.
Qed.

(** *** What [parseInt] can read from a slice of two characters *)

Lemma digit_between_bounds (lo hi c : ascii) :
  digit_between lo hi c = true ->
  (nat_of_ascii lo <= nat_of_ascii c <= nat_of_ascii hi)%nat.
Proof.
  unfold digit_between. intros H. apply andb_true_iff in H as [H1 H2].
  apply Nat.leb_le in H1, H2. lia.
Qed.

Lemma hex_digit_range (c : ascii) (d : Z) :
  hex_digit c = Some d -> (0 <= d <= 15)%Z.
Proof.
  unfold hex_digit.
  destruct (digit_between "0" "9" c) eqn:E1;
    [| destruct (digit_between "a" "f" c) eqn:E2;
       [| destruct (digit_between "A" "F" c) eqn:E3; [| discriminate]]];
    intros H; injection H as <-;
    match goal with
    | E : digit_between _ _ _ = true |- _ =>
        apply digit_between_bounds in E;
        remember (nat_of_ascii c) as n; vm_compute in E; lia
    end.
Qed.

Lemma strip_0x_cases (t : string) :
  strip_0x t = t
  \/ exists rest, (t = String "0" (String "x" rest)
                   \/ t = String "0" (String "X" rest))
                  /\ strip_0x t = rest.
Proof.
  destruct t as [| a [| b rest]].
  - left; reflexivity.
  - left. destruct a as [[] [] [] [] [] [] [] []]; reflexivity.
  - destruct a as [[] [] [] [] [] [] [] []]; try (left; reflexivity).
    destruct b as [[] [] [] [] [] [] [] []]; try (left; reflexivity);
      right; exists rest;
      (split; [(left; reflexivity) || (right; reflexivity) | reflexivity]).
Qed.

(** The run of digits of a string of at most two characters. *)
Lemma hex_prefix_two (t : string) (n : Z) :
  (String.length t <= 2)%nat ->
  hex_prefix 0 false t = Some n ->
  (0 <= n <= 255)%Z /\ ((String.length t <= 1)%nat -> (n <= 15)%Z).
Proof.
  destruct t as [| a [| b [| c t]]]; cbn [hex_prefix String.length];
    intros Hlen H.
  - discriminate.
  - destruct (hex_digit a) as [d |] eqn:Ea; [| discriminate].
    apply hex_digit_range in Ea.
    assert (n = 16 * 0 + d)%Z by congruence. lia.
  - destruct (hex_digit a) as [d |] eqn:Ea; [| discriminate].
    apply hex_digit_range in Ea.
    destruct (hex_digit b) as [e |] eqn:Eb.
    + apply hex_digit_range in Eb.
      assert (n = 16 * (16 * 0 + d) + e)%Z by congruence. lia.
    + assert (n = 16 * 0 + d)%Z by congruence. lia.
  - lia.
Qed.

Lemma digits_two (t : string) (n : Z) :
  (String.length t <= 2)%nat ->
  hex_prefix 0 false (strip_0x t) = Some n ->
  (0 <= n <= 255)%Z /\ ((String.length t <= 1)%nat -> (n <= 15)%Z).
Proof.
  intros Hlen H.
  destruct (strip_0x_cases t) as [E | [rest [Ht E]]]; rewrite E in H.
  - now apply hex_prefix_two.
  - assert (rest = "") as ->.
    { destruct Ht as [-> | ->]; simpl in Hlen; destruct rest;
        [reflexivity | simpl in Hlen; lia | reflexivity | simpl in Hlen; lia]. }
    discriminate.
Qed.

Lemma trim_start_length (s : string) :
  (String.length (trim_start s) <= String.length s)%nat.
Proof.
  induction s as [| c s IH]; simpl; [lia |].
  destruct (is_white_space c); simpl; lia.
Qed.

Lemma parseInt16_Z_cases (s : string) :
  (exists t, trim_start s = String "-" t
             /\ parseInt16_Z s
                = option_map (Z.mul (-1)) (hex_prefix 0 false (strip_0x t)))
  \/ (exists t, trim_start s = String "+" t
                /\ parseInt16_Z s
                   = option_map (Z.mul 1) (hex_prefix 0 false (strip_0x t)))
  \/ parseInt16_Z s
     = option_map (Z.mul 1) (hex_prefix 0 false (strip_0x (trim_start s))).
Proof.
  unfold parseInt16_Z.
  destruct (trim_start s) as [| a t].
  - right; right. simpl. reflexivity.
  - destruct a as [[] [] [] [] [] [] [] []];
      try (right; right;
           match goal with
           | |- context [hex_prefix 0 false ?x] =>
               destruct (hex_prefix 0 false x); reflexivity
           end).
    + right; left. exists t. split; [reflexivity |].
      destruct (hex_prefix 0 false (strip_0x t)); reflexivity.
    + left. exists t. split; [reflexivity |].
      destruct (hex_prefix 0 false (strip_0x t)); reflexivity.
Qed.

(** From at most two characters [parseInt(., 16)] reads nothing, or an
    integer between -15 and 255. *)
Lemma parseInt16_Z_two (s : string) (n : Z) :
  (String.length s <= 2)%nat -> parseInt16_Z s = Some n -> (-15 <= n <= 255)%Z.
Proof.
  intros Hlen H. pose proof (trim_start_length s) as Htrim.
  destruct (parseInt16_Z_cases s) as [[t [Et E]] | [[t [Et E]] | E]];
    rewrite E in H; clear E.
  - rewrite Et in Htrim. cbn [String.length] in Htrim.
    destruct (hex_prefix 0 false (strip_0x t)) as [m |] eqn:Em; [| discriminate].
    cbn [option_map] in H. assert (n = (-1) * m)%Z by congruence.
    destruct (digits_two t m) as [H1 H2]; [lia | exact Em |].
    specialize (H2 ltac:(lia)). lia.
  - rewrite Et in Htrim. cbn [String.length] in Htrim.
    destruct (hex_prefix 0 false (strip_0x t)) as [m |] eqn:Em; [| discriminate].
    cbn [option_map] in H. assert (n = 1 * m)%Z by congruence.
    destruct (digits_two t m) as [H1 _]; [lia | exact Em |]. lia.
  - destruct (hex_prefix 0 false (strip_0x (trim_start s))) as [m |] eqn:Em;
      [| discriminate].
    cbn [option_map] in H. assert (n = 1 * m)%Z by congruence.
    destruct (digits_two (trim_start s) m) as [H1 _]; [lia | exact Em |]. lia.
Qed.

Lemma slice_length (from to : nat) (s : string) :
  (String.length (slice from to s) <= to - from)%nat.
Proof.
  unfold slice. generalize (to - from)%nat as n. revert from.
  induction s as [| c s IH]; intros from n.
  - destruct from, n; simpl; lia.
  - destruct from as [| from].
    + destruct n as [| n]; simpl; [lia |]. specialize (IH 0%nat n). lia.
    + simpl. apply IH.
Qed.

Local Open Scope R_scope.

(** A channel read from two characters: [NaN], or between -15/255 and 1. *)
Lemma channel_cases (from : nat) (s : string) :
  div (parseInt16 (slice from (from + 2) s)) (Num 255) = NaN
  \/ exists x, div (parseInt16 (slice from (from + 2) s)) (Num 255) = Num x
               /\ - (15 / 255) <= x <= 1.
Proof.
  unfold parseInt16.
  destruct (parseInt16_Z (slice from (from + 2) s)) as [n |] eqn:E;
    [| left; reflexivity].
  right. apply parseInt16_Z_two in E.
  - exists (IZR n / 255). split; [apply div_const; lra |].
    destruct E as [E1 E2]. apply IZR_le in E1, E2. lra.
  - pose proof (slice_length from (from + 2) s). lia.
Qed.

(** The gamma expression on a channel that is [NaN] or not below
    -15/255. *)
Lemma linear_cases (c : number) :
  c = NaN \/ (exists x, c = Num x /\ - (15 / 255) <= x <= 1) ->
  let lin := if leb c (Num 0.03928) then div c (Num 12.92)
             else Math_pow_2_4 (div (add c (Num 0.055)) (Num 1.055)) in
  lin = NaN \/ exists y, lin = Num y /\ - (1 / 100) <= y <= 1.
Proof.
  intros [-> | [x [-> Hx]]] lin; subst lin.
  - left. reflexivity.
  - right. rewrite linearize_Num. eexists. split; [reflexivity |].
    destruct (Rle_dec x 0.03928) as [Hle | Hgt].
    + lra.
    + assert (Hbase : 0 < (x + 0.055) / 1.055 <= 1) by (split; lra).
      split.
      * left. apply Rlt_trans with 0; [lra | apply exp_pos].
      * replace 1 with (Rpower 1 2.4).
        -- apply Rle_Rpower_l; [lra | exact Hbase].
        -- unfold Rpower. rewrite ln_1, Rmult_0_r. apply exp_0.
Qed.

Lemma weighted_sum_cases (a b c : number) :
  (a = NaN \/ exists y, a = Num y /\ - (1 / 100) <= y <= 1) ->
  (b = NaN \/ exists y, b = Num y /\ - (1 / 100) <= y <= 1) ->
  (c = NaN \/ exists y, c = Num y /\ - (1 / 100) <= y <= 1) ->
  let L := add (add (mul (Num 0.2126) a) (mul (Num 0.7152) b))
               (mul (Num 0.0722) c) in
  L = NaN \/ exists y, L = Num y /\ - (1 / 100) <= y <= 1.
Proof.
  intros [-> | [x [-> Hx]]] [-> | [y [-> Hy]]] [-> | [z [-> Hz]]] L; subst L;
    try (left; reflexivity).
  right. eexists. split; [reflexivity |]. lra.
Qed.

(** On any string the luminance is [NaN] or a number above -0.05. *)
Lemma luminance_cases (h : host) (s : string) :
  exists l, calculateLuminance h (VString s) = Normal l
            /\ (l = NaN \/ exists y, l = Num y /\ - (1 / 100) <= y <= 1).
Proof.
  unfold calculateLuminance. cbn [call_slice bind parseInt].
  eexists. split; [reflexivity |]. cbv zeta.
  apply weighted_sum_cases; apply linear_cases.
  - apply (channel_cases 1).
  - apply (channel_cases 3).
  - apply (channel_cases 5).
Qed.

(** X2.  For any two strings, [calculateContrastRatio] never divides by
    zero: when both luminances are numbers the divisor
    [min(L1, L2) + 0.05] is positive and the ratio is the quotient; when
    one of them is [NaN] (a malformed colour) the ratio is [NaN]. *)
Theorem calculateContrastRatio_total (h : host) (c1 c2 : string) :
  exists l1 l2 : number,
    calculateLuminance_alpha h (VString c1) = Normal l1
    /\ calculateLuminance_alpha h (VString c2) = Normal l2
    /\ match l1, l2 with
       | Num L1, Num L2 =>
           0 < Rmin L1 L2 + 0.05
           /\ calculateContrastRatio h (VString c1) (VString c2)
              = Normal (Num (spec_contrast L1 L2))
       | _, _ =>
           calculateContrastRatio h (VString c1) (VString c2) = Normal NaN
       end.
Proof.
  destruct (luminance_cases h c1) as (l1 & E1 & B1).
  destruct (luminance_cases h c2) as (l2 & E2 & B2).
  rewrite <- luminance_alpha_string in E1, E2.
  exists l1, l2. split; [exact E1 |]. split; [exact E2 |].
  rewrite (calculateContrastRatio_inline h _ _ _ _ E1 E2).
  destruct B1 as [-> | [L1 [-> B1]]]; [reflexivity |].
  destruct B2 as [-> | [L2 [-> B2]]]; [reflexivity |].
  assert (Hd : 0 < Rmin L1 L2 + 0.05).
  { unfold Rmin. destruct (Rle_dec L1 L2); lra. }
  split; [exact Hd |]. now rewrite inlineContrast_Num.
Qed.

(** *** Colours that are too short *)

Lemma substring_beyond (s : string) :
  forall i n, (String.length s <= i)%nat -> substring i n s = "".
Proof.
  induction s as [| c s IH]; intros i n Hlen.
  - destruct i, n; reflexivity.
  - destruct i as [| i]; simpl in Hlen; [lia |]. simpl. apply IH. lia.
Qed.

Lemma slice_beyond (s : string) (from to : nat) :
  (String.length s <= from)%nat -> slice from to s = "".
Proof. intros H. unfold slice. now apply substring_beyond. Qed.

Lemma add_NaN_r (a : number) : add a NaN = NaN.
Proof. destruct a; reflexivity. Qed.

Lemma short_luminance_NaN (h : host) (s : string) :
  (String.length s <= 5)%nat ->
  calculateLuminance h (VString s) = Normal NaN.
Proof.
  intros Hlen. unfold calculateLuminance. cbn [call_slice bind parseInt].
  rewrite (slice_beyond s 5 7 Hlen).
  change (parseInt16 "") with NaN. cbv zeta.
  change (div NaN (Num 255)) with NaN. cbn [leb add div Math_pow_2_4 mul].
  now rewrite add_NaN_r.
Qed.

(** X3.  A token colour shorter than six characters, such as the 3-digit
    form [#fff], is analysed with [NaN] luminance and contrast and level
    'Fail', but is not added to [lowContrastColors]: [NaN < 3] is false. *)
Theorem analyzeRule_short_colour (h : host) (bgLuminance : number)
  (props settings : list (string * value)) (s : string)
  (colorAnalysis lowContrastColors : list analysis) :
  lookup "settings" props = Some (VObject settings) ->
  lookup "foreground" settings = Some (VString s) ->
  s <> "" -> (String.length s <= 5)%nat ->
  analyzeRule h bgLuminance (VObject props) (colorAnalysis, lowContrastColors)
  = (((colorAnalysis
       ++ [Analysis (VString s)
             (match lookup "name" props with Some x => x | None => VUndefined end)
             (match lookup "scope" props with Some x => x | None => VUndefined end)
             NaN NaN Contrast.Fail])%list,
      lowContrastColors),
     Normal tt).
Proof.
  intros Hs Hf Hne Hlen. unfold analyzeRule. cbn [get bind].
  rewrite Hs. cbn [truthy get bind]. rewrite Hf. cbn [truthy].
  destruct (String.eqb_spec s "") as [-> | _]; [contradiction |].
  cbn [negb]. rewrite (short_luminance_NaN h s Hlen). cbn [bind].
  destruct bgLuminance; reflexivity.
Qed.

Lemma analyzeRule_short_colour_witness :
  analyzeRule Examples.empty_host (Num 1)
    (VObject [("name", VString "Comment");
              ("settings", VObject [("foreground", VString "#fff")])])
    ([], [])
  = (([Analysis (VString "#fff") (VString "Comment") VUndefined
         NaN NaN Contrast.Fail], []),
     Normal tt).
Proof.
  apply (analyzeRule_short_colour Examples.empty_host (Num 1)
           [("name", VString "Comment");
            ("settings", VObject [("foreground", VString "#fff")])]
           [("foreground", VString "#fff")] "#fff" [] []).
  - reflexivity.
  - reflexivity.
  - discriminate.
  - simpl. lia.
Defined.

(** *** What [analyzeContrast] returns *)

Lemma forEach_invariant {S : Type} (P : S -> Prop)
  (f : value -> S -> S * completion unit) :
  (forall x st, P st -> P (fst (f x st))) ->
  forall elems st, P st -> P (fst (forEach elems f st)).
Proof.
  intros Hstep. induction elems as [| x rest IH]; intros st Hst; simpl.
  - exact Hst.
  - specialize (Hstep x st Hst).
    destruct (f x st) as [st' [[] | e]]; simpl in *; auto.
Qed.

Lemma call_forEach_invariant {S : Type} (P : S -> Prop) (expr : string)
  (f : value -> S -> S * completion unit) :
  (forall x st, P st -> P (fst (f x st))) ->
  forall v st, P st -> P (fst (call_forEach expr v f st)).
Proof.
  intros Hstep v st Hst. destruct v; simpl; try exact Hst.
  now apply forEach_invariant.
Qed.

Lemma getContrastLevel_below_3 (r : R) :
  r < 3 -> getContrastLevel (Num r) = Contrast.Fail.
Proof.
  intros Hr. unfold getContrastLevel, geb, leb.
  destruct (Rle_dec 7 r); [lra |]. destruct (Rle_dec 4.5 r); [lra |].
  destruct (Rle_dec 3 r); [lra | reflexivity].
Qed.

Lemma ltb_Num_true (a : number) (y : R) :
  ltb a (Num y) = true -> exists r, a = Num r /\ r < y.
Proof.
  destruct a as [| r]; simpl; [discriminate |].
  destruct (Rlt_dec r y); [eauto | discriminate].
Qed.

Lemma analyzeRule_low (h : host) (bg : number) (rule : value)
  (st : list analysis * list analysis) :
  Forall low_contrast (snd st) ->
  Forall low_contrast (snd (fst (analyzeRule h bg rule st))).
Proof.
  intros Hst. unfold analyzeRule. destruct st as [ca low]. simpl in Hst.
  destruct (get rule "settings") as [settings | e]; cbn [bind]; [| exact Hst].
  destruct (truthy settings); [| exact Hst].
  destruct (get settings "foreground") as [fg | e]; cbn [bind]; [| exact Hst].
  destruct (truthy fg); [| exact Hst].
  destruct (calculateLuminance h fg) as [l | e]; cbn [bind]; [| exact Hst].
  destruct (get rule "name") as [name | e]; cbn [bind]; [| exact Hst].
  destruct (get rule "scope") as [scope | e]; cbn [bind]; [| exact Hst].
  cbn [fst snd].
  match goal with
  | |- context [ltb ?c (Num 3)] =>
      destruct (ltb c (Num 3)) eqn:E; [| exact Hst]
  end.
  apply Forall_app. split; [exact Hst |].
  apply Forall_cons; [| apply Forall_nil].
  apply ltb_Num_true in E as (r & Er & Hr).
  exists r. cbn [contrast level]. split; [exact Er |]. split; [exact Hr |].
  rewrite Er. now apply getContrastLevel_below_3.
Qed.

(** X4.  [analyzeContrast] always returns an array, and every analysis in
    it has a finite contrast below 3 and the level 'Fail'. *)
Theorem analyzeContrast_reports_low_contrast (h : host) :
  exists result : list analysis,
    returned (analyzeContrast h) = Normal result
    /\ Forall low_contrast result.
Proof.
  unfold analyzeContrast.
  destruct (analyzeContrast_try h) as [result | e] eqn:E; cbn [returned].
  - exists result. split; [reflexivity |].
    unfold analyzeContrast_try in E.
    destruct (readFileSync h _) as [text | e]; cbn [bind] in E; [| discriminate].
    destruct (JSON_parse h text) as [theme | e]; cbn [bind] in E; [| discriminate].
    destruct (get theme "colors") as [colors | e]; cbn [bind] in E;
      [| discriminate].
    destruct (get colors "editor.background") as [bgc | e]; cbn [bind] in E;
      [| discriminate].
    destruct (calculateLuminance h bgc) as [bg | e]; cbn [bind] in E;
      [| discriminate].
    destruct (get theme "tokenColors") as [tokenColors | e]; cbn [bind] in E;
      [| discriminate].
    pose proof (call_forEach_invariant
                  (fun st : list analysis * list analysis =>
                     Forall low_contrast (snd st))
                  "tokenColors" (analyzeRule h bg)
                  (fun x st => analyzeRule_low h bg x st)
                  tokenColors ([], []) (Forall_nil _)) as Hinv.
    destruct (call_forEach "tokenColors" tokenColors (analyzeRule h bg) ([], []))
      as [[ca low] [[] | e]]; [| discriminate].
    injection E as <-. exact Hinv.
  - exists []. split; [reflexivity | apply Forall_nil].
Qed.

End LuminanceFacts.

(** ** Colour formats *)

Module ColorFormatFacts.
Import JS Dyn Regex HexColor ColorFormat RegexFacts HexColorFacts.

Lemma in_hex_class_AFaf09 (c : ascii) :
  in_class [("A", "F"); ("a", "f"); ("0", "9")]%char c = true <-> is_hex_char c.
Proof.
  assert (E : in_class [("A", "F"); ("a", "f"); ("0", "9")]%char c
              = is_hex_charb c)
    by (destruct c as [[] [] [] [] [] [] [] []]; vm_compute; reflexivity).
  rewrite E. apply is_hex_charb_spec.
Qed.

Ltac class_chain H :=
  repeat (let d := fresh "d" in
          let t := fresh "t" in
          let Hd := fresh "Hd" in
          apply lang_class_cat in H as (d & t & -> & Hd & H));
  apply lang_eps in H as ->.

Ltac all_hex :=
  repeat (apply Forall_cons;
          [first [apply in_hex_class; assumption
                 | apply in_hex_class_AFaf09; assumption] |]);
  apply Forall_nil.

Ltac split_hex Hd :=
  repeat match goal with
         | H : Forall _ (_ :: _) |- _ => inversion H; clear H; subst
         end.

Tactic Notation "build_chain" integer(n) :=
  do n (apply lang_class_cat; do 2 eexists;
        split; [reflexivity
               | split; [first [apply in_hex_class; assumption
                               | apply in_hex_class_AFaf09; assumption] |]]);
  apply lang_eps; reflexivity.

Lemma isValidColor_shape (s : string) :
  isValidColor s = true <-> HashSixHex s \/ HashEightHex s.
Proof.
  unfold isValidColor, HexColor.hex_class, Opt. split.
  - intros H. apply test_lang in H.
    apply lang_chr_cat in H as (t0 & -> & H).
    apply lang_cat_inv in H as (s1 & s2 & -> & H1 & H2).
    cbn [Rep] in H1, H2. class_chain H1.
    apply lang_alt_inv in H2 as [H2 | H2].
    + class_chain H2. right. unfold HashEightHex.
      do 8 eexists. split; [reflexivity | all_hex].
    + apply lang_eps in H2 as ->. left. unfold HashSixHex.
      do 6 eexists. split; [reflexivity | all_hex].
  - intros [(d1 & d2 & d3 & d4 & d5 & d6 & -> & Hd)
           | (d1 & d2 & d3 & d4 & d5 & d6 & d7 & d8 & -> & Hd)];
      split_hex Hd; apply test_lang; apply lang_chr_cat;
      eexists; (split; [reflexivity |]).
    + change (String d1 (String d2 (String d3 (String d4 (String d5
                (String d6 ""))))))
        with (String d1 (String d2 (String d3 (String d4 (String d5
                (String d6 ""))))) ++ "").
      constructor; [cbn [Rep]; build_chain 6 | apply lang_alt_r; constructor].
    + change (String d1 (String d2 (String d3 (String d4 (String d5
                (String d6 (String d7 (String d8 ""))))))))
        with (String d1 (String d2 (String d3 (String d4 (String d5
                (String d6 ""))))) ++ String d7 (String d8 "")).
      constructor; [cbn [Rep]; build_chain 6
                   | apply lang_alt_l; cbn [Rep]; build_chain 2].
Qed.

Lemma hexColorPattern_shape (s : string) :
  test hexColorPattern s = true <-> HashSixHex s \/ HashEightHex s.
Proof.
  unfold hexColorPattern, ColorFormat.hex_class. split.
  - intros H. apply test_lang in H.
    apply lang_chr_cat in H as (t0 & -> & H).
    apply lang_alt_inv in H as [H | H]; cbn [Rep] in H; class_chain H.
    + left. unfold HashSixHex. do 6 eexists. split; [reflexivity | all_hex].
    + right. unfold HashEightHex. do 8 eexists. split; [reflexivity | all_hex].
  - intros [(d1 & d2 & d3 & d4 & d5 & d6 & -> & Hd)
           | (d1 & d2 & d3 & d4 & d5 & d6 & d7 & d8 & -> & Hd)];
      split_hex Hd; apply test_lang; apply lang_chr_cat;
      eexists; (split; [reflexivity |]).
    + apply lang_alt_l. cbn [Rep]. build_chain 6.
    + apply lang_alt_r. cbn [Rep]. build_chain 8.
Qed.

(** X5.  [isValidColor] accepts exactly ['#'] followed by six or by eight
    hexadecimal digits; so it accepts every string [isValidHexColor]
    accepts, and besides those only the 8-digit forms. *)
Theorem isValidColor_six_or_eight :
  (forall s, isValidColor s = true <-> HashSixHex s \/ HashEightHex s)
  /\ (forall s, isValidHexColor s = true -> isValidColor s = true)
  /\ (forall s, isValidColor s = true -> isValidHexColor s = false ->
                String.length s = 9%nat).
Proof.
  repeat apply conj.
  - apply isValidColor_shape.
  - intros s H. apply isValidColor_shape. left.
    now apply isValidHexColor_shape.
  - intros s H Hn. apply isValidColor_shape in H as [H | H].
    + apply isValidHexColor_shape in H. congruence.
    + destruct H as (d1 & d2 & d3 & d4 & d5 & d6 & d7 & d8 & -> & _).
      reflexivity.
Qed.

(** X6.  The pattern of [checkColorsInObject] in the cross-platform suite
    and the pattern of [isValidColor] in the comprehensive suite accept the
    same strings. *)
Theorem hexColorPattern_agrees_with_isValidColor (s : string) :
  test hexColorPattern s = isValidColor s.
Proof.
  destruct (test hexColorPattern s) eqn:E1, (isValidColor s) eqn:E2;
    try reflexivity.
  - apply hexColorPattern_shape, isValidColor_shape in E1. congruence.
  - apply isValidColor_shape, hexColorPattern_shape in E2. congruence.
Qed.

(** *** [checkColorsInObject] *)

Lemma push_app (issues : list string) (x : string) :
  push issues x = (issues ++ [x])%list.
Proof. reflexivity. Qed.

(** What one entry adds does not depend on the issues found before. *)
Lemma checkEntry_frame (context : string) (entry : string * value)
  (issues : list string) :
  checkEntry context entry issues
  = (issues ++ checkEntry context entry [])%list.
Proof.
  destruct entry as [key value]. unfold checkEntry.
  destruct value as [| | b | n | v | elems | props];
    try (now rewrite app_nil_r).
  destruct (startsWith v "#"); [| now rewrite app_nil_r].
  destruct (negb (test hexColorPattern v)),
    (negb (v =? toLowerCase v)),
    ((String.length v =? 9)%nat && endsWith (toLowerCase v) "ff");
    unfold push; cbn [app]; rewrite <- ?app_assoc; cbn [app];
    try reflexivity; now rewrite app_nil_r.
Qed.

Lemma checkEntry_clean (context : string) (entry : string * value) :
  checkEntry context entry [] = [] <-> clean_entry entry = true.
Proof.
  destruct entry as [key value]. unfold checkEntry, clean_entry. cbn [snd].
  destruct value as [| | b | n | v | elems | props]; try tauto.
  destruct (startsWith v "#"); [| tauto].
  destruct (test hexColorPattern v), (v =? toLowerCase v),
    ((String.length v =? 9)%nat && endsWith (toLowerCase v) "ff");
    cbn; split; intros H; try reflexivity; discriminate H.
Qed.

Lemma fold_checkEntry_frame (context : string)
  (entries : list (string * value)) :
  forall issues,
    fold_left (fun iss entry => checkEntry context entry iss) entries issues
    = (issues
       ++ fold_left (fun iss entry => checkEntry context entry iss) entries [])%list.
Proof.
  induction entries as [| e rest IH]; intros issues; cbn [fold_left].
  - now rewrite app_nil_r.
  - rewrite (IH (checkEntry context e issues)), (IH (checkEntry context e [])).
    rewrite (checkEntry_frame context e issues). now rewrite app_assoc.
Qed.

Lemma fold_checkEntry_clean (context : string)
  (entries : list (string * value)) :
  fold_left (fun iss entry => checkEntry context entry iss) entries [] = []
  <-> forallb clean_entry entries = true.
Proof.
  induction entries as [| e rest IH]; cbn [fold_left forallb].
  - tauto.
  - rewrite fold_checkEntry_frame, andb_true_iff, <- IH, <- checkEntry_clean.
    split.
    + intros H. apply app_eq_nil in H. exact H.
    + intros [-> ->]. reflexivity.
Qed.

Lemma checkColorsInObject_clean (props : list (string * value))
  (context : string) (issues : list string) :
  forallb clean_entry props = true ->
  checkColorsInObject (VObject props) context issues = issues.
Proof.
  intros H. unfold checkColorsInObject. cbn [truthy negb Object_entries].
  rewrite fold_checkEntry_frame.
  apply fold_checkEntry_clean with (context := context) in H.
  rewrite H. apply app_nil_r.
Qed.

(** X7.  [checkColorsInObject] only appends to [issues], what it appends
    does not depend on the issues found before, and it appends nothing
    exactly when the object is falsy or each of its entries is clean: not
    a string starting with ['#'], or a lower-case colour of six or eight
    hex digits that is not a 9-character colour ending in [ff]. *)
Theorem checkColorsInObject_appends (obj : value) (context : string)
  (issues : list string) :
  checkColorsInObject obj context issues
  = (issues ++ checkColorsInObject obj context [])%list
  /\ (checkColorsInObject obj context issues = issues
      <-> truthy obj = false
          \/ forallb clean_entry (Object_entries obj) = true).
Proof.
  unfold checkColorsInObject.
  destruct (truthy obj); cbn [negb].
  - split; [apply fold_checkEntry_frame |].
    rewrite fold_checkEntry_frame, <- fold_checkEntry_clean. split.
    + intros H. right. apply (app_inv_head issues).
      rewrite app_nil_r. exact H.
    + intros [H | H]; [discriminate | rewrite H; apply app_nil_r].
  - split; [now rewrite app_nil_r |]. split; auto.
Qed.

(** X8.  On an object none of whose values is itself an object or array,
    [checkSemanticTokenColors] finds exactly what [checkColorsInObject]
    finds. *)
Theorem checkSemanticTokenColors_flat (props : list (string * value))
  (context : string) (issues : list string) :
  forallb (fun entry => negb (String.eqb (typeof (snd entry)) "object")
                        || match snd entry with VNull => true | _ => false end)
          props = true ->
  checkSemanticTokenColors (VObject props) context issues
  = Normal (checkColorsInObject (VObject props) context issues).
Proof.
  intros Hflat. unfold checkSemanticTokenColors, checkColorsInObject.
  cbn [truthy negb Object_entries]. f_equal.
  revert issues. induction props as [| [key value] rest IH]; intros issues;
    cbn [fold_left]; [reflexivity |].
  cbn [forallb snd] in Hflat. apply andb_true_iff in Hflat as [Hv Hrest].
  rewrite <- (IH Hrest). f_equal.
  destruct value as [| | b | n | v | elems | props']; try reflexivity;
    try discriminate Hv.
  unfold checkSemanticEntry, checkColorsInObject.
  cbn [truthy negb Object_entries fold_left].
  destruct (startsWith v "#") eqn:E; [reflexivity |].
  unfold checkEntry. now rewrite E.
Qed.

Lemma checkSemanticTokenColors_flat_witness :
  checkSemanticTokenColors
    (VObject [("function", VString "#DE9E41"); ("enumMember", VString "red");
              ("variable", VNull)])
    "semanticTokenColors" []
  = Normal (checkColorsInObject
              (VObject [("function", VString "#DE9E41");
                        ("enumMember", VString "red"); ("variable", VNull)])
              "semanticTokenColors" []).
Proof.
  apply (checkSemanticTokenColors_flat
           [("function", VString "#DE9E41"); ("enumMember", VString "red");
            ("variable", VNull)] "semanticTokenColors" []).
  reflexivity.
Defined.

(** X9.  Every colour of the Apollo palette is a clean entry: whatever the
    key, [checkColorsInObject] reports nothing for it. *)
Theorem palette_colours_are_clean (key c : string) (context : string)
  (issues : list string) :
  Palette.isApolloColor c = true ->
  clean_entry (key, VString c) = true
  /\ checkColorsInObject (VObject [(key, VString c)]) context issues = issues.
Proof.
  intros Hc.
  assert (Hclean : clean_entry (key, VString c) = true).
  { apply PaletteFacts.includes_In in Hc. unfold clean_entry. cbn [snd].
    unfold Palette.getAllApolloColors in Hc. simpl in Hc.
    repeat (destruct Hc as [<- | Hc]; [vm_compute; reflexivity |]).
    contradiction. }
  split; [exact Hclean |].
  apply checkColorsInObject_clean. cbn [forallb].
  now rewrite Hclean.
Qed.

Lemma palette_colours_are_clean_witness :
  clean_entry ("editor.background", VString "#090a14") = true
  /\ checkColorsInObject (VObject [("editor.background", VString "#090a14")])
       "themes/apollo-dark-color-theme.json:colors" []
     = [].
Proof.
  apply (palette_colours_are_clean "editor.background" "#090a14"
           "themes/apollo-dark-color-theme.json:colors" []).
  reflexivity.
Defined.

(** *** [testHexColorFormat] *)

(** X10.  [testHexColorFormat] passes exactly when it records no issue:
    any issue found, and any exception, makes [passed] false.  When the
    first theme file cannot be read or parsed, the only issue is the
    message of that failure. *)
Theorem testHexColorFormat_passed_iff_no_issue (h : host) :
  let themePath :=
    path_join h [dirname h; "themes/apollo-dark-color-theme.json"] in
  (Scripts.passed (testHexColorFormat h) = true
   <-> Scripts.issues (testHexColorFormat h) = [])
  /\ (forall e,
        readFileSync h themePath = Throw e
        \/ (exists text, readFileSync h themePath = Normal text
                         /\ JSON_parse h text = Throw e) ->
        testHexColorFormat h
        = Scripts.Result false
            ["Hex color format test failed: " ++ message e]).
Proof.
  intros themePath. split.
  - unfold testHexColorFormat.
    destruct (forEachFile Scripts.themeFiles (checkThemeFileColors h) [])
      as [issues [[] | e]]; cbn [Scripts.passed Scripts.issues].
    + destruct issues; cbn; split; intros H; try reflexivity; discriminate H.
    + unfold push. split; [discriminate |].
      intros H. apply app_eq_nil in H as [_ H]. discriminate H.
  - intros e Hfail. unfold testHexColorFormat, Scripts.themeFiles.
    cbn [forEachFile]. unfold checkThemeFileColors at 1. fold themePath.
    destruct Hfail as [-> | [text [-> Hp]]]; cbn [bind].
    + reflexivity.
    + rewrite Hp. reflexivity.
Qed.

End ColorFormatFacts.

(** ** The result log of the comprehensive suite *)

Module TestSuiteFacts.
Import JS TestSuite.

(** What the four logging methods keep true. *)
Lemma apply_call_counters (r : results) (c : call) :
  passed r = count_type pass (tests r) ->
  failed r = (count_type fail (tests r) + count_type error (tests r))%nat ->
  warnings r = count_type warning (tests r) ->
  let r' := apply_call r c in
  passed r' = count_type pass (tests r')
  /\ failed r' = (count_type fail (tests r') + count_type error (tests r'))%nat
  /\ warnings r' = count_type warning (tests r')
  /\ List.length (tests r') = S (List.length (tests r)).
Proof.
  intros Hp Hf Hw r'. subst r'.
  destruct c; cbn [apply_call logPass logFail logWarning logError
                     passed failed warnings tests];
    unfold count_type in *; rewrite !filter_app, !length_app; cbn;
    rewrite ?Nat.add_0_r; repeat apply conj; lia.
Qed.

Lemma fold_counters (calls : list call) :
  forall r,
    passed r = count_type pass (tests r) ->
    failed r = (count_type fail (tests r) + count_type error (tests r))%nat ->
    warnings r = count_type warning (tests r) ->
    let r' := fold_left apply_call calls r in
    passed r' = count_type pass (tests r')
    /\ failed r' = (count_type fail (tests r') + count_type error (tests r'))%nat
    /\ warnings r' = count_type warning (tests r')
    /\ List.length (tests r') = (List.length (tests r) + List.length calls)%nat.
Proof.
  induction calls as [| c rest IH]; intros r Hp Hf Hw; cbn [fold_left].
  - cbn. repeat apply conj; try assumption. lia.
  - destruct (apply_call_counters r c Hp Hf Hw) as (Hp' & Hf' & Hw' & Hl').
    destruct (IH _ Hp' Hf' Hw') as (H1 & H2 & H3 & H4).
    repeat apply conj; try assumption. rewrite H4, Hl'. cbn. lia.
Qed.

Lemma count_type_total (l : list test) :
  (count_type pass l + count_type fail l + count_type warning l
   + count_type error l = List.length l)%nat.
Proof.
  unfold count_type. induction l as [| [t m] l IH]; [reflexivity |].
  destruct t; cbn in *; lia.
Qed.

(** X11.  After any sequence of [logPass], [logFail], [logWarning] and
    [logError] calls on a fresh suite, one test is recorded per call, the
    three counters add up to the number of tests, [passed] and [warnings]
    count the entries of their type, and [failed] counts the 'fail' and
    the 'error' entries together. *)
Theorem log_counters_agree_with_tests (calls : list call) :
  let r := after calls in
  List.length (tests r) = List.length calls
  /\ (passed r + failed r + warnings r = List.length (tests r))%nat
  /\ passed r = count_type pass (tests r)
  /\ failed r = (count_type fail (tests r) + count_type error (tests r))%nat
  /\ warnings r = count_type warning (tests r).
Proof.
  intros r. subst r. unfold after.
  destruct (fold_counters calls initial eq_refl eq_refl eq_refl)
    as (H1 & H2 & H3 & H4).
  pose proof (count_type_total (tests (fold_left apply_call calls initial))).
  repeat apply conj; try assumption; cbn in H4; lia.
Qed.

Local Open Scope R_scope.



End TestSuiteFacts.

(** ** Light and dark colours, equal colours, the palette *)

Module ColourFacts.
Import JS Dyn HexColor Contrast Scripts JSFacts HexColorFacts ContrastFacts
  LuminanceFacts.

Local Open Scope R_scope.



(** X14.  A colour string shorter than six characters, the 3-digit form
    [#fff] included, is never light: its blue channel is [NaN], so
    [isLightColor] returns false and [isDarkColor] true. *)
Theorem short_colour_is_dark (h : host) (s : string) :
  (String.length s <= 5)%nat ->
  isLightColor h (VString s) = Normal false
  /\ isDarkColor h (VString s) = Normal true.
Proof.
  intros Hlen. unfold isDarkColor, isLightColor.
  cbn [call_slice bind parseInt].
  rewrite (slice_beyond s 5 7 Hlen). change (parseInt16 "") with NaN.
  cbn [mul]. rewrite add_NaN_r. split; reflexivity.
Qed.

Lemma short_colour_is_dark_witness :
  isLightColor Examples.empty_host (VString "#fff") = Normal false
  /\ isDarkColor Examples.empty_host (VString "#fff") = Normal true.
Proof.
  apply (short_colour_is_dark Examples.empty_host "#fff"). simpl. lia.
Defined.

(** X15.  Two valid colours have contrast ratio 1 exactly when their
    luminances are equal; in particular a colour against itself has ratio
    1, which [getContrastLevel] classifies 'Fail'. *)
Theorem equal_luminance_ratio_one (h : host) (c1 c2 : string) :
  isValidHexColor c1 = true -> isValidHexColor c2 = true ->
  exists L1 L2 ratio : R,
    calculateLuminance_alpha h (VString c1) = Normal (Num L1)
    /\ calculateLuminance_alpha h (VString c2) = Normal (Num L2)
    /\ calculateContrastRatio h (VString c1) (VString c2) = Normal (Num ratio)
    /\ (ratio = 1 <-> L1 = L2)
    /\ calculateContrastRatio h (VString c1) (VString c1) = Normal (Num 1)
    /\ getContrastLevel (Num 1) = Contrast.Fail.
Proof.
  intros H1 H2. apply isValidHexColor_shape in H1, H2.
  destruct (HashSixHex_luminance h c1 H1) as (L1 & B1 & _ & A1).
  destruct (HashSixHex_luminance h c2 H2) as (L2 & B2 & _ & A2).
  destruct (spec_contrast_bounds L1 L2 B1 B2) as [Hd _].
  destruct (spec_contrast_bounds L1 L1 B1 B1) as [Hd1 _].
  exists L1, L2, (spec_contrast L1 L2).
  split; [exact A1 |]. split; [exact A2 |]. split.
  { rewrite (calculateContrastRatio_inline h _ _ _ _ A1 A2).
    now rewrite inlineContrast_Num. }
  split.
  { unfold spec_contrast, Rmax, Rmin in *.
    destruct (Rle_dec L1 L2); split; intros H.
    - assert (E : (L2 + 0.05) / (L1 + 0.05) * (L1 + 0.05) = L2 + 0.05)
        by (field; lra).
      rewrite H in E. lra.
    - subst. field. lra.
    - assert (E : (L1 + 0.05) / (L2 + 0.05) * (L2 + 0.05) = L1 + 0.05)
        by (field; lra).
      rewrite H in E. lra.
    - subst. field. lra. }
  split.
  { rewrite (calculateContrastRatio_inline h _ _ _ _ A1 A1).
    rewrite inlineContrast_Num by exact Hd1. do 2 f_equal.
    unfold spec_contrast, Rmax, Rmin. destruct (Rle_dec L1 L1); field; lra. }
  apply getContrastLevel_below_3. lra.
Qed.

Lemma equal_luminance_ratio_one_witness :
  exists L1 L2 ratio : R,
    calculateLuminance_alpha Examples.empty_host (VString "#ebede9")
    = Normal (Num L1)
    /\ calculateLuminance_alpha Examples.empty_host (VString "#090a14")
       = Normal (Num L2)
    /\ calculateContrastRatio Examples.empty_host (VString "#ebede9")
         (VString "#090a14") = Normal (Num ratio)
    /\ (ratio = 1 <-> L1 = L2)
    /\ calculateContrastRatio Examples.empty_host (VString "#ebede9")
         (VString "#ebede9") = Normal (Num 1)
    /\ getContrastLevel (Num 1) = Contrast.Fail.
Proof.
  apply (equal_luminance_ratio_one Examples.empty_host "#ebede9" "#090a14");
    reflexivity.
Defined.

End ColourFacts.

Module PaletteMoreFacts.
Import Palette HexColor PaletteFacts.

(** X16.  The 46 palette colours are pairwise different, each is a valid
    6-digit hex colour, and also [isValidColor] accepts it. *)
Theorem palette_colours_valid_and_distinct :
  NoDup getAllApolloColors
  /\ (forall c, isApolloColor c = true ->
                isValidHexColor c = true /\ isValidColor c = true).
Proof.
  split.
  - assert (E : nodup string_dec getAllApolloColors = getAllApolloColors)
      by (vm_compute; reflexivity).
    rewrite <- E. apply NoDup_nodup.
  - intros c Hc. apply includes_In in Hc.
    unfold getAllApolloColors in Hc. simpl in Hc.
    repeat (destruct Hc as [<- | Hc]; [split; vm_compute; reflexivity |]).
    contradiction.
Qed.

End PaletteMoreFacts.

(** ** The validators and the final test *)

Module ValidatorFacts.
Import JS Dyn Scripts MoreScripts.

Lemma get_property (theme : value) (key : string) :
  theme <> VUndefined -> theme <> VNull ->
  get theme key = Normal (property theme key).
Proof. intros H1 H2. destruct theme; try reflexivity; contradiction. Qed.

Lemma get_Normal (theme : value) (key : string) (x : value) :
  get theme key = Normal x ->
  theme <> VUndefined /\ theme <> VNull /\ x = property theme key.
Proof.
  destruct theme; simpl; intros H; try discriminate H;
    injection H as <-; repeat split; discriminate.
Qed.

(** The ten [hasOwnProperty] calls throw exactly when the method is
    shadowed. *)
Lemma missingTokens_cases (o : value) (tokens : list string) :
  (shadows_hasOwnProperty o = false ->
   exists l, Dyn.filter tokens
               (fun token => bind (hasOwnProperty o token)
                               (fun own => Normal (negb own))) = Normal l)
  /\ (shadows_hasOwnProperty o = true -> tokens <> [] ->
      exists e, Dyn.filter tokens
                  (fun token => bind (hasOwnProperty o token)
                                  (fun own => Normal (negb own))) = Throw e).
Proof.
  split.
  - intros Hs. induction tokens as [| t rest [l IH]]; cbn [Dyn.filter].
    + eauto.
    + assert (exists b, hasOwnProperty o t = Normal b) as [b ->].
      { destruct o; simpl in *; eauto.
        destruct (lookup "hasOwnProperty" props); [discriminate | eauto]. }
      cbn [bind]. rewrite IH. cbn [bind]. eauto.
  - intros Hs Hne. destruct tokens as [| t rest]; [contradiction |].
    cbn [Dyn.filter]. destruct o; try discriminate Hs. simpl in *.
    destruct (lookup "hasOwnProperty" props); [| discriminate]. cbn. eauto.
Qed.

Section WithHost.
Variable h : host.


End WithHost.


(** X18.  When [validateLightThemeStructure] returns [true], the light
    theme file was read and parsed and the document has the structure the
    dark validator asks for. *)
Theorem validateLightThemeStructure_true_structure (h : host) :
  returned (validateLightThemeStructure h) = Normal true ->
  exists text theme,
    readFileSync h
      (path_join h [dirname h; "themes"; "apollo-light-color-theme.json"])
    = Normal text
    /\ JSON_parse h text = Normal theme
    /\ structure_ok theme = true.
Proof.
  unfold validateLightThemeStructure. intros H.
  destruct (validateLightThemeStructure_try h) as [b |] eqn:E; cbn in H;
    [| discriminate H].
  injection H as ->. unfold validateLightThemeStructure_try in E.
  destruct (readFileSync h _) as [text |] eqn:Er; [| discriminate E].
  cbn [bind] in E.
  destruct (JSON_parse h text) as [theme |] eqn:Ep; [| discriminate E].
  cbn [bind] in E. exists text, theme. split; [reflexivity |].
  split; [exact Ep |]. clear Er Ep.
  destruct (get theme "name") as [x |] eqn:Ename; [| discriminate E].
  apply get_Normal in Ename as (Hu & Hn & _).
  rewrite !(get_property theme _ Hu Hn) in E. cbn [bind] in E.
  unfold structure_ok.
  destruct theme; try contradiction; try discriminate E.
  set (theme := VObject props) in *.
  destruct (property theme "semanticHighlighting") as [| | [] | | | |];
    try discriminate E.
  destruct (truthy (property theme "semanticTokenColors"));
    [| discriminate E].
  destruct (typeof (property theme "semanticTokenColors") =? "object");
    [| discriminate E].
  cbn [andb] in E |- *.
  destruct (shadows_hasOwnProperty (property theme "semanticTokenColors"))
    eqn:Esh.
  { destruct (proj2 (missingTokens_cases _ essentialTokens) Esh) as [e He];
      [discriminate |].
    rewrite He in E. discriminate E. }
  destruct (proj1 (missingTokens_cases _ essentialTokens) Esh) as [l Hl].
  rewrite Hl in E. cbn [bind negb andb] in E |- *.
  destruct (isArray (property theme "tokenColors")) eqn:Earr;
    [| rewrite andb_false_r in E; discriminate E].
  destruct (truthy (property theme "tokenColors")); [| discriminate E].
  cbn [andb] in E.
  destruct (call_forEach "theme.tokenColors" (property theme "tokenColors")
              collectScopes []) as [scopes [[] | e]]; [| discriminate E].
  match type of E with
  | bind ?c _ = _ => destruct c; [| discriminate E]
  end.
  cbn [bind] in E.
  destruct (truthy (property theme "colors")); [| discriminate E].
  destruct (typeof (property theme "colors") =? "object");
    [reflexivity | discriminate E].
Qed.

Lemma validateLightThemeStructure_true_structure_witness :
  exists text theme,
    readFileSync MoreExamples.minimal_host
      (path_join MoreExamples.minimal_host
         [dirname MoreExamples.minimal_host; "themes";
          "apollo-light-color-theme.json"])
    = Normal text
    /\ JSON_parse MoreExamples.minimal_host text = Normal theme
    /\ structure_ok theme = true.
Proof.
  apply (validateLightThemeStructure_true_structure MoreExamples.minimal_host).
  reflexivity.
Defined.

(** *** [runFinalTest] *)

Lemma countAdequate_step (h : host) (bg : number) (color : value) (n : nat) :
  (fst (countAdequate h bg color n) <= S n)%nat.
Proof.
  unfold countAdequate.
  destruct (Contrast.calculateLuminance h color); cbn [fst]; [| lia].
  match goal with |- context [geb ?c ?d] => destruct (geb c d) end; lia.
Qed.

Lemma forEach_countAdequate (h : host) (bg : number) (colors : list value) :
  forall n,
    (fst (forEach colors (countAdequate h bg) n) <= n + List.length colors)%nat.
Proof.
  induction colors as [| c rest IH]; intros n; cbn [forEach List.length].
  - cbn. lia.
  - pose proof (countAdequate_step h bg c n) as Hs.
    destruct (countAdequate h bg c n) as [n' [[] | e]]; cbn [fst] in *.
    + specialize (IH n'). lia.
    + lia.
Qed.

(** X19.  [runFinalTest] has no [catch]: when the light theme file cannot
    be read or parsed it throws that very error, where [analyzeContrast]
    on the same host returns the empty array; and when it returns, it
    returns [true]. *)
Theorem runFinalTest_propagates (h : host) :
  let themePath :=
    path_join h [dirname h; "themes"; "apollo-light-color-theme.json"] in
  (forall e,
      readFileSync h themePath = Throw e
      \/ (exists text, readFileSync h themePath = Normal text
                       /\ JSON_parse h text = Throw e) ->
      runFinalTest h = Throw e
      /\ returned (analyzeContrast h) = Normal [])
  /\ (forall b, runFinalTest h = Normal b -> b = true).
Proof.
  intros themePath. split.
  - intros e Hfail. split.
    + unfold runFinalTest, runFinalTest_report. fold themePath.
      destruct Hfail as [-> | [text [-> Hp]]]; cbn [bind];
        [reflexivity | now rewrite Hp].
    + destruct (ScriptsFacts.theme_unreadable_throws h e Hfail) as [Ha _].
      unfold analyzeContrast. now rewrite Ha.
  - intros b H. unfold runFinalTest in H.
    destruct (runFinalTest_report h); cbn in H; [| discriminate H].
    now injection H as <-.
Qed.

(** X20.  When [runFinalTest] completes, the number of colours it counts
    as adequate is at most the number of distinct syntax colours, and the
    level it prints is the level of the main contrast. *)
Theorem runFinalTest_report_counts (h : host) :
  match runFinalTest_report h with
  | Normal report =>
      (adequateContrastCount report <= List.length (syntaxColors report))%nat
      /\ mainLevel report = Contrast.getContrastLevel (mainContrast report)
  | Throw _ => True
  end.
Proof.
  unfold runFinalTest_report.
  repeat match goal with
         | |- match bind ?c _ with _ => _ end =>
             destruct c; cbn [bind]; [| exact I]
         end.
  destruct (call_forEach "theme.tokenColors" _ collectForeground [])
    as [collected [[] | e]]; [| exact I].
  repeat match goal with
         | |- match bind ?c _ with _ => _ end =>
             destruct c; cbn [bind]; [| exact I]
         end.
  match goal with
  | |- context [forEach ?l (countAdequate h ?bg) 0%nat] =>
      pose proof (forEach_countAdequate h bg l 0%nat) as Hc;
      destruct (forEach l (countAdequate h bg) 0%nat) as [n [[] | e]];
      [| exact I]
  end.
  match goal with
  | |- match bind ?c _ with _ => _ end => destruct c; cbn [bind]; [| exact I]
  end.
  cbn in *. split; [lia | reflexivity].
Qed.

(** X21.  A colour shorter than six characters is never counted as
    adequate by [runFinalTest]: its contrast is [NaN]. *)
Theorem countAdequate_short_colour (h : host) (bg : number) (s : string)
  (n : nat) :
  (String.length s <= 5)%nat ->
  countAdequate h bg (VString s) n = (n, Normal tt).
Proof.
  intros Hlen. unfold countAdequate.
  rewrite (LuminanceFacts.short_luminance_NaN h s Hlen).
  destruct bg; reflexivity.
Qed.

Lemma countAdequate_short_colour_witness :
  countAdequate Examples.empty_host (Num 1) (VString "#fff") 0
  = (0%nat, Normal tt).
Proof.
  apply (countAdequate_short_colour Examples.empty_host (Num 1) "#fff" 0%nat).
  simpl. lia.
Defined.

End ValidatorFacts.

(** ** The contrast test of the comprehensive suite; long paths *)

Module SuiteFacts.
Import JS Dyn TestSuite SuiteContrast LongPaths.

Lemma after_snoc (calls : list call) (c : call) :
  apply_call (after calls) c = after (calls ++ [c]).
Proof. unfold after. now rewrite fold_left_app. Qed.

Lemma logPass_after (calls : list call) (m : string) :
  logPass m (after calls) = after (calls ++ [LogPass m]).
Proof. apply (after_snoc calls (LogPass m)). Qed.

Lemma logFail_after (calls : list call) (m : string) :
  logFail m (after calls) = after (calls ++ [LogFail m]).
Proof. apply (after_snoc calls (LogFail m)). Qed.

Lemma logWarning_after (calls : list call) (m : string) :
  logWarning m (after calls) = after (calls ++ [LogWarning m]).
Proof. apply (after_snoc calls (LogWarning m)). Qed.

Section WithHost.
Variable h : host.
Variable toFixed : number -> nat -> string.

(** One theme adds one entry (an exception before the main contrast is
    known) or two. *)
Lemma testContrastRatios_theme_calls (themeFile themeName : string)
  (calls0 : list call) :
  exists calls,
    testContrastRatios_theme h toFixed themeFile themeName (after calls0)
    = after (calls0 ++ calls)
    /\ (1 <= List.length calls <= 2)%nat.
Proof.
  unfold testContrastRatios_theme.
  match goal with
  | |- context [match ?c with Normal _ => _ | Throw _ => _ end] =>
      destruct c as [[[theme bg] mainContrast] | e]
  end.
  2:{ eexists [_]. rewrite logFail_after. split; [reflexivity | cbn; lia]. }
  assert (H1 : exists c1,
             (if geb mainContrast (Num 4.5)
              then logPass (themeName ++ ": Main editor contrast "
                            ++ toFixed mainContrast 2 ++ ":1 (AA compliant)")
                           (after calls0)
              else if geb mainContrast (Num 3)
              then logWarning (themeName ++ ": Main editor contrast "
                               ++ toFixed mainContrast 2 ++ ":1 (AA Large only)")
                              (after calls0)
              else logFail (themeName ++ ": Main editor contrast "
                            ++ toFixed mainContrast 2
                            ++ ":1 (Below AA standards)") (after calls0))
             = after (calls0 ++ [c1])).
  { destruct (geb mainContrast (Num 4.5)); [| destruct (geb mainContrast (Num 3))];
      eexists; first [apply logPass_after | apply logWarning_after
                     | apply logFail_after]. }
  destruct H1 as [c1 ->].
  assert (Hfail : forall e,
             exists calls,
               logFail (themeFile ++ ": Contrast validation failed - "
                        ++ Dyn.message e) (after (calls0 ++ [c1]))
               = after (calls0 ++ calls)
               /\ (1 <= List.length calls <= 2)%nat).
  { intros e. exists [c1; LogFail (themeFile ++ ": Contrast validation failed - "
                                   ++ Dyn.message e)].
    rewrite logFail_after, <- app_assoc. split; [reflexivity | cbn; lia]. }
  destruct (get theme "tokenColors") as [tokenColors | e]; [| apply Hfail].
  destruct (call_forEach "theme.tokenColors" tokenColors
              (countLowContrast h bg) (0%nat, 0%nat))
    as [[low total] [[] | e]]; [| apply Hfail].
  destruct (low =? 0)%nat.
  - eexists [c1; _]. rewrite logPass_after, <- app_assoc.
    split; [reflexivity | cbn; lia].
  - eexists [c1; _]. rewrite logWarning_after, <- app_assoc.
    split; [reflexivity | cbn; lia].
Qed.

End WithHost.

(** X22.  Whatever was logged before, [testContrastRatios] only appends to
    the log, between two and four entries for the two themes; so the
    counters still agree with the recorded tests afterwards. *)
Theorem testContrastRatios_appends (h : host)
  (toFixed : number -> nat -> string) (calls0 : list call) :
  exists calls,
    testContrastRatios h toFixed (after calls0) = after (calls0 ++ calls)
    /\ (2 <= List.length calls <= 4)%nat.
Proof.
  unfold testContrastRatios.
  destruct (testContrastRatios_theme_calls h toFixed
              "apollo-dark-color-theme.json" "Apollo Dark" calls0)
    as (c1 & -> & H1).
  destruct (testContrastRatios_theme_calls h toFixed
              "apollo-light-color-theme.json" "Apollo Light"
              (calls0 ++ c1)%list)
    as (c2 & -> & H2).
  exists (c1 ++ c2)%list. rewrite app_assoc. split; [reflexivity |].
  rewrite length_app. lia.
Qed.

(** X23.  A theme whose [tokenColors] array is empty passes the syntax
    check with the percentage [0/0 * 100], a [NaN], in the message. *)
Theorem testContrastRatios_no_token_colours (h : host)
  (toFixed : number -> nat -> string) (themeFile themeName : string)
  (r : results) (text bg fg : string) (props colors : list (string * value)) :
  readFileSync h (path_join h [dirname h; "themes"; themeFile]) = Normal text ->
  JSON_parse h text = Normal (VObject props) ->
  lookup "colors" props = Some (VObject colors) ->
  lookup "editor.background" colors = Some (VString bg) ->
  lookup "editor.foreground" colors = Some (VString fg) ->
  lookup "tokenColors" props = Some (VArray []) ->
  exists r1,
    testContrastRatios_theme h toFixed themeFile themeName r
    = logPass (themeName ++ ": All syntax colors meet minimum contrast ("
               ++ toFixed NaN 1 ++ "%)") r1
    /\ tests r1 <> tests r.
Proof.
  intros Hr Hp Hc Hbg Hfg Ht. unfold testContrastRatios_theme.
  rewrite Hr. cbn [bind]. rewrite Hp. cbn [bind get]. rewrite Hc.
  cbn [bind get]. rewrite Hbg, Hfg. cbn [bind].
  destruct (ContrastFacts.calculateLuminance_alpha_string h bg) as [l1 E1].
  destruct (ContrastFacts.calculateLuminance_alpha_string h fg) as [l2 E2].
  rewrite (ContrastFacts.calculateContrastRatio_inline h _ _ _ _ E1 E2).
  cbn [bind get]. rewrite Ht. cbn [call_forEach forEach Nat.eqb].
  assert (Hnan : contrastPercentage 0 0 = NaN).
  { unfold contrastPercentage, div. cbn [Nat.sub INR].
    destruct (Req_dec_T 0 0) as [_ | Hne]; [reflexivity | now contradict Hne]. }
  rewrite Hnan. eexists. split; [reflexivity |].
  destruct (geb _ (Num 4.5)); [| destruct (geb _ (Num 3))];
    cbn [logPass logWarning logFail tests]; intros H;
    apply (f_equal (@List.length _)) in H; rewrite length_app in H;
    cbn in H; lia.
Qed.

Lemma testContrastRatios_no_token_colours_witness :
  exists r1,
    testContrastRatios_theme MoreExamples.no_tokens_host MoreExamples.render
      "apollo-dark-color-theme.json" "Apollo Dark" initial
    = logPass ("Apollo Dark" ++ ": All syntax colors meet minimum contrast ("
               ++ MoreExamples.render NaN 1 ++ "%)") r1
    /\ tests r1 <> tests initial.
Proof.
  apply (testContrastRatios_no_token_colours MoreExamples.no_tokens_host
           MoreExamples.render "apollo-dark-color-theme.json" "Apollo Dark"
           initial "{}" "#090a14" "#ebede9" MoreExamples.no_tokens_theme
           [("editor.background", VString "#090a14");
            ("editor.foreground", VString "#ebede9")]);
    reflexivity.
Defined.

Lemma checkLength_short (h : host) (platform f : string)
  (issues : list string) :
  (String.length (path_resolve h (dirname h) f) <= 200)%nat ->
  checkLength h platform f issues = issues.
Proof.
  intros Hlen. unfold checkLength.
  destruct (Nat.ltb_spec 250 (String.length (path_resolve h (dirname h) f)));
    [lia |].
  destruct (Nat.ltb_spec 200 (String.length (path_resolve h (dirname h) f)));
    [lia |].
  now rewrite andb_false_r.
Qed.

Lemma checkLength_grows (h : host) (platform f : string)
  (issues : list string) :
  (List.length issues <= List.length (checkLength h platform f issues))%nat
  /\ ((200 < String.length (path_resolve h (dirname h) f))%nat ->
      (List.length issues < List.length (checkLength h platform f issues))%nat).
Proof.
  unfold checkLength, ColorFormat.push.
  destruct ((platform =? "win32")
            && (250 <? String.length (path_resolve h (dirname h) f))%nat);
    destruct (Nat.ltb_spec 200 (String.length (path_resolve h (dirname h) f)));
    rewrite ?length_app; cbn [List.length]; lia.
Qed.

(** X24.  [testLongPathSupport] always returns [passed = true], also when
    it records issues; it records none exactly when both resolved theme
    paths have at most 200 characters. *)
Theorem testLongPathSupport_always_passes (h : host) (platform : string) :
  Scripts.passed (testLongPathSupport h platform) = true
  /\ (Scripts.issues (testLongPathSupport h platform) = []
      <-> forall f, In f Scripts.themeFiles ->
                    (String.length (path_resolve h (dirname h) f) <= 200)%nat).
Proof.
  split; [reflexivity |].
  unfold testLongPathSupport, Scripts.themeFiles.
  cbn [Scripts.issues fold_left].
  set (f1 := "themes/apollo-dark-color-theme.json").
  set (f2 := "themes/apollo-light-color-theme.json").
  pose proof (checkLength_grows h platform f1 []) as [G1 S1].
  pose proof (checkLength_grows h platform f2 (checkLength h platform f1 []))
    as [G2 S2].
  split.
  - intros H. rewrite H in *. cbn [List.length] in *.
    intros f [<- | [<- | []]].
    + destruct (Nat.le_gt_cases
                  (String.length (path_resolve h (dirname h) f1)) 200);
        [assumption | specialize (S1 ltac:(assumption)); lia].
    + destruct (Nat.le_gt_cases
                  (String.length (path_resolve h (dirname h) f2)) 200);
        [assumption | specialize (S2 ltac:(assumption)); lia].
  - intros H.
    rewrite (checkLength_short h platform f1 [] (H f1 (or_introl eq_refl))).
    apply checkLength_short. apply H. right. now left.
Qed.

End SuiteFacts.

(** ** Object spread *)

Module SpreadFacts.
Import Palette Examples.






End SpreadFacts.

(** ** Cross-platform suite: permissions, colour keys, alpha channel *)

Module PermissionFacts.
Import Dyn FilePermissions.

Lemma land_511 (mode : Z) : Z.land mode 511 = (mode mod 512)%Z.
Proof. change 511%Z with (Z.ones 9). apply Z.land_ones. lia. Qed.

Lemma includes_4_small (n : Z) :
  (0 <= n < 512)%Z ->
  string_includes "4" (toString8 n)
  = ((n / 64 =? 4) || (n / 8 mod 8 =? 4) || (n mod 8 =? 4))%Z.
Proof.
  intros Hn.
  assert (Hall :
    forallb (fun k =>
               Bool.eqb (string_includes "4" (toString8 (Z.of_nat k)))
                 ((Z.of_nat k / 64 =? 4) || (Z.of_nat k / 8 mod 8 =? 4)
                  || (Z.of_nat k mod 8 =? 4))%Z)
            (seq 0 512) = true) by (vm_compute; reflexivity).
  rewrite forallb_forall in Hall.
  specialize (Hall (Z.to_nat n)).
  rewrite Z2Nat.id in Hall by lia.
  apply Bool.eqb_prop, Hall, in_seq. lia.
Qed.

Lemma digits_of_masked (mode : Z) :
  ((mode mod 512) / 64 = mode / 64 mod 8
   /\ (mode mod 512) / 8 mod 8 = mode / 8 mod 8
   /\ (mode mod 512) mod 8 = mode mod 8)%Z.
Proof. repeat apply conj; Z.div_mod_to_equations; lia. Qed.

Lemma insufficient_digits (mode : Z) :
  insufficient mode
  = negb ((mode / 64 mod 8 =? 4) || (mode / 8 mod 8 =? 4)
          || (mode mod 8 =? 4))%Z.
Proof.
  unfold insufficient, permissions. rewrite land_511.
  rewrite includes_4_small by (apply Z.mod_pos_bound; lia).
  destruct (digits_of_masked mode) as (-> & -> & ->). reflexivity.
Qed.

(** X26.  The permission check of [testFilePermissions] reports a file
    exactly when none of the three octal digits of its mode (owner, group,
    others) is 4, that is, when no class has read permission and nothing
    else.  So a file everyone may read, write and execute (777) is
    reported, and a file only others may read (004) is not. *)
Theorem insufficient_iff_no_digit_four (mode : Z) :
  (insufficient mode = true
   <-> (mode / 64 mod 8 <> 4 /\ mode / 8 mod 8 <> 4 /\ mode mod 8 <> 4)%Z)
  /\ (Z.land mode 511 = 511%Z -> insufficient mode = true)
  /\ (Z.land mode 511 = 4%Z -> insufficient mode = false).
Proof.
  split; [| split].
  - rewrite insufficient_digits.
    destruct (Z.eqb_spec (mode / 64 mod 8) 4) as [E1 | E1];
      destruct (Z.eqb_spec (mode / 8 mod 8) 4) as [E2 | E2];
      destruct (Z.eqb_spec (mode mod 8) 4) as [E3 | E3];
      cbn [orb negb]; split; try discriminate; try tauto.
  - intros H. unfold insufficient, permissions. rewrite H. reflexivity.
  - intros H. unfold insufficient, permissions. rewrite H. reflexivity.
Qed.

Section WithHost.
Variable h : host.
Variable platform : string.
Variable statSync : string -> completion Z.
Variable accessSync : string -> completion unit.

Notation "'check'" := (checkPermissions h platform statSync accessSync).

(** What one theme file needs for the test to pass. *)
Notation "'readable' f" :=
  (existsSync h (path_join h [dirname h; f]) = true ->
   (exists mode, statSync (path_join h [dirname h; f]) = Normal mode)
   /\ accessSync (path_join h [dirname h; f]) = Normal tt)
  (at level 10, f at level 9).

Lemma checkPermissions_step (f : string) (st : Scripts.result) :
  match check f st with
  | (st', Normal _) =>
      (Scripts.passed st' = true <-> Scripts.passed st = true /\ readable f)
  | (st', Throw _) => st' = st /\ ~ readable f
  end.
Proof.
  unfold checkPermissions.
  destruct (existsSync h (path_join h [dirname h; f]));
    [destruct (statSync (path_join h [dirname h; f])) as [mode | e];
     [destruct (accessSync (path_join h [dirname h; f])) as [[] | e];
      (destruct (negb (platform =? "win32"));
       [destruct (insufficient mode) |]) |] |];
    cbn [Scripts.passed Scripts.fail_with].
  all: try solve [split; [intros H; split;
                            [exact H
                            | intros _; split;
                              [eexists; reflexivity | reflexivity]]
                         | tauto]].
  all: try solve [split; [discriminate
                         | intros [_ H]; destruct (H eq_refl) as [_ H1];
                           discriminate H1]].
  - split; [reflexivity |]. intros H.
    destruct (H eq_refl) as [[mode H1] _]. discriminate H1.
  - split; [intros H; split; [exact H | discriminate] | tauto].
Qed.

Lemma forEachFile_passed (files : list string) (st : Scripts.result) :
  Scripts.passed
    match CrossPlatform.forEachFile files check st with
    | (st', Normal _) => st'
    | (st', Throw error) =>
        Scripts.fail_with
          ("File permissions test failed: " ++ message error) st'
    end = true
  <-> Scripts.passed st = true /\ forall f, In f files -> readable f.
Proof.
  revert st. induction files as [| f rest IH]; intros st;
    cbn [CrossPlatform.forEachFile].
  - split; [intros H; split; [exact H | intros f []] | tauto].
  - pose proof (checkPermissions_step f st) as Hstep.
    destruct (check f st) as [st' [[] | e]].
    + rewrite IH, Hstep. split.
      * intros [[Hp Hf] Hrest]. split; [exact Hp |].
        intros g [<- | Hg]; [exact Hf | exact (Hrest g Hg)].
      * intros [Hp Hall]. split; [split; [exact Hp |] |].
        -- apply Hall. now left.
        -- intros g Hg. apply Hall. now right.
    + destruct Hstep as [-> Hnot]. cbn [Scripts.fail_with Scripts.passed].
      split; [discriminate |]. intros [_ Hall]. exfalso. apply Hnot.
      apply Hall. now left.
Qed.

(** X27.  [testFilePermissions] passes exactly when, for each theme file
    that exists, [statSync] and [accessSync] do not throw: a file that
    does not exist is skipped, and an 'Insufficient read permissions'
    issue never changes [passed].  When neither theme file exists the test
    passes without an issue. *)
Theorem testFilePermissions_passed_iff :
  (Scripts.passed (testFilePermissions h platform statSync accessSync) = true
   <-> forall f, In f Scripts.themeFiles -> readable f)
  /\ ((forall f, In f Scripts.themeFiles ->
                 existsSync h (path_join h [dirname h; f]) = false) ->
      testFilePermissions h platform statSync accessSync
      = Scripts.Result true []).
Proof.
  split.
  - unfold testFilePermissions. rewrite forEachFile_passed.
    cbn [Scripts.passed]. tauto.
  - intros Hmissing. unfold testFilePermissions, Scripts.themeFiles.
    cbn [CrossPlatform.forEachFile]. unfold checkPermissions.
    rewrite !Hmissing by (cbn [In Scripts.themeFiles]; tauto).
    reflexivity.
Qed.

End WithHost.
End PermissionFacts.

Module ConsistencyFacts.
Import ColorConsistency.

Lemma filter_nil_iff {A : Type} (p : A -> bool) (l : list A) :
  List.filter p l = [] <-> forall x, In x l -> p x = false.
Proof.
  induction l as [| a l IH]; cbn [List.filter].
  - split; [intros _ x [] | reflexivity].
  - destruct (p a) eqn:E.
    + split; [discriminate |]. intros H.
      rewrite (H a (or_introl eq_refl)) in E. discriminate E.
    + rewrite IH. split.
      * intros H x [<- | Hx]; [exact E | exact (H x Hx)].
      * intros H x Hx. apply H. now right.
Qed.

Lemma missing_nil_iff (keys others : list string) :
  List.filter (fun key => negb (Palette.includes others key)) keys = []
  <-> forall k, In k keys -> In k others.
Proof.
  rewrite filter_nil_iff. split; intros H k Hk.
  - apply PaletteFacts.includes_In. specialize (H k Hk).
    now apply negb_false_iff in H.
  - apply negb_false_iff, PaletteFacts.includes_In, H, Hk.
Qed.

Lemma length_pos_iff {A : Type} (l : list A) :
  (0 <? List.length l)%nat = false <-> l = [].
Proof. destruct l; cbn; split; congruence. Qed.

(** X28.  The key comparison of [testColorConsistency] records no issue
    exactly when the two themes define the same set of colour keys,
    whatever their order; otherwise it appends one or two issues. *)
Theorem compareKeys_same_key_set (darkKeys lightKeys issues : list string) :
  (compareKeys darkKeys lightKeys issues = issues
   <-> forall k, In k darkKeys <-> In k lightKeys)
  /\ exists added,
       compareKeys darkKeys lightKeys issues = (issues ++ added)%list
       /\ (List.length added <= 2)%nat.
Proof.
  unfold compareKeys, ColorFormat.push.
  pose proof (missing_nil_iff darkKeys lightKeys) as HL.
  pose proof (missing_nil_iff lightKeys darkKeys) as HD.
  fold (missingInLight darkKeys lightKeys) in HL.
  fold (missingInDark darkKeys lightKeys) in HD.
  destruct (0 <? List.length (missingInLight darkKeys lightKeys))%nat eqn:EL;
    destruct (0 <? List.length (missingInDark darkKeys lightKeys))%nat eqn:ED.
  - split.
    + split.
      * intros H. apply (f_equal (@List.length string)) in H.
        rewrite !length_app in H. cbn [List.length] in H. lia.
      * intros H. exfalso.
        assert (E : missingInLight darkKeys lightKeys = [])
          by (apply HL; intros k; apply H).
        rewrite E in EL. discriminate EL.
    + eexists. rewrite <- app_assoc. split; [reflexivity |]. cbn. lia.
  - apply length_pos_iff in ED. split.
    + split.
      * intros H. apply (f_equal (@List.length string)) in H.
        rewrite !length_app in H. cbn [List.length] in H. lia.
      * intros H. exfalso.
        assert (E : missingInLight darkKeys lightKeys = [])
          by (apply HL; intros k; apply H).
        rewrite E in EL. discriminate EL.
    + eexists. split; [reflexivity |]. cbn. lia.
  - apply length_pos_iff in EL. split.
    + split.
      * intros H. apply (f_equal (@List.length string)) in H.
        rewrite !length_app in H. cbn [List.length] in H. lia.
      * intros H. exfalso.
        assert (E : missingInDark darkKeys lightKeys = [])
          by (apply HD; intros k; apply H).
        rewrite E in ED. discriminate ED.
    + eexists. split; [reflexivity |]. cbn. lia.
  - apply length_pos_iff in EL. apply length_pos_iff in ED. split.
    + split; [| reflexivity]. intros _ k. split.
      * apply HL, EL.
      * apply HD, ED.
    + exists []. rewrite app_nil_r. split; [reflexivity | cbn; lia].
Qed.

End ConsistencyFacts.

Module AlphaFacts.
Import JS Dyn Regex HexColor AlphaChannel.

Lemma alphaPattern_two (a1 a2 : ascii) :
  test alphaPattern (String a1 (String a2 ""))
  = in_class [("A", "F"); ("a", "f"); ("0", "9")]%char a1
    && in_class [("A", "F"); ("a", "f"); ("0", "9")]%char a2.
Proof.
  unfold alphaPattern, ColorFormat.hex_class.
  cbn [Rep test deriv nullable].
  destruct (in_class _ a1); cbn [Rep test deriv nullable andb orb];
    [| reflexivity].
  destruct (in_class _ a2); reflexivity.
Qed.

Lemma push_neq (l : list string) (x : string) : (l ++ [x])%list <> l.
Proof.
  intros H. apply (f_equal (@List.length string)) in H.
  rewrite length_app in H. cbn [List.length] in H. lia.
Qed.

(** X29.  For a 9-character value that starts with ['#'], the alpha check
    counts the value and looks at the last two characters only: it passes
    exactly when both are hexadecimal digits, whatever the six characters
    before them are. *)
Theorem countAlpha_reads_alpha_only (themeFile key : string)
  (c1 c2 c3 c4 c5 c6 a1 a2 : ascii) (st : alpha_result) :
  let v := String "#" (String c1 (String c2 (String c3 (String c4
             (String c5 (String c6 (String a1 (String a2 "")))))))) in
  let st' := countAlpha themeFile (key, VString v) st in
  alphaColorsFound st' = S (alphaColorsFound st)
  /\ (passed st' = true
      <-> passed st = true /\ is_hex_char a1 /\ is_hex_char a2)
  /\ (issues st' = issues st <-> is_hex_char a1 /\ is_hex_char a2).
Proof.
  cbv zeta. unfold countAlpha.
  cbn [String.length Nat.eqb ColorFormat.startsWith String.prefix andb
       substring].
  rewrite alphaPattern_two.
  rewrite <- !ColorFormatFacts.in_hex_class_AFaf09.
  destruct (Ascii.ascii_dec "#" "#") as [_ | N]; [| now elim N].
  destruct (in_class _ a1); destruct (in_class _ a2);
    cbn [negb andb passed issues alphaColorsFound ColorFormat.push];
    (split; [reflexivity |]); split; split; intros H;
    repeat match goal with
           | H : _ /\ _ |- _ => destruct H
           end;
    try discriminate;
    try (exfalso; apply (push_neq _ _ H));
    repeat apply conj; auto.
Qed.

Section WithHost.
Variable h : host.

Notation "'invariant' st" :=
  ((passed st = true <-> issues st = [])
   /\ le (List.length (issues st)) (alphaColorsFound st))
  (at level 10, st at level 9).

Lemma countAlpha_invariant (themeFile : string) (entry : string * value)
  (st : alpha_result) :
  invariant st -> invariant (countAlpha themeFile entry st).
Proof.
  intros [Hp Hl]. unfold countAlpha. destruct entry as [key value].
  destruct value as [| | b | n | v | elems | props];
    try (split; assumption).
  destruct ((String.length v =? 9)%nat && ColorFormat.startsWith v "#");
    [| split; assumption].
  destruct (negb (test alphaPattern (substring 7 2 v)));
    cbn [passed issues alphaColorsFound]; unfold ColorFormat.push.
  - split.
    + split; [discriminate |]. intros H. now apply app_eq_nil in H.
    + rewrite length_app. cbn [List.length]. lia.
  - split; [exact Hp | lia].
Qed.

Lemma fold_countAlpha_invariant (themeFile : string)
  (entries : list (string * value)) (st : alpha_result) :
  invariant st ->
  invariant (fold_left (fun st' entry => countAlpha themeFile entry st')
                       entries st).
Proof.
  revert st. induction entries as [| e rest IH]; intros st Hst;
    cbn [fold_left]; [exact Hst |].
  apply IH, countAlpha_invariant, Hst.
Qed.

Lemma countThemeAlpha_invariant (themeFile : string) (st : alpha_result) :
  invariant st -> invariant (fst (countThemeAlpha h themeFile st)).
Proof.
  intros Hst. unfold countThemeAlpha.
  destruct (bind _ _) as [colors | e]; [| exact Hst].
  destruct (truthy colors); [| exact Hst].
  cbn [fst]. apply fold_countAlpha_invariant, Hst.
Qed.

Lemma forEachFile_invariant (files : list string) (st : alpha_result) :
  invariant st ->
  invariant (fst (CrossPlatform.forEachFile files (countThemeAlpha h) st)).
Proof.
  revert st. induction files as [| f rest IH]; intros st Hst;
    cbn [CrossPlatform.forEachFile]; [exact Hst |].
  pose proof (countThemeAlpha_invariant f st Hst) as Hf.
  destruct (countThemeAlpha h f st) as [st' [[] | e]]; cbn [fst] in Hf.
  - apply IH, Hf.
  - exact Hf.
Qed.

(** X30.  [testAlphaChannelSupport] passes exactly when it records no
    issue, and it never records more issues than it counted alpha colours,
    the message of a caught exception apart. *)
Theorem testAlphaChannelSupport_consistent :
  let r := testAlphaChannelSupport h in
  (passed r = true <-> issues r = [])
  /\ (List.length (issues r) <= S (alphaColorsFound r))%nat.
Proof.
  cbv zeta. unfold testAlphaChannelSupport.
  assert (H0 : invariant (AlphaResult true [] 0))
    by (cbn; split; [tauto | lia]).
  pose proof (forEachFile_invariant Scripts.themeFiles _ H0) as Hinv.
  destruct (CrossPlatform.forEachFile _ _ _) as [st [[] | e]];
    cbn [fst] in Hinv; destruct Hinv as [Hp Hl].
  - split; [exact Hp | lia].
  - cbn [passed issues alphaColorsFound]. unfold ColorFormat.push. split.
    + split; [discriminate |]. intros H. now apply app_eq_nil in H.
    + rewrite length_app. cbn [List.length]. lia.
Qed.

End WithHost.
End AlphaFacts.
